(** * Phosphor [Widget]: a shallow embedding of src/widgets/widget.ts

    The widget tree lives in a store: widgets, their child arrays and the
    layouts are heap objects named by identifiers, so that the aliasing the
    TypeScript code relies on (a child array shared between a widget and a
    loop over it, a layout installed on one widget and offered to another)
    is visible in the model.  Methods are computations in a state monad
    with exceptions; an exception carries the store as it was when it was
    thrown, because JavaScript does not roll anything back. *)

From Stdlib Require Import ZArith String List Lia Bool.
From stdpp Require Import base option list gmap strings.

Local Open Scope string_scope.
Local Open Scope list_scope.
Local Open Scope Z_scope.

(** ** Numbers

    A JavaScript [number] as far as geometry uses it: finite values, the
    two infinities (an absent max-width is [Infinity]) and [NaN].  Only
    comparison, [Math.min] and [Math.max] are applied to them, none of
    which rounds; finite values are taken to be integers (pixels), and
    the sign of zero, which [===] cannot observe, is not represented. *)

Inductive number : Type :=
  | Fin (z : Z)
  | PosInf
  | NegInf
  | NaN.

Definition number_eq_dec (a b : number) : {a = b} + {a <> b}.
Proof. decide equality. apply Z.eq_dec. Defined.

#[global] Instance number_eqdec : EqDecision number := number_eq_dec.

Definition isNaN (a : number) : bool :=
  match a with NaN => true | _ => false end.

(** [a <= b] on numbers that are not [NaN]. *)
Definition num_le (a b : number) : bool :=
  match a, b with
  | NaN, _ | _, NaN => false
  | NegInf, _ => true
  | _, PosInf => true
  | Fin x, Fin y => Z.leb x y
  | _, _ => false
  end.

(** [Math.min] and [Math.max]: [NaN] if either argument is. *)
Definition Math_min (a b : number) : number :=
  if isNaN a || isNaN b then NaN else if num_le a b then a else b.

Definition Math_max (a b : number) : number :=
  if isNaN a || isNaN b then NaN else if num_le a b then b else a.

(** [a !== b] on numbers: [NaN] differs from everything, itself included. *)
Definition strict_ne (a b : number) : bool :=
  if isNaN a || isNaN b then true else negb (bool_decide (a = b)).

(** ** 32-bit integers for the flag word *)

(** [ToInt32]: the result of every JavaScript bitwise operator. *)
Definition ToInt32 (z : Z) : Z := (z + 2 ^ 31) mod 2 ^ 32 - 2 ^ 31.

Definition js_or (a b : Z) : Z := ToInt32 (Z.lor a b).
Definition js_and (a b : Z) : Z := ToInt32 (Z.land a b).
Definition js_not (a : Z) : Z := ToInt32 (Z.lnot a).

(** Modelled from the spec: the [WidgetFlag] enumeration is declared outside
    widget.ts; the spec calls the flags a set of independent booleans, so
    each one is given a bit of its own. *)
Inductive WidgetFlag : Type :=
  | IsAttached
  | IsHidden
  | IsVisible
  | IsDisposed
  | DisallowLayoutChange.

Definition WidgetFlag_eq_dec (a b : WidgetFlag) : {a = b} + {a <> b}.
Proof. decide equality. Defined.

#[global] Instance WidgetFlag_eqdec : EqDecision WidgetFlag := WidgetFlag_eq_dec.

Definition flag_index (f : WidgetFlag) : Z :=
  match f with
  | IsAttached => 0
  | IsHidden => 1
  | IsVisible => 2
  | IsDisposed => 3
  | DisallowLayoutChange => 4
  end.

Definition flag_bit (f : WidgetFlag) : Z := Z.shiftl 1 (flag_index f).

(** ** Identifiers and heap objects *)

Definition wid := nat.   (* a Widget object *)
Definition aid := nat.   (* an Array object *)
Definition lid := nat.   (* a Layout object *)

(** A DOM node is named by who made it: the element a widget created in
    its constructor, or an element of the page handed to [attach]. *)
Inductive NodeRef : Type :=
  | HostNode (h : nat)
  | WidgetNode (w : wid).

Definition NodeRef_eq_dec (a b : NodeRef) : {a = b} + {a <> b}.
Proof. decide equality; apply Nat.eq_dec. Defined.

#[global] Instance NodeRef_eqdec : EqDecision NodeRef := NodeRef_eq_dec.

(** What [createBoxSizing] reads off a node's style. *)
Record IBoxSizing : Type := mkBox {
  minWidth : number;
  maxWidth : number;
  minHeight : number;
  maxHeight : number;
  paddingLeft : number;
  paddingTop : number;
  horizontalSum : number;
  verticalSum : number
}.

Record Style : Type := mkStyle {
  style_left : option number;    (* in px *)
  style_top : option number;
  style_width : option number;
  style_height : option number
}.

(** Modelled from the spec: the visual surface is an external collaborator,
    an opaque handle with class tokens, style properties and insertion into
    and removal from a surface tree.  [css] stands for the limits the
    node's style sheet gives it, which [createBoxSizing] returns. *)
Record HTMLElement : Type := mkElement {
  parentNode : option NodeRef;
  classList : list string;
  style : Style;
  css : IBoxSizing
}.

Inductive Message : Type :=
  | Msg (type : string)                       (* new Message(type) *)
  | ChildMessage (type : string) (child : wid)
  | MoveMessage (oldX oldY x y : number)
  | ResizeMessage (oldWidth oldHeight width height : number).

Definition msg_type (m : Message) : string :=
  match m with
  | Msg t => t
  | ChildMessage t _ => t
  | MoveMessage _ _ _ _ => "move"
  | ResizeMessage _ _ _ _ => "resize"
  end.

Definition Message_eq_dec (a b : Message) : {a = b} + {a <> b}.
Proof.
  decide equality; try apply number_eq_dec; try apply string_dec;
    apply Nat.eq_dec.
Defined.

#[global] Instance Message_eqdec : EqDecision Message := Message_eq_dec.

Record Widget : Type := mkWidget {
  _node : option HTMLElement;
  _layout : option lid;
  _parent : option wid;
  _children : aid;
  _sizePolicy : Z;
  _boxSizing : option IBoxSizing;
  _x : number;
  _y : number;
  _width : number;
  _height : number;
  _flags : Z
}.

(** Modelled from the spec: a layout strategy is external; what the widget
    sees of it is the single-owner [parent] slot, [invalidate()] and
    [dispose()].  A layout nobody has touched yet is in its initial
    condition, which is what looking up an unknown identifier yields. *)
Record Layout : Type := mkLayout {
  l_parent : option wid;
  l_disposed : bool
}.

#[global] Instance Layout_inhabited : Inhabited Layout :=
  populate (mkLayout None false).

(** What an observer of the widget can see happen, in order. *)
Inductive Event : Type :=
  | Sent (depth : nat) (handler : wid) (msg : Message)
  | Posted (handler : wid) (msg : Message)
  | Emitted (sender : wid)                    (* the [disposed] signal *)
  | Invalidated (l : lid)
  | Appended (parent : NodeRef) (child : wid)
  | Removed (parent : NodeRef) (child : wid).

Record State : Type := mkState {
  widgets : gmap wid Widget;
  arrays : gmap aid (list (option wid));
  layouts : gmap lid Layout;
  queues : gmap wid (list Message);     (* posted, not yet delivered *)
  filters : gmap wid (list lid);        (* installed message filters *)
  trace : list Event;
  depth : nat                           (* nesting of sendMessage *)
}.

Definition empty_state : State := mkState ∅ ∅ ∅ ∅ ∅ [] 0.

(** ** The monad *)

Inductive Error : Type :=
  | Err (message : string)     (* throw new Error(message) *)
  | TypeError                  (* a property of null or undefined *)
  | NotFoundError.             (* removeChild of a node that is no child *)

(** [Stuck]: the fuel ran out, or a reference names no object (which no
    JavaScript reference does). *)
Inductive Outcome (A : Type) : Type :=
  | Ret (a : A) (s : State)
  | Throw (e : Error) (s : State)
  | Stuck.

Arguments Ret {A} a s.
Arguments Throw {A} e s.
Arguments Stuck {A}.

Definition M (A : Type) : Type := State -> Outcome A.

#[global] Instance M_ret : MRet M := fun A a s => Ret a s.

#[global] Instance M_bind : MBind M := fun A B f m s =>
  match m s with
  | Ret a s' => f a s'
  | Throw e s' => Throw e s'
  | Stuck => Stuck
  end.

Definition throw {A} (e : Error) : M A := fun s => Throw e s.
Definition stuck {A} : M A := fun _ => Stuck.
Definition get : M State := fun s => Ret s s.
Definition modify (f : State -> State) : M unit := fun s => Ret tt (f s).

Definition when (b : bool) (m : M unit) : M unit :=
  if b then m else mret tt.

(** [for (var i = from; i < length(); ++i) body(i)], the length read again
    at every turn as the source does. *)
Fixpoint for_loop (fuel : nat) (length : M nat) (body : nat -> M unit)
    (i : nat) : M unit :=
  match fuel with
  | O => stuck
  | S fuel' =>
      n ← length;
      if (i <? n)%nat then body i ;; for_loop fuel' length body (S i)
      else mret tt
  end.

(** ** Store access *)

Definition set_widgets (f : gmap wid Widget -> gmap wid Widget) (s : State) : State :=
  mkState (f (widgets s)) (arrays s) (layouts s) (queues s) (filters s)
          (trace s) (depth s).

Definition set_arrays (f : gmap aid (list (option wid)) -> gmap aid (list (option wid)))
    (s : State) : State :=
  mkState (widgets s) (f (arrays s)) (layouts s) (queues s) (filters s)
          (trace s) (depth s).

Definition set_layouts (f : gmap lid Layout -> gmap lid Layout) (s : State) : State :=
  mkState (widgets s) (arrays s) (f (layouts s)) (queues s) (filters s)
          (trace s) (depth s).

Definition set_queues (f : gmap wid (list Message) -> gmap wid (list Message))
    (s : State) : State :=
  mkState (widgets s) (arrays s) (layouts s) (f (queues s)) (filters s)
          (trace s) (depth s).

Definition set_filters (f : gmap wid (list lid) -> gmap wid (list lid)) (s : State) : State :=
  mkState (widgets s) (arrays s) (layouts s) (queues s) (f (filters s))
          (trace s) (depth s).

Definition set_trace (f : list Event -> list Event) (s : State) : State :=
  mkState (widgets s) (arrays s) (layouts s) (queues s) (filters s)
          (f (trace s)) (depth s).

Definition set_depth (f : nat -> nat) (s : State) : State :=
  mkState (widgets s) (arrays s) (layouts s) (queues s) (filters s)
          (trace s) (f (depth s)).

Definition log (e : Event) : M unit := modify (set_trace (fun t => t ++ [e])).

Definition getWidget (w : wid) : M Widget := fun s =>
  match widgets s !! w with
  | Some W => Ret W s
  | None => Stuck
  end.

Definition updWidget (w : wid) (f : Widget -> Widget) : M unit := fun s =>
  match widgets s !! w with
  | Some W => Ret tt (set_widgets (insert w (f W)) s)
  | None => Stuck
  end.

Definition with_node (v : option HTMLElement) (W : Widget) : Widget :=
  mkWidget v (_layout W) (_parent W) (_children W) (_sizePolicy W)
           (_boxSizing W) (_x W) (_y W) (_width W) (_height W) (_flags W).

Definition with_layout (v : option lid) (W : Widget) : Widget :=
  mkWidget (_node W) v (_parent W) (_children W) (_sizePolicy W)
           (_boxSizing W) (_x W) (_y W) (_width W) (_height W) (_flags W).

Definition with_parent (v : option wid) (W : Widget) : Widget :=
  mkWidget (_node W) (_layout W) v (_children W) (_sizePolicy W)
           (_boxSizing W) (_x W) (_y W) (_width W) (_height W) (_flags W).

Definition with_boxSizing (v : option IBoxSizing) (W : Widget) : Widget :=
  mkWidget (_node W) (_layout W) (_parent W) (_children W) (_sizePolicy W)
           v (_x W) (_y W) (_width W) (_height W) (_flags W).

Definition with_x (v : number) (W : Widget) : Widget :=
  mkWidget (_node W) (_layout W) (_parent W) (_children W) (_sizePolicy W)
           (_boxSizing W) v (_y W) (_width W) (_height W) (_flags W).

Definition with_y (v : number) (W : Widget) : Widget :=
  mkWidget (_node W) (_layout W) (_parent W) (_children W) (_sizePolicy W)
           (_boxSizing W) (_x W) v (_width W) (_height W) (_flags W).

Definition with_width (v : number) (W : Widget) : Widget :=
  mkWidget (_node W) (_layout W) (_parent W) (_children W) (_sizePolicy W)
           (_boxSizing W) (_x W) (_y W) v (_height W) (_flags W).

Definition with_height (v : number) (W : Widget) : Widget :=
  mkWidget (_node W) (_layout W) (_parent W) (_children W) (_sizePolicy W)
           (_boxSizing W) (_x W) (_y W) (_width W) v (_flags W).

Definition with_flags (v : Z) (W : Widget) : Widget :=
  mkWidget (_node W) (_layout W) (_parent W) (_children W) (_sizePolicy W)
           (_boxSizing W) (_x W) (_y W) (_width W) (_height W) v.

(** Dereferencing what may be [null]. *)
Definition nonnull {A} (o : option A) : M A :=
  match o with
  | Some a => mret a
  | None => throw TypeError
  end.

(** *** Arrays *)

Definition getArray (a : aid) : M (list (option wid)) := fun s =>
  match arrays s !! a with
  | Some l => Ret l s
  | None => Stuck
  end.

Definition updArray (a : aid) (f : list (option wid) -> list (option wid)) : M unit :=
  fun s =>
  match arrays s !! a with
  | Some l => Ret tt (set_arrays (insert a (f l)) s)
  | None => Stuck
  end.

Definition array_length (a : aid) : M nat := l ← getArray a; mret (length l).

(** [array[i]]; beyond the end it is [undefined], read here as [null]. *)
Definition array_get (a : aid) (i : nat) : M (option wid) :=
  l ← getArray a; mret (mjoin (l !! i)).

(** [array[i] = v]; beyond the end JavaScript grows the array. *)
Definition list_store (i : nat) (v : option wid) (l : list (option wid)) :
    list (option wid) :=
  if (i <? length l)%nat then <[i := v]> l
  else l ++ replicate (i - length l) None ++ [v].

Definition array_set (a : aid) (i : nat) (v : option wid) : M unit :=
  updArray a (list_store i v).

Definition array_push (a : aid) (v : option wid) : M unit :=
  updArray a (fun l => l ++ [v]).

(** [array.length = n] *)
Definition list_resize (n : nat) (l : list (option wid)) : list (option wid) :=
  take n l ++ replicate (n - length l) None.

Definition array_set_length (a : aid) (n : nat) : M unit :=
  updArray a (list_resize n).

(** [new Array] holding [l]. *)
Definition array_new (l : list (option wid)) : M aid := fun s =>
  let a := fresh (dom (arrays s)) in Ret a (set_arrays (insert a l) s).

(** [array.slice()]: a new array object with the same elements. *)
Definition array_slice (a : aid) : M aid :=
  l ← getArray a; array_new l.

(** Modelled from the spec: [collections.algorithm.remove] is not in
    widget.ts; "remove self from its child list" is read as removing the
    first occurrence of the value. *)
Fixpoint remove_first (v : option wid) (l : list (option wid)) : list (option wid) :=
  match l with
  | [] => []
  | x :: l' => if decide (x = v) then l' else x :: remove_first v l'
  end.

Definition algo_remove (a : aid) (v : option wid) : M unit :=
  updArray a (remove_first v).

(** *** Layouts *)

Definition getLayout (l : lid) : M Layout := fun s => Ret (layouts s !!! l) s.

Definition updLayout (l : lid) (f : Layout -> Layout) : M unit :=
  modify (fun s => set_layouts (insert l (f (layouts s !!! l))) s).

(** Modelled from the spec: [layout.invalidate()] marks the layout dirty;
    the widget only needs to know that it was asked. *)
Definition layout_invalidate (l : lid) : M unit := log (Invalidated l).

(** Modelled from the spec: [layout.dispose()] ends the layout's life and
    gives up its parent slot. *)
Definition layout_dispose (l : lid) : M unit :=
  updLayout l (fun _ => mkLayout None true).

(** [layout.parent = widget] *)
Definition layout_set_parent (l : lid) (w : wid) : M unit :=
  updLayout l (fun L => mkLayout (Some w) (l_disposed L)).

(** *** The dispatcher's bookkeeping

    Modelled from the spec: the dispatcher is external.  Filters are kept
    per handler; pending posted messages are kept per handler in posting
    order; [clearMessageData] drops both. *)

Definition installMessageFilter (handler : wid) (filter : lid) : M unit :=
  modify (set_filters (fun m => <[handler := filter :: m !!! handler]> m)).

Definition removeMessageFilter (handler : wid) (filter : lid) : M unit :=
  modify (set_filters (fun m =>
    <[handler := List.filter (fun f => negb (bool_decide (f = filter))) (m !!! handler)]> m)).

Definition clearMessageData (handler : wid) : M unit :=
  modify (fun s => set_filters (delete handler) (set_queues (delete handler) s)).

(** ** Widget methods *)

(** [(this._flags & flag) !== 0] *)
Definition test_flag (flags : Z) (flag : WidgetFlag) : bool :=
  negb (js_and flags (flag_bit flag) =? 0).

(** [this._flags |= flag] *)
Definition set_flag (flags : Z) (flag : WidgetFlag) : Z :=
  js_or flags (flag_bit flag).

(** [this._flags &= ~flag] *)
Definition clear_flag (flags : Z) (flag : WidgetFlag) : Z :=
  js_and flags (js_not (flag_bit flag)).

Definition testFlag (this : wid) (flag : WidgetFlag) : M bool :=
  W ← getWidget this; mret (test_flag (_flags W) flag).

Definition setFlag (this : wid) (flag : WidgetFlag) : M unit :=
  updWidget this (fun W => with_flags (set_flag (_flags W) flag) W).

Definition clearFlag (this : wid) (flag : WidgetFlag) : M unit :=
  updWidget this (fun W => with_flags (clear_flag (_flags W) flag) W).

Definition isAttached (this : wid) : M bool := testFlag this IsAttached.
Definition isDisposed (this : wid) : M bool := testFlag this IsDisposed.
Definition isHidden (this : wid) : M bool := testFlag this IsHidden.
Definition isVisible (this : wid) : M bool := testFlag this IsVisible.

Definition WIDGET_CLASS : string := "p-Widget".
Definition HIDDEN_CLASS : string := "p-mod-hidden".

(** [this._node], about to have a property read off it. *)
Definition theNode (this : wid) : M HTMLElement :=
  W ← getWidget this; nonnull (_node W).

Definition updNode (this : wid) (f : HTMLElement -> HTMLElement) : M unit :=
  nd ← theNode this;
  updWidget this (with_node (Some (f nd))).

Definition with_parentNode (v : option NodeRef) (nd : HTMLElement) : HTMLElement :=
  mkElement v (classList nd) (style nd) (css nd).

Definition with_classList (v : list string) (nd : HTMLElement) : HTMLElement :=
  mkElement (parentNode nd) v (style nd) (css nd).

Definition with_style (v : Style) (nd : HTMLElement) : HTMLElement :=
  mkElement (parentNode nd) (classList nd) v (css nd).

Definition hasClass (this : wid) (name : string) : M bool :=
  nd ← theNode this;
  mret (existsb (String.eqb name) (classList nd)).

Definition addClass (this : wid) (name : string) : M unit :=
  updNode this (fun nd =>
    if existsb (String.eqb name) (classList nd) then nd
    else with_classList (classList nd ++ [name]) nd).

Definition removeClass (this : wid) (name : string) : M unit :=
  updNode this (fun nd =>
    with_classList (List.filter (fun c => negb (String.eqb name c)) (classList nd)) nd).

(** [parent.appendChild(child._node)]: the node leaves wherever it was. *)
Definition appendChild (parent : NodeRef) (child : wid) : M unit :=
  updNode child (with_parentNode (Some parent)) ;;
  log (Appended parent child).

(** [parent.removeChild(child._node)] *)
Definition removeChild (parent : NodeRef) (child : wid) : M unit :=
  nd ← theNode child;
  if decide (parentNode nd = Some parent)
  then updNode child (with_parentNode None) ;; log (Removed parent child)
  else throw NotFoundError.

(** [createBoxSizing(this._node)] *)
Definition createBoxSizing (nd : HTMLElement) : IBoxSizing := css nd.

Definition boxSizing (this : wid) : M IBoxSizing :=
  W ← getWidget this;
  match _boxSizing W with
  | Some box => mret box
  | None =>
      nd ← nonnull (_node W);
      updWidget this (with_boxSizing (Some (createBoxSizing nd))) ;;
      W' ← getWidget this;
      nonnull (_boxSizing W')
  end.

(** The constructor.  The style sheet that will apply to the new node and
    the default size policy (a constant declared outside widget.ts) are
    given by the caller. *)
Definition newWidget (defaultSizePolicy : Z) (sheet : IBoxSizing) : M wid :=
  fun s =>
    let this := fresh (dom (widgets s)) in
    let arr := fresh (dom (arrays s)) in
    let nd := mkElement None [] (mkStyle None None None None) sheet in
    let W := mkWidget (Some nd) None None arr defaultSizePolicy None
                      (Fin 0) (Fin 0) (Fin 0) (Fin 0) 0 in
    (addClass this WIDGET_CLASS ;; mret this)
      (set_arrays (insert arr []) (set_widgets (insert this W) s)).

(** [children()] *)
Definition children (this : wid) : M aid :=
  W ← getWidget this;
  array_slice (_children W).

(** ** Messages *)

(** [compressMessage(msg, pending)]; [Queue.some] is [existsb]. *)
Definition compressMessage (msg : Message) (pending : list Message) : bool :=
  if String.eqb (msg_type msg) "layout-request"
  then existsb (fun other => String.eqb (msg_type other) "layout-request") pending
  else false.

(** Modelled from the spec: [postMessage] asks the handler's merge
    predicate before it enqueues; a message that is not merged joins the
    handler's pending list. *)
Definition postMessage (handler : wid) (msg : Message) : M unit := fun s =>
  let pending := queues s !!! handler in
  if compressMessage msg pending then Ret tt s
  else Ret tt (set_trace (fun t => t ++ [Posted handler msg])
                (set_queues (insert handler (pending ++ [msg])) s)).

Definition msg_child (msg : Message) : option wid :=
  match msg with
  | ChildMessage _ c => Some c
  | _ => None
  end.

Section Handlers.

(** [sendMessage], which the handlers call back into. *)
Variable send : wid -> Message -> M unit.

(** The fuel of the loops over child arrays. *)
Variable fuel : nat.

Definition sendAll (array : aid) (msg : Message) : M unit :=
  for_loop fuel (array_length array)
    (fun i => w ← array_get array i;
              h ← nonnull w;
              send h msg)
    0%nat.

Definition sendNonHidden (array : aid) (msg : Message) : M unit :=
  for_loop fuel (array_length array)
    (fun i => w ← array_get array i;
              widget ← nonnull w;
              hidden ← isHidden widget;
              when (negb hidden) (send widget msg))
    0%nat.

(** [set parent(parent)] *)
Definition set_parent (this : wid) (parent : option wid) : M unit :=
  W ← getWidget this;
  let oldParent := _parent W in
  if decide (oldParent = parent) then mret tt
  else
    match oldParent with
    | Some old =>
        updWidget this (with_parent None) ;;
        O ← getWidget old;
        algo_remove (_children O) (Some this) ;;
        send old (ChildMessage "child-removed" this)
    | None => mret tt
    end ;;
    match parent with
    | Some p =>
        updWidget this (with_parent (Some p)) ;;
        P ← getWidget p;
        array_push (_children P) (Some this) ;;
        send p (ChildMessage "child-added" this)
    | None => mret tt
    end ;;
    send this (Msg "parent-changed").

Definition onClose (this : wid) (msg : Message) : M unit :=
  set_parent this None.

Definition onChildAdded (this : wid) (msg : Message) : M unit :=
  child ← nonnull (msg_child msg);
  attached ← isAttached this;
  if (attached : bool) then
    send child (Msg "before-attach") ;;
    theNode this ;;
    appendChild (WidgetNode this) child ;;
    send child (Msg "after-attach")
  else
    theNode this ;;
    appendChild (WidgetNode this) child.

Definition onChildRemoved (this : wid) (msg : Message) : M unit :=
  child ← nonnull (msg_child msg);
  attached ← isAttached this;
  if (attached : bool) then
    send child (Msg "before-detach") ;;
    theNode this ;;
    removeChild (WidgetNode this) child ;;
    send child (Msg "after-detach")
  else
    theNode this ;;
    removeChild (WidgetNode this) child.

(** The handlers a subclass may override; empty in [Widget]. *)
Definition onMove (this : wid) (msg : Message) : M unit := mret tt.
Definition onResize (this : wid) (msg : Message) : M unit := mret tt.
Definition onBeforeShow (this : wid) (msg : Message) : M unit := mret tt.
Definition onAfterShow (this : wid) (msg : Message) : M unit := mret tt.
Definition onBeforeHide (this : wid) (msg : Message) : M unit := mret tt.
Definition onAfterHide (this : wid) (msg : Message) : M unit := mret tt.
Definition onBeforeAttach (this : wid) (msg : Message) : M unit := mret tt.
Definition onAfterAttach (this : wid) (msg : Message) : M unit := mret tt.
Definition onBeforeDetach (this : wid) (msg : Message) : M unit := mret tt.
Definition onAfterDetach (this : wid) (msg : Message) : M unit := mret tt.

Definition thisChildren (this : wid) : M aid :=
  W ← getWidget this; mret (_children W).

Definition processMessage (this : wid) (msg : Message) : M unit :=
  let type := msg_type msg in
  if String.eqb type "move" then onMove this msg
  else if String.eqb type "resize" then onResize this msg
  else if String.eqb type "child-added" then onChildAdded this msg
  else if String.eqb type "child-removed" then onChildRemoved this msg
  else if String.eqb type "before-show" then
    onBeforeShow this msg ;;
    c ← thisChildren this; sendNonHidden c msg
  else if String.eqb type "after-show" then
    setFlag this IsVisible ;;
    onAfterShow this msg ;;
    c ← thisChildren this; sendNonHidden c msg
  else if String.eqb type "before-hide" then
    onBeforeHide this msg ;;
    c ← thisChildren this; sendNonHidden c msg
  else if String.eqb type "after-hide" then
    clearFlag this IsVisible ;;
    onAfterHide this msg ;;
    c ← thisChildren this; sendNonHidden c msg
  else if String.eqb type "before-attach" then
    updWidget this (with_boxSizing None) ;;
    onBeforeAttach this msg ;;
    c ← thisChildren this; sendAll c msg
  else if String.eqb type "after-attach" then
    W ← getWidget this;
    let parent := _parent W in
    hidden ← isHidden this;
    visible ← (if negb hidden then
                 match parent with
                 | None => mret true
                 | Some p => isVisible p
                 end
               else mret false);
    when visible (setFlag this IsVisible) ;;
    setFlag this IsAttached ;;
    onAfterAttach this msg ;;
    c ← thisChildren this; sendAll c msg
  else if String.eqb type "before-detach" then
    onBeforeDetach this msg ;;
    c ← thisChildren this; sendAll c msg
  else if String.eqb type "after-detach" then
    clearFlag this IsVisible ;;
    clearFlag this IsAttached ;;
    onAfterDetach this msg ;;
    c ← thisChildren this; sendAll c msg
  else if String.eqb type "close" then onClose this msg
  else mret tt.

End Handlers.

(** Modelled from the spec: [sendMessage] delivers synchronously, the
    handler's [processMessage] running to completion before the call
    returns.  The filters installed on a handler are layouts, which see the
    message and let it through.  The trace records each delivery with the
    number of deliveries it is nested in. *)
Fixpoint sendMessage (fuel : nat) (handler : wid) (msg : Message) : M unit :=
  match fuel with
  | O => stuck
  | S fuel' =>
      d ← (fun s => Ret (depth s) s);
      log (Sent d handler msg) ;;
      modify (set_depth S) ;;
      processMessage (sendMessage fuel') fuel' handler msg ;;
      modify (set_depth Nat.pred)
  end.

(** Modelled from the spec: on a later turn of the event loop the
    dispatcher delivers what is pending for a handler, in posting order. *)
Fixpoint deliverAll (fuel : nat) (handler : wid) (msgs : list Message) : M unit :=
  match msgs with
  | [] => mret tt
  | m :: rest => sendMessage fuel handler m ;; deliverAll fuel handler rest
  end.

Definition flushMessages (fuel : nat) (handler : wid) : M unit :=
  pending ← (fun s => Ret (queues s !!! handler) s);
  modify (set_queues (delete handler)) ;;
  deliverAll fuel handler pending.

Section LayoutSetter.

(** [oldLayout.dispose()], a method of the layout object, and
    [sendMessage], which the setter calls last. *)
Variable dispose_old : lid -> M unit.
Variable send : wid -> Message -> M unit.

(** [set layout(layout)] *)
Definition set_layout_with (this : wid) (layout : option lid) : M unit :=
  W ← getWidget this;
  let oldLayout := _layout W in
  if decide (oldLayout = layout) then mret tt
  else
    disallowed ← testFlag this DisallowLayoutChange;
    if (disallowed : bool) then throw (Err "cannot change widget layout")
    else
      installed ← match layout with
                  | Some l => L ← getLayout l;
                              mret (bool_decide (is_Some (l_parent L)))
                  | None => mret false
                  end;
      if (installed : bool) then throw (Err "layout already installed on a widget")
      else
        match oldLayout with
        | Some old =>
            updWidget this (with_layout None) ;;
            removeMessageFilter this old ;;
            dispose_old old
        | None => mret tt
        end ;;
        match layout with
        | Some l =>
            updWidget this (with_layout (Some l)) ;;
            installMessageFilter this l ;;
            layout_set_parent l this
        | None => mret tt
        end ;;
        send this (Msg "layout-changed").

End LayoutSetter.

(** The setter with the layout's [dispose] and the dispatcher's
    [sendMessage] in place. *)
Definition set_layout (fuel : nat) (this : wid) (layout : option lid) : M unit :=
  set_layout_with layout_dispose (sendMessage fuel) this layout.

(** [updateGeometry(force)] *)
Fixpoint updateGeometry (fuel : nat) (this : wid) (force : bool) : M unit :=
  match fuel with
  | O => stuck
  | S fuel' =>
      W ← getWidget this;
      match _parent W with
      | None => mret tt
      | Some parent =>
          hidden ← isHidden this;
          if hidden && negb force then mret tt
          else
            P ← getWidget parent;
            match _layout P with
            | Some l => layout_invalidate l
            | None =>
                postMessage parent (Msg "layout-request") ;;
                updateGeometry fuel' parent false
            end
      end
  end.

(** [show()] *)
Definition show (fuel : nat) (this : wid) : M unit :=
  hidden ← isHidden this;
  if negb hidden then mret tt
  else
    W ← getWidget this;
    let parent := _parent W in
    attached ← isAttached this;
    eligible ← (if (attached : bool) then
                  match parent with
                  | None => mret true
                  | Some p => isVisible p
                  end
                else mret false);
    (if (eligible : bool) then
       sendMessage fuel this (Msg "before-show") ;;
       removeClass this HIDDEN_CLASS ;;
       clearFlag this IsHidden ;;
       sendMessage fuel this (Msg "after-show")
     else
       removeClass this HIDDEN_CLASS ;;
       clearFlag this IsHidden) ;;
    match parent with
    | Some p => sendMessage fuel p (ChildMessage "child-shown" this)
    | None => mret tt
    end ;;
    updateGeometry fuel this false.

(** [hide()] *)
Definition hide (fuel : nat) (this : wid) : M unit :=
  hidden ← isHidden this;
  if (hidden : bool) then mret tt
  else
    W ← getWidget this;
    let parent := _parent W in
    attached ← isAttached this;
    eligible ← (if (attached : bool) then
                  match parent with
                  | None => mret true
                  | Some p => isVisible p
                  end
                else mret false);
    (if (eligible : bool) then
       sendMessage fuel this (Msg "before-hide") ;;
       addClass this HIDDEN_CLASS ;;
       setFlag this IsHidden ;;
       sendMessage fuel this (Msg "after-hide")
     else
       addClass this HIDDEN_CLASS ;;
       setFlag this IsHidden) ;;
    match parent with
    | Some p => sendMessage fuel p (ChildMessage "child-hidden" this)
    | None => mret tt
    end ;;
    updateGeometry fuel this true.

(** [close()] *)
Definition close (fuel : nat) (this : wid) : M unit :=
  sendMessage fuel this (Msg "close").

(** [attach(host)] *)
Definition attach (fuel : nat) (this : wid) (host : nat) : M unit :=
  W ← getWidget this;
  match _parent W with
  | Some _ => throw (Err "cannot attach a non-root widget to the DOM")
  | None =>
      sendMessage fuel this (Msg "before-attach") ;;
      appendChild (HostNode host) this ;;
      sendMessage fuel this (Msg "after-attach")
  end.

(** [detach()] *)
Definition detach (fuel : nat) (this : wid) : M unit :=
  W ← getWidget this;
  match _parent W with
  | Some _ => throw (Err "cannot dettach a non-root widget from the DOM")
  | None =>
      nd ← nonnull (_node W);
      match parentNode nd with
      | None => mret tt
      | Some host =>
          sendMessage fuel this (Msg "before-detach") ;;
          removeChild host this ;;
          sendMessage fuel this (Msg "after-detach")
      end
  end.

(** [setGeometry(x, y, width, height)] *)
Definition setGeometry (fuel : nat) (this : wid) (x y width height : number) : M unit :=
  W ← getWidget this;
  let oldX := _x W in
  let oldY := _y W in
  let oldW := _width W in
  let oldH := _height W in
  box ← boxSizing this;
  theNode this ;;
  let w := Math_max (minWidth box) (Math_min width (maxWidth box)) in
  let h := Math_max (minHeight box) (Math_min height (maxHeight box)) in
  when (strict_ne oldX x)
    (updWidget this (with_x x) ;;
     updNode this (fun nd => with_style
       (mkStyle (Some x) (style_top (style nd)) (style_width (style nd))
                (style_height (style nd))) nd)) ;;
  when (strict_ne oldY y)
    (updWidget this (with_y y) ;;
     updNode this (fun nd => with_style
       (mkStyle (style_left (style nd)) (Some y) (style_width (style nd))
                (style_height (style nd))) nd)) ;;
  when (strict_ne oldW w)
    (updWidget this (with_width w) ;;
     updNode this (fun nd => with_style
       (mkStyle (style_left (style nd)) (style_top (style nd)) (Some w)
                (style_height (style nd))) nd)) ;;
  when (strict_ne oldH h)
    (updWidget this (with_height h) ;;
     updNode this (fun nd => with_style
       (mkStyle (style_left (style nd)) (style_top (style nd))
                (style_width (style nd)) (Some h)) nd)) ;;
  when (strict_ne oldX x || strict_ne oldY y)
    (sendMessage fuel this (MoveMessage oldX oldY x y)) ;;
  when (strict_ne oldW w || strict_ne oldH h)
    (sendMessage fuel this (ResizeMessage oldW oldH w h)).

(** [move(x, y)] and [resize(width, height)] *)
Definition move (fuel : nat) (this : wid) (x y : number) : M unit :=
  W ← getWidget this; setGeometry fuel this x y (_width W) (_height W).

Definition resize (fuel : nat) (this : wid) (width height : number) : M unit :=
  W ← getWidget this; setGeometry fuel this (_x W) (_y W) width height.

(** [dispose()].  The [disposed] signal belongs to the emitter: [emit] is
    recorded in the trace, one event per run of [dispose], and
    [disconnect] touches nothing that the widget holds. *)
Fixpoint dispose (fuel : nat) (this : wid) : M unit :=
  match fuel with
  | O => stuck
  | S fuel' =>
      clearMessageData this ;;
      setFlag this IsDisposed ;;
      log (Emitted this) ;;
      W ← getWidget this;
      match _layout W with
      | Some layout =>
          updWidget this (with_layout None) ;;
          layout_dispose layout
      | None => mret tt
      end ;;
      W ← getWidget this;
      match _parent W with
      | Some parent =>
          updWidget this (with_parent None) ;;
          P ← getWidget parent;
          algo_remove (_children P) (Some this) ;;
          sendMessage fuel' parent (ChildMessage "child-removed" this)
      | None =>
          attached ← isAttached this;
          when attached (detach fuel' this)
      end ;;
      W ← getWidget this;
      let children := _children W in
      for_loop fuel' (array_length children)
        (fun i => c ← array_get children i;
                  array_set children i None ;;
                  child ← nonnull c;
                  updWidget child (with_parent None) ;;
                  dispose fuel' child)
        0%nat ;;
      array_set_length children 0 ;;
      updWidget this (with_node None)
  end.

(** ** The size policy

    The two policies share one 32-bit word, the horizontal one in the upper
    half.  [SizePolicy] is an enumeration of integers declared outside
    widget.ts; a policy is taken as the integer it is. *)

(** [a << n] and [a >> n]: the left operand as a 32-bit integer, the count
    modulo 32, [>>] keeping the sign. *)
Definition js_shl (a n : Z) : Z := ToInt32 (Z.shiftl (ToInt32 a) (Z.land n 31)).
Definition js_sar (a n : Z) : Z := Z.shiftr (ToInt32 a) (Z.land n 31).

Definition with_sizePolicy (v : Z) (W : Widget) : Widget :=
  mkWidget (_node W) (_layout W) (_parent W) (_children W) v
           (_boxSizing W) (_x W) (_y W) (_width W) (_height W) (_flags W).

(** [get horizontalSizePolicy()] and [get verticalSizePolicy()] *)
Definition horizontalSizePolicy (this : wid) : M Z :=
  W ← getWidget this; mret (js_sar (_sizePolicy W) 16).

Definition verticalSizePolicy (this : wid) : M Z :=
  W ← getWidget this; mret (js_and (_sizePolicy W) 65535).

(** [setSizePolicy(horizontal, vertical)] *)
Definition setSizePolicy (fuel : nat) (this : wid) (horizontal vertical : Z) : M unit :=
  let policy := js_or (js_shl horizontal 16) vertical in
  W ← getWidget this;
  if decide (policy <> _sizePolicy W) then
    updWidget this (with_sizePolicy policy) ;;
    updateGeometry fuel this false
  else mret tt.

(** [set horizontalSizePolicy(policy)] and [set verticalSizePolicy(policy)] *)
Definition set_horizontalSizePolicy (fuel : nat) (this : wid) (policy : Z) : M unit :=
  v ← verticalSizePolicy this; setSizePolicy fuel this policy v.

Definition set_verticalSizePolicy (fuel : nat) (this : wid) (policy : Z) : M unit :=
  h ← horizontalSizePolicy this; setSizePolicy fuel this h policy.

(** ** More of the geometry *)

(** [set x(x)], [set y(y)], [set width(width)], [set height(height)] *)
Definition set_x (fuel : nat) (this : wid) (x : number) : M unit :=
  W ← getWidget this; move fuel this x (_y W).

Definition set_y (fuel : nat) (this : wid) (y : number) : M unit :=
  W ← getWidget this; move fuel this (_x W) y.

Definition set_width (fuel : nat) (this : wid) (width : number) : M unit :=
  W ← getWidget this; resize fuel this width (_height W).

Definition set_height (fuel : nat) (this : wid) (height : number) : M unit :=
  W ← getWidget this; resize fuel this (_width W) height.

(** [invalidateBoxData()] *)
Definition invalidateBoxData (fuel : nat) (this : wid) : M unit :=
  updWidget this (with_boxSizing None) ;;
  W ← getWidget this;
  match _layout W with
  | Some l => layout_invalidate l
  | None => postMessage this (Msg "layout-request")
  end ;;
  updateGeometry fuel this false.

Section Fit.

(** What the page tells about the element that hosts a root: its offset
    size and the box [createBoxSizing] reads off it.  The page is outside
    widget.ts. *)
Variable offsetWidth offsetHeight : NodeRef -> number.
Variable hostBoxSizing : NodeRef -> IBoxSizing.

(** The subtraction of two JavaScript numbers, whatever it rounds to. *)
Variable minus : number -> number -> number.

(** [fit(width?, height?, box?)]; an argument left out is [None]. *)
Definition fit (fuel : nat) (this : wid) (width height : option number)
    (box : option IBoxSizing) : M unit :=
  W ← getWidget this;
  match _parent W with
  | Some _ => throw (Err "cannot fit a non-root widget")
  | None =>
      nd ← nonnull (_node W);
      match parentNode nd with
      | None => mret tt
      | Some host =>
          let width := default (offsetWidth host) width in
          let height := default (offsetHeight host) height in
          let box := default (hostBoxSizing host) box in
          let x := paddingLeft box in
          let y := paddingTop box in
          let w := minus width (horizontalSum box) in
          let h := minus height (verticalSum box) in
          setGeometry fuel this x y w h
      end
  end.

End Fit.

(** * Vocabulary of the specifications *)

(** [wp m Q s]: from [s], [m] returns normally, with a result and a store
    that satisfy [Q]. *)
Definition wp {A} (m : M A) (Q : A -> State -> Prop) (s : State) : Prop :=
  match m s with
  | Ret a s' => Q a s'
  | Throw _ _ => False
  | Stuck => False
  end.

(** The flags of a widget in a store, as booleans. *)
Definition flag_of (s : State) (w : wid) (f : WidgetFlag) : bool :=
  match widgets s !! w with
  | Some W => test_flag (_flags W) f
  | None => false
  end.

(** The sheet of a fresh node: no lower limit, no upper limit. *)
Definition plain_sheet : IBoxSizing :=
  mkBox (Fin 0) PosInf (Fin 0) PosInf (Fin 0) (Fin 0) (Fin 0) (Fin 0).

(** A widget as its constructor leaves it. *)
Definition plain_node : HTMLElement :=
  mkElement None [WIDGET_CLASS] (mkStyle None None None None) plain_sheet.

Definition plain_widget (array : aid) : Widget :=
  mkWidget (Some plain_node) None None array 0 None
           (Fin 0) (Fin 0) (Fin 0) (Fin 0) 0.

(** The store an operation leaves behind, however it ended. *)
Definition exec {A} (m : M A) (s : State) : State :=
  match m s with
  | Ret _ s' => s'
  | Throw _ s' => s'
  | Stuck => s
  end.

(** [new Widget()] *)
Definition one_widget : State := exec (newWidget 0 plain_sheet) empty_state.

(** [new Widget(); new Widget()] *)
Definition two_widgets : State := exec (newWidget 0 plain_sheet) one_widget.

(** What [setGeometry] leaves in the widget: the cached box, the new
    position and clipped size, and the style entries that were rewritten. *)
Definition clip (lo hi v : number) : number := Math_max lo (Math_min v hi).

Definition geometry_box (W : Widget) (nd : HTMLElement) : IBoxSizing :=
  match _boxSizing W with
  | Some box => box
  | None => createBoxSizing nd
  end.

Definition geometry_result (W : Widget) (nd : HTMLElement)
    (x y width height : number) : Widget :=
  let box := geometry_box W nd in
  let w := clip (minWidth box) (maxWidth box) width in
  let h := clip (minHeight box) (maxHeight box) height in
  let st := style nd in
  let st' := mkStyle
    (if strict_ne (_x W) x then Some x else style_left st)
    (if strict_ne (_y W) y then Some y else style_top st)
    (if strict_ne (_width W) w then Some w else style_width st)
    (if strict_ne (_height W) h then Some h else style_height st) in
  mkWidget (Some (with_style st' nd)) (_layout W) (_parent W) (_children W)
           (_sizePolicy W) (Some box) x y w h (_flags W).

Definition geometry_messages (d : nat) (this : wid) (W : Widget) (nd : HTMLElement)
    (x y width height : number) : list Event :=
  let box := geometry_box W nd in
  let w := clip (minWidth box) (maxWidth box) width in
  let h := clip (minHeight box) (maxHeight box) height in
  (if bool_decide (_x W <> x \/ _y W <> y)
   then [Sent d this (MoveMessage (_x W) (_y W) x y)] else []) ++
  (if bool_decide (_width W <> w \/ _height W <> h)
   then [Sent d this (ResizeMessage (_width W) (_height W) w h)] else []).

(** The deliveries of [setGeometry] as the code decides them, by [!==]. *)
Definition geometry_sends (d : nat) (this : wid) (W : Widget) (nd : HTMLElement)
    (x y width height : number) : list Event :=
  let box := geometry_box W nd in
  let w := clip (minWidth box) (maxWidth box) width in
  let h := clip (minHeight box) (maxHeight box) height in
  (if strict_ne (_x W) x || strict_ne (_y W) y
   then [Sent d this (MoveMessage (_x W) (_y W) x y)] else []) ++
  (if strict_ne (_width W) w || strict_ne (_height W) h
   then [Sent d this (ResizeMessage (_width W) (_height W) w h)] else []).

(** All of a store but its widgets and its trace. *)
Definition same_heap (s s' : State) : Prop :=
  arrays s' = arrays s /\ layouts s' = layouts s /\ queues s' = queues s /\
  filters s' = filters s /\ depth s' = depth s.

(** The messages [processMessage] has no case for, or an empty one. *)
Definition informational (m : Message) : bool :=
  existsb (String.eqb (msg_type m))
    ["move"; "resize"; "layout-changed"; "parent-changed"; "child-shown";
     "child-hidden"; "layout-request"].

(** The flag [DisallowLayoutChange] set on a new widget. *)
Definition locked_widget : State := exec (setFlag 0%nat DisallowLayoutChange) one_widget.

(** Posting the same message [n] times in one turn of the event loop. *)
Fixpoint post_times (n : nat) (handler : wid) (msg : Message) : M unit :=
  match n with
  | O => mret tt
  | S n' => postMessage handler msg ;; post_times n' handler msg
  end.

Definition is_layout_request (m : Message) : bool :=
  String.eqb (msg_type m) "layout-request".

Definition layout_requests (pending : list Message) : nat :=
  length (List.filter is_layout_request pending).

(** The deliveries recorded in a trace, whatever their nesting. *)
Definition delivered (handler : wid) (type : string) (e : Event) : bool :=
  match e with
  | Sent _ h m => bool_decide (h = handler) && String.eqb (msg_type m) type
  | _ => false
  end.

Definition deliveries (handler : wid) (type : string) (t : list Event) : nat :=
  length (List.filter (delivered handler type) t).

(** A handler with nothing pending. *)
Definition drained (handler : wid) (s : State) : State :=
  set_queues (delete handler) s.

(** ** Widget trees

    A tree of widget identifiers, and what it is for a store to hold it:
    the child array of every node lists the roots of its subtrees, in
    order, and every one of those names the node as its parent. *)
Local Unset Elimination Schemes.

Inductive tree : Type :=
  | Node (w : wid) (kids : list tree).

Local Set Elimination Schemes.

Definition root (t : tree) : wid :=
  match t with Node w _ => w end.


Fixpoint nodes (t : tree) : list wid :=
  match t with
  | Node w kids => w :: flat_map nodes kids
  end.

Definition parent_is (s : State) (w : wid) (p : option wid) : bool :=
  match widgets s !! w with
  | Some W => bool_decide (_parent W = p)
  | None => false
  end.

Fixpoint shape (s : State) (t : tree) : bool :=
  match t with
  | Node w kids =>
      match widgets s !! w with
      | None => false
      | Some W =>
          bool_decide (arrays s !! _children W = Some (map (fun k => Some (root k)) kids))
          && forallb (fun k => parent_is s (root k) (Some w) && shape s k) kids
      end
  end.

(** Fuel that is enough to walk a tree: one unit per level, and at every
    node one turn of the loop per child and one to leave it. *)
Fixpoint need (t : tree) : nat :=
  match t with
  | Node _ kids => S (Nat.max (S (length kids)) (list_max (map need kids)))
  end.

(** What the handler of a message of the show, hide, attach and detach
    families does to the widget it is delivered to. *)
Definition handled (type : string) (s : State) (W : Widget) : Widget :=
  if String.eqb type "after-show" then with_flags (set_flag (_flags W) IsVisible) W
  else if String.eqb type "after-hide" then with_flags (clear_flag (_flags W) IsVisible) W
  else if String.eqb type "before-attach" then with_boxSizing None W
  else if String.eqb type "after-attach" then
    let visible := negb (test_flag (_flags W) IsHidden) &&
                   match _parent W with
                   | None => true
                   | Some p => flag_of s p IsVisible
                   end in
    with_flags (set_flag (if visible then set_flag (_flags W) IsVisible else _flags W)
                         IsAttached) W
  else if String.eqb type "after-detach" then
    with_flags (clear_flag (clear_flag (_flags W) IsVisible) IsAttached) W
  else W.

(** The families: show and hide stop at a hidden child, attach and detach
    do not. *)
Definition skips_hidden (type : string) : bool :=
  existsb (String.eqb type) ["before-show"; "after-show"; "before-hide"; "after-hide"].

Definition fans_out (type : string) : bool :=
  skips_hidden type ||
  existsb (String.eqb type) ["before-attach"; "after-attach"; "before-detach"; "after-detach"].

(** The store after a message of one of those families was sent to the
    root of a tree, computed by recursion on the tree. *)
Fixpoint fan (type : string) (t : tree) (s : State) : State :=
  match t with
  | Node w kids =>
      match widgets s !! w with
      | None => s
      | Some W =>
          let s1 := set_depth S
                      (set_trace (fun tr => tr ++ [Sent (depth s) w (Msg type)]) s) in
          let s2 := set_widgets (insert w (handled type s1 W)) s1 in
          set_depth Nat.pred
            (fold_left
               (fun acc k =>
                  if skips_hidden type && flag_of acc (root k) IsHidden then acc
                  else fan type k acc)
               kids s2)
      end
  end.

(** The parent a widget names is in the store. *)
Definition parent_known (s : State) (w : wid) : bool :=
  match widgets s !! w with
  | Some W =>
      match _parent W with
      | Some p => bool_decide (is_Some (widgets s !! p))
      | None => true
      end
  | None => false
  end.

(** A widget without what the handlers of those families write. *)
Definition skeleton (W : Widget) : Widget :=
  with_flags 0 (with_boxSizing None W).

(** Two stores that differ at most in flags, cached boxes and trace. *)
Definition links (W : Widget) : option wid * aid := (_parent W, _children W).

(** Two stores that hold the same trees. *)
Definition same_tree (s s' : State) : Prop :=
  links <$> widgets s' = links <$> widgets s /\ arrays s' = arrays s.

Definition same_skeleton (s s' : State) : Prop :=
  skeleton <$> widgets s' = skeleton <$> widgets s /\
  same_tree s s' /\ layouts s' = layouts s /\ queues s' = queues s /\
  filters s' = filters s /\ depth s' = depth s.

(** One turn of the loops of [sendAll] and [sendNonHidden]. *)
Definition fan_body (send : wid -> Message -> M unit) (skip : bool) (array : aid)
    (msg : Message) (i : nat) : M unit :=
  w ← array_get array i;
  widget ← nonnull w;
  if skip then hidden ← isHidden widget; when (negb hidden) (send widget msg)
  else send widget msg.

(** The deliveries of a message of the attach or detach family sent to the
    root of a tree: every node, parents before children, children in
    order, each one level deeper than its parent. *)
Fixpoint fan_events (type : string) (d : nat) (t : tree) : list Event :=
  match t with
  | Node w kids => Sent d w (Msg type) :: flat_map (fan_events type (S d)) kids
  end.

(** The deliveries made at nesting depth [d]. *)
Definition at_depth (d : nat) (e : Event) : bool :=
  match e with
  | Sent d' _ _ => (d' =? d)%nat
  | _ => false
  end.

(** No two widgets share a child array. *)
Definition own_arrays (s : State) : Prop :=
  forall w1 w2 W1 W2,
    widgets s !! w1 = Some W1 -> widgets s !! w2 = Some W2 ->
    _children W1 = _children W2 -> w1 = w2.

Definition own_arrays_b (s : State) : bool :=
  bool_decide (NoDup ((fun p => _children p.2) <$> map_to_list (widgets s))).

(** ** Ancestors

    [is_chain s w ps]: [ps] lists the ancestors of [w], parent first, root
    last. *)
Fixpoint is_chain (s : State) (w : wid) (ps : list wid) {struct ps} : bool :=
  match widgets s !! w with
  | None => false
  | Some W =>
      match ps with
      | [] => bool_decide (_parent W = None)
      | p :: ps' => bool_decide (_parent W = Some p) && is_chain s p ps'
      end
  end.

Definition layout_of (s : State) (w : wid) : option lid :=
  W ← widgets s !! w; _layout W.

(** What a geometry update that passed the gate of its widget does to the
    ancestors: the first with a layout has it invalidated; one without is
    posted a layout-request, and the walk goes on from it unless it is
    hidden. *)
Fixpoint bubble (ps : list wid) (s : State) : State :=
  match ps with
  | [] => s
  | p :: rest =>
      match layout_of s p with
      | Some l => exec (layout_invalidate l) s
      | None =>
          let s1 := exec (postMessage p (Msg "layout-request")) s in
          if flag_of s1 p IsHidden then s1 else bubble rest s1
      end
  end.

(** ** Disposal *)




(** The node of a child sits in the node of its parent. *)
Definition node_inside (s : State) (child parent : wid) : bool :=
  match widgets s !! child with
  | Some W => bool_decide ((nd ← _node W; parentNode nd) = Some (WidgetNode parent))
  | None => false
  end.







(** A step that leaves every widget its node (if it had one), its layout,
    its parent and its disposed flag. *)
Definition kept (s s' : State) : Prop :=
  forall x W, widgets s !! x = Some W ->
    exists W',
      widgets s' !! x = Some W' /\
      (is_Some (_node W) -> is_Some (_node W')) /\
      _layout W' = _layout W /\ _parent W' = _parent W /\
      test_flag (_flags W') IsDisposed = test_flag (_flags W) IsDisposed.





(** ** The visibility invariant

    Visible only if attached, not hidden, and without a parent or with a
    visible one. *)
Definition visible_ok (s : State) (w : wid) : bool :=
  match widgets s !! w with
  | Some W =>
      implb (test_flag (_flags W) IsVisible)
            (test_flag (_flags W) IsAttached &&
             negb (test_flag (_flags W) IsHidden) &&
             match _parent W with
             | Some p => flag_of s p IsVisible
             | None => true
             end)
  | None => true
  end.

(** The nodes a message of the show or hide family reaches from the root
    of a tree: the root itself, and below it whatever no hidden child
    shields. *)
Fixpoint reached (s : State) (t : tree) : list wid :=
  match t with
  | Node w kids =>
      w :: flat_map (fun k => if flag_of s (root k) IsHidden then [] else reached s k) kids
  end.




(** The invariant on every node of a tree, and the trees whose nodes are
    attached all or none. *)
Definition visible_ok_tree (s : State) (t : tree) : bool :=
  forallb (visible_ok s) (nodes t).


(** ** Stores to try things on *)

(** [a = new Widget(); b = new Widget(); b.parent = a] *)
Definition family : State :=
  exec (set_parent (sendMessage 3) 1%nat (Some 0%nat)) two_widgets.

Definition family_tree : tree := Node 0%nat [Node 1%nat []].

(** [... a.hide()] *)
Definition hidden_family : State := exec (hide 3 0%nat) family.

(** [a, b, c = new Widget(); b.parent = a; c.parent = b; b.hide()], and the
    event loop has delivered what that posted. *)
Definition three_widgets : State := exec (newWidget 0 plain_sheet) two_widgets.

Definition hidden_middle : State :=
  exec (flushMessages 3 0%nat)
    (exec (hide 3 1%nat)
       (exec (set_parent (sendMessage 3) 2%nat (Some 1%nat))
          (exec (set_parent (sendMessage 3) 1%nat (Some 0%nat)) three_widgets))).

(** [a, b, c = new Widget(); b.parent = a; a.attach(host)] *)
Definition attached_pair : State :=
  exec (attach 3 0%nat 7%nat)
    (exec (set_parent (sendMessage 3) 1%nat (Some 0%nat)) three_widgets).

(** [a, b = new Widget(); a.attach(host)] *)
Definition attached_root : State := exec (attach 3 0%nat 7%nat) two_widgets.

(** [new Widget()] whose style sheet asks for at least 10 by 20 pixels. *)
Definition narrow_sheet : IBoxSizing :=
  mkBox (Fin 10) PosInf (Fin 20) PosInf (Fin 0) (Fin 0) (Fin 0) (Fin 0).

Definition narrow_widget : State := exec (newWidget 0 narrow_sheet) empty_state.

(** [a = new Widget(); a.dispose()] *)
Definition disposed_widget : State := exec (dispose 3 0%nat) one_widget.


(** * Proofs *)

(** ** Bits of the flag word *)

Lemma ToInt32_testbit z i : 0 <= i < 32 -> Z.testbit (ToInt32 z) i = Z.testbit z i.
Proof.
  intros Hi. unfold ToInt32.
  rewrite <- (Z.mod_pow2_bits_low ((z + 2 ^ 31) mod 2 ^ 32 - 2 ^ 31) 32 i) by lia.
  rewrite <- (Z.mod_pow2_bits_low z 32 i) by lia.
  f_equal. rewrite Zminus_mod_idemp_l. f_equal. lia.
Qed.

Lemma ToInt32_small z : - 2 ^ 31 <= z < 2 ^ 31 -> ToInt32 z = z.
Proof. intros H. unfold ToInt32. rewrite Z.mod_small; lia. Qed.

Lemma flag_index_range f : 0 <= flag_index f < 32.
Proof. destruct f; simpl; lia. Qed.

Lemma flag_index_inj f g : flag_index f = flag_index g -> f = g.
Proof. destruct f, g; simpl; intros; congruence || lia. Qed.

Lemma testbit_flag_bit f n :
  0 <= n -> Z.testbit (flag_bit f) n = bool_decide (n = flag_index f).
Proof.
  intros Hn. unfold flag_bit. pose proof (flag_index_range f).
  rewrite Z.shiftl_spec by lia.
  case_bool_decide as E.
  - subst. by rewrite Z.sub_diag.
  - destruct (Z.ltb_spec n (flag_index f)).
    + by rewrite Z.testbit_neg_r by lia.
    + apply (Z.bits_above_log2 1 (n - flag_index f)); simpl; lia.
Qed.

Lemma test_flag_testbit flags f : test_flag flags f = Z.testbit flags (flag_index f).
Proof.
  unfold test_flag, js_and.
  pose proof (flag_index_range f) as Hr.
  assert (Hland : Z.land flags (flag_bit f) =
                  if Z.testbit flags (flag_index f) then 2 ^ flag_index f else 0).
  { apply Z.bits_inj'. intros n Hn.
    rewrite Z.land_spec, testbit_flag_bit by lia.
    case_bool_decide as E.
    - subst. rewrite andb_true_r.
      destruct (Z.testbit flags (flag_index f)) eqn:E; [|by rewrite Z.bits_0].
      by rewrite Z.pow2_bits_true.
    - rewrite andb_false_r.
      destruct (Z.testbit flags (flag_index f)); [|by rewrite Z.bits_0].
      rewrite Z.pow2_bits_false; [done | lia]. }
  rewrite Hland. destruct (Z.testbit flags (flag_index f)).
  - rewrite ToInt32_small; destruct f; simpl; try done; lia.
  - done.
Qed.

Lemma test_set_flag flags f g :
  test_flag (set_flag flags f) g = test_flag flags g || bool_decide (f = g).
Proof.
  rewrite !test_flag_testbit. unfold set_flag, js_or.
  pose proof (flag_index_range g).
  rewrite ToInt32_testbit, Z.lor_spec, testbit_flag_bit by lia.
  f_equal. apply bool_decide_ext. split; [intros E; symmetry; by apply flag_index_inj | by intros ->].
Qed.

Lemma test_clear_flag flags f g :
  test_flag (clear_flag flags f) g = test_flag flags g && negb (bool_decide (f = g)).
Proof.
  rewrite !test_flag_testbit. unfold clear_flag, js_and, js_not.
  pose proof (flag_index_range g).
  rewrite ToInt32_testbit, Z.land_spec, ToInt32_testbit, Z.lnot_spec,
    testbit_flag_bit by lia.
  do 2 f_equal. apply bool_decide_ext.
  split; [intros E; symmetry; by apply flag_index_inj | by intros ->].
Qed.

(** ** Running the monad *)

Lemma wp_bind {A B} (m : M A) (k : A -> M B) Q s :
  wp m (fun a s' => wp (k a) Q s') s -> wp (m ≫= k) Q s.
Proof.
  unfold wp, mbind, M_bind. destruct (m s); auto.
Qed.

Lemma wp_ret {A} (a : A) (Q : A -> State -> Prop) s : Q a s -> wp (mret a) Q s.
Proof. done. Qed.

Lemma wp_mono {A} (m : M A) (Q Q' : A -> State -> Prop) s :
  wp m Q s -> (forall a s', Q a s' -> Q' a s') -> wp m Q' s.
Proof. unfold wp. destruct (m s); auto. Qed.

Lemma wp_returns {A} (m : M A) Q s :
  wp m Q s <-> exists a s', m s = Ret a s' /\ Q a s'.
Proof.
  unfold wp. split.
  - destruct (m s) as [a s'| |]; [eauto | done | done].
  - intros (a & s' & -> & HQ). done.
Qed.

Lemma wp_of_eq {A} (m : M A) (Q : A -> State -> Prop) s a s' :
  m s = Ret a s' -> Q a s' -> wp m Q s.
Proof. unfold wp. by intros ->. Qed.

Lemma wp_getWidget w W (Q : Widget -> State -> Prop) s :
  widgets s !! w = Some W -> Q W s -> wp (getWidget w) Q s.
Proof. unfold wp, getWidget. by intros ->. Qed.

Lemma wp_updWidget w f W (Q : unit -> State -> Prop) s :
  widgets s !! w = Some W ->
  Q tt (set_widgets (insert w (f W)) s) -> wp (updWidget w f) Q s.
Proof. unfold wp, updWidget. by intros ->. Qed.

Lemma wp_getArray a l (Q : list (option wid) -> State -> Prop) s :
  arrays s !! a = Some l -> Q l s -> wp (getArray a) Q s.
Proof. unfold wp, getArray. by intros ->. Qed.

Lemma wp_updArray a f l (Q : unit -> State -> Prop) s :
  arrays s !! a = Some l ->
  Q tt (set_arrays (insert a (f l)) s) -> wp (updArray a f) Q s.
Proof. unfold wp, updArray. by intros ->. Qed.

Lemma wp_modify f (Q : unit -> State -> Prop) s : Q tt (f s) -> wp (modify f) Q s.
Proof. done. Qed.

Lemma wp_log e (Q : unit -> State -> Prop) s :
  Q tt (set_trace (fun t => t ++ [e]) s) -> wp (log e) Q s.
Proof. done. Qed.

Lemma wp_nonnull {A} (a : A) (Q : A -> State -> Prop) s : Q a s -> wp (nonnull (Some a)) Q s.
Proof. done. Qed.

Lemma wp_when_true m (Q : unit -> State -> Prop) s : wp m Q s -> wp (when true m) Q s.
Proof. done. Qed.

Lemma wp_when_false m (Q : unit -> State -> Prop) s : Q tt s -> wp (when false m) Q s.
Proof. done. Qed.

Lemma wp_testFlag w f W (Q : bool -> State -> Prop) s :
  widgets s !! w = Some W -> Q (test_flag (_flags W) f) s -> wp (testFlag w f) Q s.
Proof.
  intros Hw HQ. unfold testFlag. apply wp_bind.
  eapply wp_getWidget; [done|]. by apply wp_ret.
Qed.

Lemma wp_theNode w W nd (Q : HTMLElement -> State -> Prop) s :
  widgets s !! w = Some W -> _node W = Some nd -> Q nd s -> wp (theNode w) Q s.
Proof.
  intros Hw Hn HQ. unfold theNode. apply wp_bind.
  eapply wp_getWidget; [done|]. rewrite Hn. by apply wp_nonnull.
Qed.

Lemma wp_updNode w f W nd (Q : unit -> State -> Prop) s :
  widgets s !! w = Some W -> _node W = Some nd ->
  Q tt (set_widgets (insert w (with_node (Some (f nd)) W)) s) ->
  wp (updNode w f) Q s.
Proof.
  intros Hw Hn HQ. unfold updNode. apply wp_bind.
  eapply wp_theNode; [done..|]. by eapply wp_updWidget.
Qed.

Lemma wp_getLayout l (Q : Layout -> State -> Prop) s :
  Q (layouts s !!! l) s -> wp (getLayout l) Q s.
Proof. done. Qed.

Lemma wp_returns_tt (m : M unit) (Q : State -> Prop) s :
  wp m (fun _ s' => Q s') s -> exists s', m s = Ret tt s' /\ Q s'.
Proof. intros H. apply wp_returns in H as ([] & s' & ? & ?). eauto. Qed.

(** Reading a projection of an updated store. *)
Ltac store_simpl :=
  cbn [widgets arrays layouts queues filters trace depth
       set_widgets set_arrays set_layouts set_queues set_filters
       set_trace set_depth] in *.

Ltac solve_lookup :=
  store_simpl;
  repeat first
    [ eassumption
    | apply lookup_insert_eq
    | rewrite lookup_insert_ne by congruence ].

Ltac wp_step :=
  lazymatch goal with
  | |- wp (mbind _ _) _ _ => apply wp_bind
  | |- wp (mret _) _ _ => apply wp_ret
  | |- wp (getWidget _) _ _ => eapply wp_getWidget; [solve_lookup|]
  | |- wp (updWidget _ _) _ _ => eapply wp_updWidget; [solve_lookup|]
  | |- wp (getArray _) _ _ => eapply wp_getArray; [solve_lookup|]
  | |- wp (updArray _ _) _ _ => eapply wp_updArray; [solve_lookup|]
  | |- wp (testFlag _ _) _ _ => eapply wp_testFlag; [solve_lookup|]
  | |- wp (getLayout _) _ _ => apply wp_getLayout
  | |- wp (updLayout _ _) _ _ => apply wp_modify
  | |- wp (layout_dispose _) _ _ => apply wp_modify
  | |- wp (layout_set_parent _ _) _ _ => apply wp_modify
  | |- wp (layout_invalidate _) _ _ => apply wp_log
  | |- wp (installMessageFilter _ _) _ _ => apply wp_modify
  | |- wp (removeMessageFilter _ _) _ _ => apply wp_modify
  | |- wp (clearMessageData _) _ _ => apply wp_modify
  | |- wp (modify _) _ _ => apply wp_modify
  | |- wp (log _) _ _ => apply wp_log
  | |- wp (nonnull (Some _)) _ _ => apply wp_nonnull
  | |- wp (when true _) _ _ => apply wp_when_true
  | |- wp (when false _) _ _ => apply wp_when_false
  | |- wp _ _ _ => progress (cbv beta iota zeta)
  end.

(** ** Geometry *)

Lemma strict_ne_false a b : strict_ne a b = false -> a = b.
Proof.
  unfold strict_ne. destruct (isNaN a || isNaN b); [done|].
  intros H. apply negb_false_iff in H. by apply bool_decide_eq_true in H.
Qed.

Lemma strict_ne_decide a b : isNaN b = false -> strict_ne a b = bool_decide (a <> b).
Proof.
  intros Hb. unfold strict_ne. destruct a; simpl; rewrite ?Hb; simpl.
  2-3: destruct b; done.
  - destruct b; try done. repeat case_bool_decide; try done; congruence.
  - destruct b; done.
Qed.

Lemma processMessage_informational send fuel this m s :
  informational m = true -> processMessage send fuel this m s = Ret tt s.
Proof.
  unfold informational. intros H. apply existsb_exists in H as (t & Hin & Ht).
  apply String.eqb_eq in Ht. subst t. unfold processMessage.
  simpl in Hin. repeat (destruct Hin as [<- | Hin]; [done|]). done.
Qed.

Lemma sendMessage_informational fuel this m (Q : unit -> State -> Prop) s :
  informational m = true ->
  Q tt (set_trace (fun t => t ++ [Sent (depth s) this m]) s) ->
  wp (sendMessage (S fuel) this m) Q s.
Proof.
  intros Hm HQ. cbn [sendMessage].
  apply wp_bind. unfold wp at 1. apply wp_bind, wp_log, wp_bind, wp_modify.
  apply wp_bind.
  eapply wp_of_eq; [by apply processMessage_informational|]. apply wp_modify.
  destruct s; exact HQ.
Qed.

Lemma set_widgets_id w W s :
  widgets s !! w = Some W -> set_widgets (insert w W) s = s.
Proof. intros H. destruct s; unfold set_widgets; simpl in *. by rewrite insert_id. Qed.

Lemma wp_boxSizing this W nd (Q : IBoxSizing -> State -> Prop) s :
  widgets s !! this = Some W -> _node W = Some nd ->
  Q (geometry_box W nd)
    (set_widgets (insert this (with_boxSizing (Some (geometry_box W nd)) W)) s) ->
  wp (boxSizing this) Q s.
Proof.
  intros Hw Hn HQ. unfold boxSizing, geometry_box in *. wp_step. wp_step.
  destruct (_boxSizing W) as [box|] eqn:Eb.
  - wp_step. revert HQ.
    replace (with_boxSizing (Some box) W) with W
      by (destruct W; simpl in *; by subst).
    by rewrite set_widgets_id.
  - rewrite Hn. repeat wp_step. done.
Qed.

Lemma setGeometry_spec fuel this W nd x y width height s :
  widgets s !! this = Some W -> _node W = Some nd ->
  wp (setGeometry (S fuel) this x y width height)
     (fun _ s' =>
        widgets s' = <[this := geometry_result W nd x y width height]> (widgets s) /\
        same_heap s s' /\
        trace s' = trace s ++ geometry_sends (depth s) this W nd x y width height) s.
Proof.
  intros Hw Hn. unfold setGeometry. wp_step. wp_step.
  wp_step. eapply wp_boxSizing; [done..|].
  wp_step. eapply wp_theNode; [solve_lookup | exact Hn |].
  unfold geometry_sends, geometry_result, clip.
  set (box := geometry_box W nd).
  set (w := Math_max (minWidth box) (Math_min width (maxWidth box))).
  set (h := Math_max (minHeight box) (Math_min height (maxHeight box))).
  destruct (strict_ne (_x W) x) eqn:Ex, (strict_ne (_y W) y) eqn:Ey,
    (strict_ne (_width W) w) eqn:Ew, (strict_ne (_height W) h) eqn:Eh;
    cbn [orb app].
  all: repeat first
    [ wp_step
    | eapply wp_updNode; [solve_lookup | simpl; first [eassumption | reflexivity] |]
    | apply sendMessage_informational; [reflexivity |] ].
  all: try apply strict_ne_false in Ex; try apply strict_ne_false in Ey;
    try apply strict_ne_false in Ew; try apply strict_ne_false in Eh.
  all: clearbody w h; clearbody box.
  all: store_simpl; split_and!;
    [ rewrite ?insert_insert_eq; f_equal; clear Hw; destruct W, nd as [? ? [] ?];
      cbv [with_node with_style with_x with_y with_width with_height
        with_boxSizing _node _layout _parent _children _sizePolicy _boxSizing
        _x _y _width _height _flags parentNode classList style css
        style_left style_top style_width style_height] in *; congruence
    | repeat split
    | rewrite <- ?app_assoc, ?app_nil_r; reflexivity ].
Qed.

Lemma num_le_refl a : isNaN a = false -> num_le a a = true.
Proof. destruct a; simpl; try done. intros _. apply Z.leb_refl. Qed.

Lemma num_le_total a b :
  isNaN a = false -> isNaN b = false -> num_le a b = false -> num_le b a = true.
Proof. destruct a, b; simpl; try done. intros _ _ H. apply Z.leb_gt in H. apply Z.leb_le. lia. Qed.

Lemma num_le_trans a b c : num_le a b = true -> num_le b c = true -> num_le a c = true.
Proof.
  destruct a, b, c; simpl; try done.
  intros H1 H2. apply Z.leb_le in H1, H2. apply Z.leb_le. lia.
Qed.

Lemma clip_not_NaN lo hi v :
  isNaN lo = false -> isNaN hi = false -> isNaN v = false -> isNaN (clip lo hi v) = false.
Proof.
  intros Hlo Hhi Hv. unfold clip, Math_max, Math_min.
  rewrite Hv, Hhi. simpl. destruct (num_le v hi); rewrite Hlo, ?Hv, ?Hhi; simpl.
  - by destruct (num_le lo v).
  - by destruct (num_le lo hi).
Qed.

Lemma clip_within lo hi v :
  isNaN lo = false -> isNaN hi = false -> isNaN v = false -> num_le lo hi = true ->
  num_le lo (clip lo hi v) = true /\ num_le (clip lo hi v) hi = true.
Proof.
  intros Hlo Hhi Hv Hle. unfold clip, Math_max, Math_min.
  rewrite Hv, Hhi. simpl. destruct (num_le v hi) eqn:E1; rewrite Hlo, ?Hv, ?Hhi; simpl.
  - destruct (num_le lo v) eqn:E2; [done|]. split; [by apply num_le_refl | done].
  - rewrite Hle. split; [done | by apply num_le_refl].
Qed.

Lemma clip_inside lo hi v :
  isNaN lo = false -> isNaN hi = false -> isNaN v = false ->
  num_le lo v = true -> num_le v hi = true -> clip lo hi v = v.
Proof.
  intros Hlo Hhi Hv H1 H2. unfold clip, Math_max, Math_min.
  rewrite Hv, Hhi. simpl. rewrite H2, Hlo, Hv. simpl. by rewrite H1.
Qed.

Lemma geometry_sends_messages d this W nd x y width height :
  let box := geometry_box W nd in
  isNaN x = false -> isNaN y = false ->
  isNaN (clip (minWidth box) (maxWidth box) width) = false ->
  isNaN (clip (minHeight box) (maxHeight box) height) = false ->
  geometry_sends d this W nd x y width height =
  geometry_messages d this W nd x y width height.
Proof.
  intros box Hx Hy Hw Hh. unfold geometry_sends, geometry_messages. fold box.
  by rewrite !strict_ne_decide, !bool_decide_or.
Qed.

(** C3 (as the code has it): with arguments and box limits that are not NaN,
    [setGeometry] stores x and y and the width and height clipped by
    [max(min, min(v, max))], which lies within the limits whenever min is at
    most max; it delivers a move message iff x or y changed and a resize
    message iff the clipped width or height changed, and nothing else; a
    second call with the same arguments delivers nothing; a call that only
    changes the width delivers one resize message and no move. *)
Theorem setGeometry_notifies_changes fuel this W nd x y width height s :
  let box := geometry_box W nd in
  let w := clip (minWidth box) (maxWidth box) width in
  let h := clip (minHeight box) (maxHeight box) height in
  widgets s !! this = Some W -> _node W = Some nd ->
  isNaN x = false -> isNaN y = false -> isNaN width = false -> isNaN height = false ->
  isNaN (minWidth box) = false -> isNaN (maxWidth box) = false ->
  isNaN (minHeight box) = false -> isNaN (maxHeight box) = false ->
  exists s' W',
    setGeometry (S fuel) this x y width height s = Ret tt s' /\
    widgets s' !! this = Some W' /\
    _x W' = x /\ _y W' = y /\ _width W' = w /\ _height W' = h /\
    (num_le (minWidth box) (maxWidth box) = true ->
       num_le (minWidth box) w = true /\ num_le w (maxWidth box) = true) /\
    (num_le (minHeight box) (maxHeight box) = true ->
       num_le (minHeight box) h = true /\ num_le h (maxHeight box) = true) /\
    trace s' = trace s ++
      (if bool_decide (_x W <> x \/ _y W <> y)
       then [Sent (depth s) this (MoveMessage (_x W) (_y W) x y)] else []) ++
      (if bool_decide (_width W <> w \/ _height W <> h)
       then [Sent (depth s) this (ResizeMessage (_width W) (_height W) w h)] else []) /\
    (_x W = x -> _y W = y -> _height W = h -> _width W <> w ->
       trace s' = trace s ++
         [Sent (depth s) this (ResizeMessage (_width W) (_height W) w h)]) /\
    exists s'',
      setGeometry (S fuel) this x y width height s' = Ret tt s'' /\
      trace s'' = trace s'.
Proof.
  intros box w h Hw Hn Hx Hy Hwd Hht Hlw Hhw Hlh Hhh.
  assert (Hcw : isNaN w = false) by by apply clip_not_NaN.
  assert (Hch : isNaN h = false) by by apply clip_not_NaN.
  pose proof (setGeometry_spec fuel this W nd x y width height s Hw Hn) as Hs.
  apply wp_returns in Hs as ([] & s' & Hrun & Hws & Hheap & Htr).
  rewrite geometry_sends_messages in Htr by done.
  set (W' := geometry_result W nd x y width height) in *.
  assert (Hw' : widgets s' !! this = Some W') by (rewrite Hws; apply lookup_insert_eq).
  exists s', W'. split_and!; try done.
  - intros Hle. by apply clip_within.
  - intros Hle. by apply clip_within.
  - intros Ex Ey Eh Ew. rewrite Htr. unfold geometry_messages. fold box w h.
    rewrite bool_decide_eq_false_2 by (intros [|]; done).
    rewrite bool_decide_eq_true_2 by (by left). done.
  - assert (Hn' : _node W' = Some (with_style (style (default nd (_node W'))) nd)) by done.
    pose proof (setGeometry_spec fuel this W' _ x y width height s' Hw' Hn') as Hs2.
    apply wp_returns in Hs2 as ([] & s'' & Hrun2 & _ & _ & Htr2).
    exists s''. split; [done|]. rewrite Htr2.
    rewrite geometry_sends_messages by done.
    unfold geometry_messages. cbn [geometry_box W' geometry_result _boxSizing].
    fold box w h. cbn [_x _y _width _height].
    rewrite !bool_decide_eq_false_2 by (intros [|]; done).
    by rewrite app_nil_r.
Qed.

Lemma setGeometry_notifies_changes_witness :
  exists s',
    setGeometry 1 0%nat (Fin 5) (Fin 6) (Fin 70) (Fin 8) one_widget = Ret tt s' /\
    trace s' = [Sent 0 0%nat (MoveMessage (Fin 0) (Fin 0) (Fin 5) (Fin 6));
                Sent 0 0%nat (ResizeMessage (Fin 0) (Fin 0) (Fin 70) (Fin 8))].
Proof.
  destruct (setGeometry_notifies_changes 0 0%nat (plain_widget 0%nat) plain_node (Fin 5) (Fin 6) (Fin 70) (Fin 8)
               one_widget) as (s' & W' & Hrun & _ & _ & _ & _ & _ & _ & _ & Htr & _).
  - vm_compute. reflexivity.
  - reflexivity.
  - reflexivity.
  - reflexivity.
  - reflexivity.
  - reflexivity.
  - reflexivity.
  - reflexivity.
  - reflexivity.
  - reflexivity.
  - exists s'. split; [exact Hrun | exact Htr].
Defined.

(** C3 (as stated) fails where an argument is NaN: [NaN !== NaN] holds, so
    the second of two identical calls delivers a move message again. *)
Lemma setGeometry_NaN_delivers_again :
  exists s1 s2,
    setGeometry 1 0%nat NaN (Fin 0) (Fin 0) (Fin 0) one_widget = Ret tt s1 /\
    setGeometry 1 0%nat NaN (Fin 0) (Fin 0) (Fin 0) s1 = Ret tt s2 /\
    trace s2 = trace s1 ++ [Sent 0 0%nat (MoveMessage NaN (Fin 0) NaN (Fin 0))].
Proof.
  eexists _, _. split_and!.
  - vm_compute. reflexivity.
  - vm_compute. reflexivity.
  - vm_compute. reflexivity.
Qed.

(** ** The layout property *)

Lemma bind_run {A B} (m : M A) (k : A -> M B) s a s' :
  m s = Ret a s' -> (m ≫= k) s = k a s'.
Proof. unfold mbind, M_bind. by intros ->. Qed.

Lemma getWidget_run w W s : widgets s !! w = Some W -> getWidget w s = Ret W s.
Proof. unfold getWidget. by intros ->. Qed.

Lemma testFlag_run w W f s :
  widgets s !! w = Some W -> testFlag w f s = Ret (test_flag (_flags W) f) s.
Proof. intros H. unfold testFlag. by rewrite (bind_run _ _ _ _ _ (getWidget_run _ _ _ H)). Qed.

(** C9: assigning the layout that is installed already (or null when there is
    none) returns at once and leaves the store as it was, whatever the
    flags of the widget, [DisallowLayoutChange] included. *)
Theorem set_layout_same_is_noop fuel this W s :
  widgets s !! this = Some W ->
  set_layout fuel this (_layout W) s = Ret tt s.
Proof.
  intros Hw. unfold set_layout, set_layout_with.
  rewrite (bind_run _ _ _ _ _ (getWidget_run _ _ _ Hw)).
  by rewrite decide_True.
Qed.

Lemma set_layout_same_is_noop_witness :
  flag_of locked_widget 0%nat DisallowLayoutChange = true /\
  set_layout 0 0%nat None locked_widget = Ret tt locked_widget.
Proof.
  split.
  - vm_compute. reflexivity.
  - apply (set_layout_same_is_noop 0 0%nat
             (with_flags (set_flag 0 DisallowLayoutChange) (plain_widget 0%nat))).
    vm_compute. reflexivity.
Defined.

Lemma not_elem_of_filter_out (old : lid) (fs : list lid) :
  old ∉ List.filter (fun f => negb (bool_decide (f = old))) fs.
Proof.
  rewrite list_elem_of_In, filter_In. intros [_ H].
  by rewrite bool_decide_eq_true_2 in H.
Qed.


(** ** The child list *)

(** C10: [children()] returns a new array object holding the children in
    order; whatever is done to that array, the widget and its own child
    array stay as they were; and a second call returns another array with
    the same contents. *)
Theorem children_returns_fresh_copy this W l s :
  widgets s !! this = Some W -> arrays s !! _children W = Some l ->
  exists a s',
    children this s = Ret a s' /\
    arrays s !! a = None /\ a <> _children W /\
    arrays s' !! a = Some l /\
    widgets s' = widgets s /\ arrays s' !! _children W = Some l /\
    (forall f, exists s'',
       updArray a f s' = Ret tt s'' /\
       arrays s'' !! a = Some (f l) /\
       widgets s'' = widgets s /\ arrays s'' !! _children W = Some l) /\
    exists a2 s2,
      children this s' = Ret a2 s2 /\ a2 <> a /\
      arrays s2 !! a2 = Some l /\ arrays s2 !! a = Some l.
Proof.
  intros Hw Ha.
  assert (Hfresh : forall m : gmap aid (list (option wid)), m !! fresh (dom m) = None).
  { intros m. apply not_elem_of_dom, is_fresh. }
  assert (Hrun : forall s0, widgets s0 !! this = Some W ->
            arrays s0 !! _children W = Some l ->
            children this s0 = Ret (fresh (dom (arrays s0)))
                                   (set_arrays (insert (fresh (dom (arrays s0))) l) s0)).
  { intros s0 Hw0 Ha0. unfold children.
    rewrite (bind_run _ _ _ _ _ (getWidget_run _ _ _ Hw0)).
    unfold array_slice, getArray, mbind, M_bind. by rewrite Ha0. }
  set (a := fresh (dom (arrays s))).
  assert (Hne : a <> _children W).
  { intros E. pose proof (Hfresh (arrays s)) as Hf. fold a in Hf. congruence. }
  exists a, (set_arrays (insert a l) s). split_and!.
  - by apply Hrun.
  - apply Hfresh.
  - done.
  - store_simpl. apply lookup_insert_eq.
  - reflexivity.
  - store_simpl. by rewrite lookup_insert_ne.
  - intros f. eexists. split.
    + unfold updArray. store_simpl. rewrite lookup_insert_eq. reflexivity.
    + store_simpl. rewrite insert_insert_eq. split_and!.
      * apply lookup_insert_eq.
      * reflexivity.
      * by rewrite lookup_insert_ne.
  - set (s' := set_arrays (insert a l) s).
    assert (Ha' : arrays s' !! _children W = Some l)
      by (unfold s'; store_simpl; by rewrite lookup_insert_ne).
    exists (fresh (dom (arrays s'))), (set_arrays (insert (fresh (dom (arrays s'))) l) s').
    assert (Hne2 : fresh (dom (arrays s')) <> a).
    { intros E. pose proof (Hfresh (arrays s')) as Hf. rewrite E in Hf.
      unfold s' in Hf. store_simpl. by rewrite lookup_insert_eq in Hf. }
    split_and!.
    + by apply Hrun.
    + done.
    + store_simpl. apply lookup_insert_eq.
    + store_simpl. rewrite lookup_insert_ne by done. apply lookup_insert_eq.
Qed.

Lemma children_returns_fresh_copy_witness :
  exists a s', children 0%nat one_widget = Ret a s' /\ arrays s' !! a = Some [].
Proof.
  destruct (children_returns_fresh_copy 0%nat (plain_widget 0%nat) [] one_widget)
    as (a & s' & Hrun & _ & _ & Hl & _).
  - vm_compute. reflexivity.
  - vm_compute. reflexivity.
  - exists a, s'. split; [exact Hrun | exact Hl].
Defined.

(** ** Compression of posted messages *)

Lemma compressMessage_true msg pending :
  compressMessage msg pending = true <->
  msg_type msg = "layout-request" /\
  exists other, other ∈ pending /\ msg_type other = "layout-request".
Proof.
  unfold compressMessage. destruct (String.eqb_spec (msg_type msg) "layout-request") as [E|E].
  - rewrite existsb_exists. split.
    + intros (o & Hin & Ho). split; [done|]. exists o.
      split; [by apply list_elem_of_In | by apply String.eqb_eq].
    + intros (_ & o & Hin & Ho). exists o.
      split; [by apply list_elem_of_In | by apply String.eqb_eq].
  - split; [done | by intros [? _]].
Qed.

Lemma layout_requests_app q m :
  layout_requests (q ++ [m]) = (layout_requests q + if is_layout_request m then 1 else 0)%nat.
Proof.
  unfold layout_requests. rewrite List.filter_app, length_app. simpl.
  by destruct (is_layout_request m).
Qed.

Lemma compress_request_iff q :
  compressMessage (Msg "layout-request") q = negb (layout_requests q =? 0)%nat.
Proof.
  unfold compressMessage, layout_requests. simpl.
  induction q as [|m q IH]; [done|]. simpl. fold (is_layout_request m).
  destruct (is_layout_request m); [done | exact IH].
Qed.

Lemma post_request_absorbed n h s :
  layout_requests (queues s !!! h) <> 0%nat ->
  post_times n h (Msg "layout-request") s = Ret tt s.
Proof.
  intros Hc. induction n as [|n IH]; [done|].
  cbn [post_times]. unfold mbind, M_bind, postMessage.
  rewrite compress_request_iff.
  apply Nat.eqb_neq in Hc. rewrite Hc. exact IH.
Qed.

Lemma post_request_first h s :
  layout_requests (queues s !!! h) = 0%nat ->
  postMessage h (Msg "layout-request") s =
    Ret tt (set_trace (fun t => t ++ [Posted h (Msg "layout-request")])
             (set_queues (insert h (queues s !!! h ++ [Msg "layout-request"])) s)).
Proof.
  intros Hc. unfold postMessage. rewrite compress_request_iff, Hc. reflexivity.
Qed.

Lemma post_times_run n h s :
  post_times n h (Msg "layout-request") s =
    Ret tt (match n with
            | S _ =>
                if (layout_requests (queues s !!! h) =? 0)%nat
                then set_trace (fun t => t ++ [Posted h (Msg "layout-request")])
                       (set_queues (insert h (queues s !!! h ++ [Msg "layout-request"])) s)
                else s
            | O => s
            end).
Proof.
  destruct n as [|n]; [done|].
  destruct (layout_requests (queues s !!! h) =? 0)%nat eqn:E.
  - apply Nat.eqb_eq in E. cbn [post_times]. unfold mbind, M_bind.
    rewrite (post_request_first _ _ E). apply post_request_absorbed.
    store_simpl. rewrite lookup_total_insert_eq, layout_requests_app, E. done.
  - apply Nat.eqb_neq in E. by apply post_request_absorbed.
Qed.

(** C8: [compressMessage] answers true exactly for a layout-request when a
    layout-request is pending; so however often layout-request is posted
    to a handler, the number pending for it does not rise above one (or
    above what it was), and what is posted between two turns of the event
    loop is delivered once, if at all. *)
Theorem layout_requests_coalesce :
  (forall msg pending,
     compressMessage msg pending = true <->
     msg_type msg = "layout-request" /\
     exists other, other ∈ pending /\ msg_type other = "layout-request") /\
  (forall n h s, exists s',
     post_times n h (Msg "layout-request") s = Ret tt s' /\
     (layout_requests (queues s' !!! h) <=
        Nat.max 1 (layout_requests (queues s !!! h)))%nat) /\
  (forall fuel n h s, exists s1 s2,
     post_times n h (Msg "layout-request") (drained h s) = Ret tt s1 /\
     flushMessages (S fuel) h s1 = Ret tt s2 /\
     trace s2 = trace s1 ++
       (if n is O then [] else [Sent (depth s) h (Msg "layout-request")]) /\
     deliveries h "layout-request" (trace s2) =
       (deliveries h "layout-request" (trace s) + if n is O then 0 else 1)%nat).
Proof.
  split_and!.
  - apply compressMessage_true.
  - intros n h s. eexists. split; [apply post_times_run|].
    destruct n as [|n]; [lia|].
    destruct (layout_requests (queues s !!! h) =? 0)%nat eqn:E.
    + apply Nat.eqb_eq in E. store_simpl.
      rewrite lookup_total_insert_eq, layout_requests_app, E. simpl. lia.
    + lia.
  - intros fuel n h s.
    assert (Hq : queues (drained h s) !!! h = []).
    { unfold drained. store_simpl. by rewrite lookup_total_delete_eq. }
    destruct n as [|n].
    + eexists _, _. split; [apply post_times_run|].
      unfold flushMessages, mbind, M_bind. rewrite Hq. cbn [deliverAll modify].
      split_and!; [reflexivity | by rewrite app_nil_r | ].
      unfold drained. store_simpl. lia.
    + pose proof (post_times_run (S n) h (drained h s)) as Hp.
      rewrite Hq in Hp. cbn [layout_requests List.filter length Nat.eqb app] in Hp.
      set (s1 := set_trace _ _) in Hp.
      set (s1' := set_queues (delete h) s1).
      pose proof (sendMessage_informational fuel h (Msg "layout-request")
                    (fun _ s' => s' = set_trace
                       (fun t => t ++ [Sent (depth s1') h (Msg "layout-request")]) s1')
                    s1' eq_refl eq_refl) as Hs.
      apply wp_returns in Hs as ([] & s2 & Hs & ->).
      exists s1, (set_trace (fun t => t ++ [Sent (depth s1') h (Msg "layout-request")]) s1').
      split; [exact Hp|]. split.
      { assert (Hq1 : queues s1 !!! h = [Msg "layout-request"]).
        { unfold s1. store_simpl. apply lookup_total_insert_eq. }
        unfold flushMessages, mbind, M_bind. cbv beta iota. rewrite Hq1.
        cbn [modify deliverAll]. fold s1'. unfold mbind, M_bind. by rewrite Hs. }
      split; [reflexivity|].
      unfold s1', s1, drained. store_simpl. unfold deliveries.
      rewrite !List.filter_app, !length_app. simpl.
      rewrite bool_decide_eq_true_2 by done. simpl. lia.
Qed.

(** ** Trees *)

Lemma tree_ind (P : tree -> Prop) :
  (forall w kids, Forall P kids -> P (Node w kids)) -> forall t, P t.
Proof.
  intros H. fix IH 1. intros [w kids]. apply H.
  induction kids as [|k kids IHk]; constructor; [apply IH | exact IHk].
Qed.

Lemma fans_out_cases type :
  fans_out type = true ->
  type ∈ ["before-show"; "after-show"; "before-hide"; "after-hide";
          "before-attach"; "after-attach"; "before-detach"; "after-detach"].
Proof.
  unfold fans_out, skips_hidden. rewrite orb_true_iff, !existsb_exists.
  intros [(t & Hin & Ht) | (t & Hin & Ht)]; apply String.eqb_eq in Ht; subst t;
    apply list_elem_of_In; simpl in *; tauto.
Qed.

Lemma skeleton_handled type s W : skeleton (handled type s W) = skeleton W.
Proof.
  unfold handled. repeat (destruct (String.eqb type _)); reflexivity.
Qed.

Lemma links_handled type s W : links (handled type s W) = links W.
Proof.
  unfold handled. repeat (destruct (String.eqb type _)); reflexivity.
Qed.

Lemma set_widgets_twice f g s :
  set_widgets g (set_widgets f s) = set_widgets (fun m => g (f m)) s.
Proof. reflexivity. Qed.

Lemma set_widgets_insert_insert w A B s :
  set_widgets (insert w B) (set_widgets (insert w A) s) = set_widgets (insert w B) s.
Proof. unfold set_widgets. cbn. by rewrite insert_insert_eq. Qed.

Lemma mret_bind {A B} (a : A) (k : A -> M B) s : (mret a ≫= k) s = k a s.
Proof. reflexivity. Qed.

Lemma updWidget_run w f W s :
  widgets s !! w = Some W -> updWidget w f s = Ret tt (set_widgets (insert w (f W)) s).
Proof. unfold updWidget. by intros ->. Qed.

Lemma processMessage_fan send fuel w W type s :
  widgets s !! w = Some W -> fans_out type = true -> parent_known s w = true ->
  processMessage send fuel w (Msg type) s =
    (if skips_hidden type then sendNonHidden send fuel (_children W) (Msg type)
     else sendAll send fuel (_children W) (Msg type))
      (set_widgets (insert w (handled type s W)) s).
Proof.
  intros Hw Hty Hp. apply fans_out_cases in Hty.
  assert (Hc : forall W' s', widgets s' !! w = Some W' -> _children W' = _children W ->
            forall k : aid -> M unit,
            (c ← thisChildren w; k c) s' = k (_children W) s').
  { intros W' s' Hw' Hc k. unfold thisChildren.
    unfold mbind at 1, M_bind at 1, mbind at 1, M_bind at 1.
    rewrite (getWidget_run _ _ _ Hw'). cbn. by rewrite Hc. }
  repeat (apply elem_of_cons in Hty as [-> | Hty]); [.. | by apply elem_of_nil in Hty];
    unfold processMessage; cbn [msg_type String.eqb Ascii.eqb Bool.eqb skips_hidden existsb orb handled].
  - unfold onBeforeShow. rewrite mret_bind, (Hc W s Hw eq_refl).
    by rewrite set_widgets_id.
  - unfold setFlag. rewrite (bind_run _ _ _ _ _ (updWidget_run _ _ _ _ Hw)).
    unfold onAfterShow. rewrite mret_bind. erewrite Hc; [reflexivity | solve_lookup | reflexivity].
  - unfold onBeforeHide. rewrite mret_bind, (Hc W s Hw eq_refl).
    by rewrite set_widgets_id.
  - unfold clearFlag. rewrite (bind_run _ _ _ _ _ (updWidget_run _ _ _ _ Hw)).
    unfold onAfterHide. rewrite mret_bind. erewrite Hc; [reflexivity | solve_lookup | reflexivity].
  - rewrite (bind_run _ _ _ _ _ (updWidget_run _ _ _ _ Hw)).
    unfold onBeforeAttach. rewrite mret_bind. erewrite Hc; [reflexivity | solve_lookup | reflexivity].
  - rewrite (bind_run _ _ _ _ _ (getWidget_run _ _ _ Hw)). cbv zeta.
    unfold isHidden. rewrite (bind_run _ _ _ _ _ (testFlag_run _ _ IsHidden _ Hw)).
    assert (Hvis : forall k : bool -> M unit,
      ((if negb (test_flag (_flags W) IsHidden)
        then match _parent W with Some p => isVisible p | None => mret true end
        else mret false) ≫= k) s =
      k (negb (test_flag (_flags W) IsHidden) &&
         match _parent W with Some p => flag_of s p IsVisible | None => true end) s).
    { intros k. destruct (negb _); [|reflexivity]. cbn [andb].
      unfold parent_known in Hp. rewrite Hw in Hp.
      destruct (_parent W) as [p|]; [|reflexivity].
      apply bool_decide_eq_true in Hp as [Wp HWp].
      unfold isVisible, flag_of. rewrite HWp.
      by rewrite (bind_run _ _ _ _ _ (testFlag_run _ _ IsVisible _ HWp)). }
    rewrite Hvis. 
    set (visible := negb _ && _). unfold setFlag, onAfterAttach.
    destruct visible; cbn [when].
    + rewrite (bind_run _ _ _ _ _ (updWidget_run _ _ _ _ Hw)).
      erewrite bind_run; [|apply updWidget_run; solve_lookup].
      rewrite mret_bind, set_widgets_insert_insert.
      erewrite Hc; [reflexivity | solve_lookup | reflexivity].
    + rewrite mret_bind.
      rewrite (bind_run _ _ _ _ _ (updWidget_run _ _ _ _ Hw)).
      rewrite mret_bind.
      erewrite Hc; [reflexivity | solve_lookup | reflexivity].
  - unfold onBeforeDetach. rewrite mret_bind, (Hc W s Hw eq_refl).
    by rewrite set_widgets_id.
  - unfold clearFlag. rewrite (bind_run _ _ _ _ _ (updWidget_run _ _ _ _ Hw)).
    erewrite bind_run; [|apply updWidget_run; solve_lookup].
    unfold onAfterDetach. rewrite mret_bind, set_widgets_insert_insert.
    erewrite Hc; [reflexivity | solve_lookup | reflexivity].
Qed.

Lemma same_tree_refl s : same_tree s s.
Proof. by split. Qed.

Lemma same_tree_trans s1 s2 s3 : same_tree s1 s2 -> same_tree s2 s3 -> same_tree s1 s3.
Proof. intros [? ?] [? ?]. split; congruence. Qed.

Lemma same_skeleton_refl s : same_skeleton s s.
Proof. by repeat split. Qed.

Lemma same_skeleton_trans s1 s2 s3 :
  same_skeleton s1 s2 -> same_skeleton s2 s3 -> same_skeleton s1 s3.
Proof.
  intros (Hs1 & Hw1 & Hl1 & Hq1 & Hf1 & Hd1) (Hs2 & Hw2 & Hl2 & Hq2 & Hf2 & Hd2).
  split; [congruence|]. split; [by eapply same_tree_trans|]. repeat split; congruence.
Qed.

Lemma same_skeleton_tree s s' : same_skeleton s s' -> same_tree s s'.
Proof. by intros (_ & ? & _). Qed.

Lemma same_tree_lookup s s' w :
  same_tree s s' ->
  match widgets s !! w, widgets s' !! w with
  | Some W, Some W' => links W' = links W
  | None, None => True
  | _, _ => False
  end.
Proof.
  intros [Hs _]. apply (f_equal (fun m => m !! w)) in Hs.
  rewrite !lookup_fmap in Hs.
  destruct (widgets s !! w), (widgets s' !! w);
    cbv [fmap option_fmap option_map] in Hs; [congruence | discriminate | discriminate | done].
Qed.

Lemma skeleton_fields W W' :
  skeleton W' = skeleton W ->
  _node W' = _node W /\ _layout W' = _layout W /\ _parent W' = _parent W /\
  _children W' = _children W.
Proof. destruct W, W'. unfold skeleton. cbn. intros [=]. by subst. Qed.

Lemma links_fields W W' :
  links W' = links W -> _parent W' = _parent W /\ _children W' = _children W.
Proof. unfold links. by intros [= ? ?]. Qed.

Lemma same_tree_update s w W W' :
  widgets s !! w = Some W -> links W' = links W ->
  same_tree s (set_widgets (insert w W') s).
Proof.
  intros Hw Hs. split; [|done]. store_simpl.
  rewrite fmap_insert, Hs. apply insert_id. by rewrite lookup_fmap, Hw.
Qed.

Lemma parent_is_ext s s' w p :
  same_tree s s' -> parent_is s' w p = parent_is s w p.
Proof.
  intros Hs. pose proof (same_tree_lookup s s' w Hs) as H. unfold parent_is.
  destruct (widgets s !! w), (widgets s' !! w); try done.
  apply links_fields in H as [-> _]. done.
Qed.

Lemma parent_known_ext s s' w :
  same_tree s s' -> parent_known s' w = parent_known s w.
Proof.
  intros Hs. pose proof (same_tree_lookup s s' w Hs) as H. unfold parent_known.
  destruct (widgets s !! w), (widgets s' !! w); try done.
  apply links_fields in H as [-> _].
  destruct (_parent _) as [p|]; [|done].
  pose proof (same_tree_lookup s s' p Hs) as Hp.
  apply bool_decide_ext. unfold is_Some.
  destruct (widgets s !! p), (widgets s' !! p); try done.
  split; eauto.
Qed.

Lemma shape_ext s s' t : same_tree s s' -> shape s' t = shape s t.
Proof.
  intros Hs. induction t as [w kids IH] using tree_ind. cbn [shape].
  pose proof (same_tree_lookup s s' w Hs) as H.
  destruct (widgets s !! w) as [W|], (widgets s' !! w) as [W'|]; try done.
  apply links_fields in H as [_ ->].
  assert (Ha : arrays s' = arrays s) by apply Hs. rewrite Ha. f_equal.
  induction IH as [|k kids Hk _ IHk]; [done|]. cbn [forallb].
  by rewrite Hk, IHk, (parent_is_ext s s').
Qed.

Lemma fan_same_skeleton type t s : same_skeleton s (fan type t s).
Proof.
  revert s. induction t as [w kids IH] using tree_ind. intros s. cbn [fan].
  destruct (widgets s !! w) as [W|] eqn:Hw; [|apply same_skeleton_refl].
  set (s1 := set_depth S _).
  set (s2 := set_widgets _ s1).
  assert (H2 : skeleton <$> widgets s2 = skeleton <$> widgets s /\
               same_tree s s2 /\ layouts s2 = layouts s /\
               queues s2 = queues s /\ filters s2 = filters s /\
               depth s2 = S (depth s)).
  { split; [|split; [|by repeat split]].
    - unfold s2, s1. store_simpl. rewrite fmap_insert, skeleton_handled.
      apply insert_id. by rewrite lookup_fmap, Hw.
    - apply (same_tree_update s1 w W); [done | apply links_handled]. }
  clearbody s2. clear s1. revert s2 H2.
  induction IH as [|k kids Hk _ IHk]; intros s2 H2.
  - cbn [fold_left]. destruct H2 as (? & Ht & ? & ? & ? & Hd).
    repeat split; store_simpl; try done; try apply Ht. by rewrite Hd.
  - cbn [fold_left]. apply IHk.
    destruct (skips_hidden type && flag_of s2 (root k) IsHidden); [done|].
    destruct (Hk s2) as (? & ? & ? & ? & ? & ?).
    destruct H2 as (? & ? & ? & ? & ? & ?).
    split; [congruence|]. split; [by eapply same_tree_trans|]. repeat split; congruence.
Qed.

Lemma getArray_run a l s : arrays s !! a = Some l -> getArray a s = Ret l s.
Proof. unfold getArray. by intros ->. Qed.

Lemma array_length_run a l s :
  arrays s !! a = Some l -> array_length a s = Ret (length l) s.
Proof.
  intros H. unfold array_length. by rewrite (bind_run _ _ _ _ _ (getArray_run _ _ _ H)).
Qed.

Lemma array_get_run a l i s :
  arrays s !! a = Some l -> array_get a i s = Ret (mjoin (l !! i)) s.
Proof.
  intros H. unfold array_get. by rewrite (bind_run _ _ _ _ _ (getArray_run _ _ _ H)).
Qed.

Lemma roots_lookup (done kids : list tree) k :
  map (fun k => Some (root k)) (done ++ k :: kids) !! length done = Some (Some (root k)).
Proof.
  rewrite map_app. rewrite lookup_app_r by (by rewrite length_map).
  by rewrite length_map, Nat.sub_diag.
Qed.

Lemma for_loop_fan type n a kids : forall done s fuel,
  (S (length kids) <= fuel)%nat ->
  arrays s !! a = Some (map (fun k => Some (root k)) (done ++ kids)) ->
  Forall (fun k => forall s0, shape s0 k = true -> parent_known s0 (root k) = true ->
            sendMessage n (root k) (Msg type) s0 = Ret tt (fan type k s0)) kids ->
  Forall (fun k => shape s k = true /\ parent_known s (root k) = true) kids ->
  for_loop fuel (array_length a)
    (fan_body (sendMessage n) (skips_hidden type) a (Msg type)) (length done) s =
  Ret tt (fold_left
            (fun acc k =>
               if skips_hidden type && flag_of acc (root k) IsHidden then acc
               else fan type k acc)
            kids s).
Proof.
  induction kids as [|k kids IH]; intros done s fuel Hfuel Ha Hsend Hshape.
  - destruct fuel as [|fuel]; [simpl in Hfuel; lia|]. cbn [for_loop fold_left].
    rewrite (bind_run _ _ _ _ _ (array_length_run _ _ _ Ha)).
    rewrite length_map, app_nil_r, Nat.ltb_irrefl. reflexivity.
  - destruct fuel as [|fuel]; [simpl in Hfuel; lia|]. cbn [for_loop fold_left].
    rewrite (bind_run _ _ _ _ _ (array_length_run _ _ _ Ha)).
    rewrite length_map, length_app. cbn [length].
    replace (length done <? length done + S (length kids))%nat with true
      by (symmetry; apply Nat.ltb_lt; lia).
    apply Forall_cons in Hsend as [Hk Hsend].
    apply Forall_cons in Hshape as [[Hsk Hpk] Hshape].
    assert (Hstep : forall s',
      same_skeleton s s' ->
      for_loop fuel (array_length a)
        (fan_body (sendMessage n) (skips_hidden type) a (Msg type)) (S (length done)) s' =
      Ret tt (fold_left
            (fun acc k =>
               if skips_hidden type && flag_of acc (root k) IsHidden then acc
               else fan type k acc)
            kids s')).
    { intros s' Hs'. replace (S (length done)) with (length (done ++ [k]))
        by (rewrite length_app; simpl; lia).
      apply IH.
      - simpl in Hfuel. lia.
      - rewrite <- app_assoc. cbn [app]. destruct Hs' as (_ & [_ ->] & _). exact Ha.
      - exact Hsend.
      - eapply Forall_impl; [exact Hshape|]. intros k' [? ?].
        by rewrite (shape_ext s s'), (parent_known_ext s s') by by apply same_skeleton_tree. }
    assert (Hbody :
      fan_body (sendMessage n) (skips_hidden type) a (Msg type) (length done) s =
      Ret tt (if skips_hidden type && flag_of s (root k) IsHidden then s
              else fan type k s)).
    { unfold fan_body.
      rewrite (bind_run _ _ _ _ _ (array_get_run _ _ (length done) _ Ha)).
      rewrite roots_lookup. cbn [mjoin option_join nonnull]. rewrite mret_bind.
      destruct (skips_hidden type) eqn:Eskip; cbn [andb]; [|by apply Hk].
      assert (Hex : exists Wk, widgets s !! root k = Some Wk).
      { destruct k as [wk ks]. cbn [shape root] in *.
        destruct (widgets s !! wk); [eauto | done]. }
      destruct Hex as (Wk & HWk).
      unfold isHidden. rewrite (bind_run _ _ _ _ _ (testFlag_run _ _ IsHidden _ HWk)).
      unfold flag_of. rewrite HWk.
      destruct (test_flag (_flags Wk) IsHidden); cbn [negb when]; [done | by apply Hk]. }
    cbv iota. rewrite (bind_run _ _ _ _ _ Hbody). apply Hstep.
    destruct (skips_hidden type && flag_of s (root k) IsHidden);
      [apply same_skeleton_refl | apply fan_same_skeleton].
Qed.

Lemma need_kid (k : tree) (kids : list tree) :
  k ∈ kids -> (need k <= list_max (map need kids))%nat.
Proof.
  intros Hk. pose proof (proj1 (list_max_le (map need kids) _) (le_n _)) as H.
  rewrite List.Forall_forall in H. apply H, in_map, list_elem_of_In, Hk.
Qed.

(** Sending a message of the show, hide, attach or detach family to the
    root of a tree that the store holds returns, given fuel for the walk,
    and leaves the store that the recursion on the tree computes. *)
Lemma sendMessage_fan type t : forall fuel s,
  fans_out type = true -> (need t <= fuel)%nat ->
  shape s t = true -> parent_known s (root t) = true ->
  sendMessage fuel (root t) (Msg type) s = Ret tt (fan type t s).
Proof.
  induction t as [w kids IH] using tree_ind. intros fuel s Hty Hfuel Hshape Hpar.
  destruct fuel as [|n]; [simpl in Hfuel; lia|].
  cbn [root] in *. cbn [shape] in Hshape. cbn [sendMessage fan].
  destruct (widgets s !! w) as [W|] eqn:Hw; [|done].
  apply andb_true_iff in Hshape as [Harr Hkids]. apply bool_decide_eq_true in Harr.
  unfold mbind at 1, M_bind at 1. unfold log, modify.
  unfold mbind at 1, M_bind at 1. unfold mbind at 1, M_bind at 1.
  set (s1 := set_depth S _).
  assert (Hw1 : widgets s1 !! w = Some W) by done.
  assert (Hp1 : parent_known s1 w = true) by done.
  unfold mbind at 1, M_bind at 1.
  rewrite (processMessage_fan _ _ _ _ _ _ Hw1 Hty Hp1).
  set (s2 := set_widgets _ s1).
  assert (H2 : same_tree s s2).
  { apply (same_tree_update s1 w W); [done | apply links_handled]. }
  assert (Hloop :
    for_loop n (array_length (_children W))
      (fan_body (sendMessage n) (skips_hidden type) (_children W) (Msg type))
      (length (@nil tree)) s2 =
    Ret tt (fold_left
            (fun acc k =>
               if skips_hidden type && flag_of acc (root k) IsHidden then acc
               else fan type k acc)
            kids s2)).
  { apply for_loop_fan.
    - cbn [need] in Hfuel. lia.
    - cbn [app]. destruct H2 as [_ ->]. exact Harr.
    - apply Forall_forall. intros k Hk s0 Hs0 Hp0.
      rewrite Forall_forall in IH. apply IH; [done.. | | done | done].
      cbn [need] in Hfuel. pose proof (need_kid k kids Hk). lia.
    - apply Forall_forall. intros k Hk.
      rewrite forallb_forall in Hkids. apply list_elem_of_In in Hk.
      specialize (Hkids k Hk). apply andb_true_iff in Hkids as [Hpk Hsk].
      rewrite (shape_ext s s2), (parent_known_ext s s2) by done.
      split; [done|]. unfold parent_known, parent_is in *.
      destruct (widgets s !! root k) as [Wk|]; [|done].
      apply bool_decide_eq_true in Hpk. rewrite Hpk, Hw.
      apply bool_decide_eq_true. eauto. }
  assert (Hconv :
    (if skips_hidden type
     then sendNonHidden (sendMessage n) n (_children W) (Msg type)
     else sendAll (sendMessage n) n (_children W) (Msg type)) s2 =
    for_loop n (array_length (_children W))
      (fan_body (sendMessage n) (skips_hidden type) (_children W) (Msg type))
      (length (@nil tree)) s2)
    by (destruct (skips_hidden type); reflexivity).
  rewrite Hconv, Hloop. reflexivity.
Qed.

Lemma own_arrays_reflect s : own_arrays_b s = true -> own_arrays s.
Proof.
  unfold own_arrays_b. intros H%bool_decide_eq_true w1 w2 W1 W2 H1 H2 Hc.
  apply elem_of_map_to_list in H1, H2.
  apply list_elem_of_lookup in H1 as [i Hi], H2 as [j Hj].
  assert (i = j).
  { eapply NoDup_lookup; [exact H | |].
    - rewrite list_lookup_fmap, Hi. reflexivity.
    - rewrite list_lookup_fmap, Hj. simpl. by rewrite Hc. }
  subst j. rewrite Hi in Hj. by injection Hj.
Qed.

Lemma fan_outside type t : forall s w,
  w ∉ nodes t -> widgets (fan type t s) !! w = widgets s !! w.
Proof.
  induction t as [r kids IH] using tree_ind. intros s w Hw. cbn [fan].
  destruct (widgets s !! r) as [W|] eqn:Hr; [|done].
  cbn [nodes] in Hw. apply not_elem_of_cons in Hw as [Hne Hw].
  set (s2 := set_widgets _ _).
  assert (H2 : widgets s2 !! w = widgets s !! w).
  { unfold s2. store_simpl. by rewrite lookup_insert_ne. }
  clearbody s2. revert s2 H2.
  induction IH as [|k kids Hk _ IHk]; intros s2 H2; [done|].
  cbn [fold_left flat_map] in *. rewrite elem_of_app in Hw.
  apply IHk; [tauto|].
  destruct (skips_hidden type && flag_of s2 (root k) IsHidden); [done|].
  rewrite Hk; [done | tauto].
Qed.


Lemma fan_trace type t : forall s,
  skips_hidden type = false -> shape s t = true ->
  trace (fan type t s) = trace s ++ fan_events type (depth s) t.
Proof.
  induction t as [r kids IH] using tree_ind. intros s Hty Hshape.
  cbn [fan fan_events]. cbn [shape] in Hshape.
  destruct (widgets s !! r) as [W|] eqn:Hr; [|done].
  apply andb_true_iff in Hshape as [_ Hkids].
  set (s2 := set_widgets _ _).
  assert (H2 : same_tree s s2 /\ depth s2 = S (depth s) /\
               trace s2 = trace s ++ [Sent (depth s) r (Msg type)]).
  { split; [|done]. eapply same_tree_trans;
      [|apply (same_tree_update _ r W); [done | apply links_handled]]. done. }
  rewrite Hty. cbn [andb]. store_simpl.
  cut (trace (fold_left (fun acc k => fan type k acc) kids s2) =
       trace s2 ++ flat_map (fan_events type (S (depth s))) kids).
  { intros ->. destruct H2 as (_ & _ & ->). by rewrite <- app_assoc. }
  destruct H2 as (Ht & Hd & _). clearbody s2. revert s2 Ht Hd.
  induction IH as [|k kids Hk _ IHk]; intros s2 Ht Hd.
  - cbn. by rewrite app_nil_r.
  - cbn [fold_left flat_map forallb] in *.
    apply andb_true_iff in Hkids as [Hk1 Hkids].
    apply andb_true_iff in Hk1 as [_ Hsk].
    pose proof (fan_same_skeleton type k s2) as (_ & Ht2 & _ & _ & _ & Hd2).
    rewrite IHk; [| done | by eapply same_tree_trans | congruence].
    rewrite Hk; [| done | by rewrite (shape_ext s s2)].
    by rewrite Hd, <- app_assoc.
Qed.

Lemma fan_events_depth type d t e :
  e ∈ fan_events type d t -> exists d' w, e = Sent d' w (Msg type) /\ (d <= d')%nat /\ w ∈ nodes t.
Proof.
  revert d. induction t as [r kids IH] using tree_ind. intros d. cbn [fan_events nodes].
  intros [-> | He]%elem_of_cons.
  - exists d, r. split_and!; [done | lia | apply list_elem_of_here].
  - apply list_elem_of_In, in_flat_map in He as (k & Hk & He).
    rewrite List.Forall_forall in IH.
    destruct (IH k Hk (S d)) as (d' & w & -> & Hd & Hw); [by apply list_elem_of_In|].
    exists d', w. split_and!; [done | lia |].
    apply list_elem_of_further, list_elem_of_In, in_flat_map.
    exists k. split; [done | by apply list_elem_of_In].
Qed.

Lemma filter_none {A} (f : A -> bool) (l : list A) :
  (forall x, x ∈ l -> f x = false) -> List.filter f l = [].
Proof.
  induction l as [|x l IH]; [done|]. intros H. cbn.
  rewrite (H x) by apply list_elem_of_here.
  apply IH. intros y Hy. apply H. by apply list_elem_of_further.
Qed.

Lemma fan_events_below type d d' t :
  (d < d')%nat -> List.filter (at_depth d) (fan_events type d' t) = [].
Proof.
  intros Hd. apply filter_none. intros e He.
  apply fan_events_depth in He as (d'' & w & -> & Hle & _).
  cbn. apply Nat.eqb_neq. lia.
Qed.

Lemma shape_kid s w kids k :
  shape s (Node w kids) = true -> k ∈ kids ->
  parent_is s (root k) (Some w) = true /\ shape s k = true.
Proof.
  cbn [shape]. destruct (widgets s !! w); [|done].
  intros [_ H]%andb_true_iff Hk. rewrite forallb_forall in H.
  apply andb_true_iff, H, list_elem_of_In, Hk.
Qed.

Lemma nodes_kid (k : tree) (kids : list tree) x :
  k ∈ kids -> x ∈ nodes k -> x ∈ flat_map nodes kids.
Proof.
  intros Hk Hx. apply list_elem_of_In, in_flat_map. exists k.
  split; by apply list_elem_of_In.
Qed.

Lemma nodes_of_kids (kids : list tree) x :
  x ∈ flat_map nodes kids -> exists k, k ∈ kids /\ x ∈ nodes k.
Proof.
  intros (k & ? & ?)%list_elem_of_In%in_flat_map. exists k.
  split; by apply list_elem_of_In.
Qed.

Lemma root_in_nodes t : root t ∈ nodes t.
Proof. destruct t. apply list_elem_of_here. Qed.

Lemma shape_parent_in s t x :
  shape s t = true -> x ∈ nodes t ->
  x = root t \/
  exists W p, widgets s !! x = Some W /\ _parent W = Some p /\ p ∈ nodes t.
Proof.
  induction t as [r kids IH] using tree_ind. intros Hs Hx.
  cbn [nodes root] in *. apply elem_of_cons in Hx as [-> | Hx]; [by left|]. right.
  apply nodes_of_kids in Hx as (k & Hk & Hx).
  destruct (shape_kid s r kids k Hs Hk) as [Hpk Hsk].
  rewrite Forall_forall in IH.
  destruct (IH k Hk Hsk Hx) as [-> | (W & p & HW & Hp & Hin)].
  - unfold parent_is in Hpk. destruct (widgets s !! root k) as [W|]; [|done].
    apply bool_decide_eq_true in Hpk. exists W, r.
    split_and!; [done | done | apply list_elem_of_here].
  - exists W, p. split_and!; [done | done |].
    apply list_elem_of_further. by eapply nodes_kid.
Qed.

Lemma flag_of_set_depth f s w fl : flag_of (set_depth f s) w fl = flag_of s w fl.
Proof. reflexivity. Qed.

Lemma handled_stable type s s' W :
  (forall p, _parent W = Some p -> flag_of s' p IsVisible = flag_of s p IsVisible) ->
  handled type s' W = handled type s W.
Proof.
  intros H. unfold handled. destruct (_parent W) as [p|]; [|done].
  by rewrite (H p eq_refl).
Qed.

Lemma flag_of_lookup s s' w fl :
  widgets s' !! w = widgets s !! w -> flag_of s' w fl = flag_of s w fl.
Proof. unfold flag_of. by intros ->. Qed.

(** After a message of the attach or detach family went through a tree
    without repeated nodes, every node has been handled exactly as its
    handler decides in the final store. *)
Lemma fan_handled type t : forall s,
  skips_hidden type = false -> shape s t = true -> NoDup (nodes t) ->
  (forall W p, widgets s !! root t = Some W -> _parent W = Some p -> p ∉ nodes t) ->
  forall x, x ∈ nodes t ->
    widgets (fan type t s) !! x = handled type (fan type t s) <$> widgets s !! x.
Proof.
  induction t as [r kids IH] using tree_ind. intros s Hty Hshape Hnd Hrp.
  cbn [fan root nodes] in *.
  pose proof Hshape as Hshape0. cbn [shape] in Hshape.
  destruct (widgets s !! r) as [W|] eqn:Hr; [|done]. clear Hshape.
  apply NoDup_cons in Hnd as [Hr_out Hnd].
  set (s1 := set_depth S _). set (s2 := set_widgets _ s1).
  rewrite Hty. cbn [andb].
  (* the invariant of the walk through the children *)
  set (Inv := fun (rest : list tree) (acc : State) =>
    same_tree s acc /\
    (forall x, x ∈ flat_map nodes rest -> widgets acc !! x = widgets s !! x) /\
    (forall x, x ∈ r :: flat_map nodes kids -> x ∉ flat_map nodes rest ->
       widgets acc !! x = handled type acc <$> widgets s !! x /\
       forall Wx p, widgets s !! x = Some Wx -> _parent Wx = Some p ->
                    p ∉ flat_map nodes rest)).
  assert (Hfold : forall rest acc,
    (forall k, k ∈ rest -> k ∈ kids) -> NoDup (flat_map nodes rest) ->
    Inv rest acc ->
    Inv [] (fold_left (fun acc k => fan type k acc) rest acc)).
  { induction rest as [|k rest IHrest]; intros acc Hsub Hndr HInv; [exact HInv|].
    cbn [fold_left]. apply IHrest.
    - intros k' Hk'. apply Hsub. by apply list_elem_of_further.
    - cbn [flat_map] in Hndr. by apply NoDup_app in Hndr as (_ & _ & ?).
    - destruct HInv as (Ht & Hrest & Hdone).
      cbn [flat_map] in Hndr. apply NoDup_app in Hndr as (Hndk & Hdisj & Hndrest).
      assert (Hk : k ∈ kids) by (apply Hsub, list_elem_of_here).
      destruct (shape_kid s r kids k Hshape0 Hk) as [Hpk Hsk].
      pose proof (fan_same_skeleton type k acc) as (_ & Htk & _).
      assert (Hrk : r ∉ nodes k).
      { intros Hin. apply Hr_out. by eapply nodes_kid. }
      rewrite Forall_forall in IH.
      assert (HIHk : forall x, x ∈ nodes k ->
                widgets (fan type k acc) !! x =
                handled type (fan type k acc) <$> widgets acc !! x).
      { apply IH; [done | done | by rewrite (shape_ext s acc) | done |].
        intros Wk p HWk Hp. rewrite Hrest in HWk
          by (cbn [flat_map]; apply elem_of_app; left; apply root_in_nodes).
        unfold parent_is in Hpk. rewrite HWk in Hpk.
        apply bool_decide_eq_true in Hpk. congruence. }
      split_and!.
      + by eapply same_tree_trans.
      + intros x Hx. rewrite fan_outside by (intros Hin; by apply (Hdisj x)).
        apply Hrest. cbn [flat_map]. apply elem_of_app. by right.
      + intros x Hx Hnx. destruct (decide (x ∈ nodes k)) as [Hxk | Hxk].
        * split.
          -- rewrite (HIHk x Hxk). f_equal. apply Hrest.
             cbn [flat_map]. apply elem_of_app. by left.
          -- intros Wx p HWx Hp Hin.
             destruct (shape_parent_in s k x Hsk Hxk) as [-> | (W' & p' & HW' & Hp' & Hin')].
             ++ unfold parent_is in Hpk. rewrite HWx in Hpk.
                apply bool_decide_eq_true in Hpk.
                assert (p = r) by congruence. subst p.
                apply Hr_out. apply nodes_of_kids in Hin as (k' & Hk' & Hin).
                eapply nodes_kid; [|exact Hin]. apply Hsub. by apply list_elem_of_further.
             ++ assert (p = p') by congruence. subst p'. by apply (Hdisj p).
        * assert (Hx' : x ∉ flat_map nodes (k :: rest)).
          { cbn [flat_map]. rewrite elem_of_app. tauto. }
          destruct (Hdone x Hx Hx') as [Hval Hpar]. split.
          -- rewrite fan_outside by done. rewrite Hval.
             destruct (widgets s !! x) as [Wx|] eqn:HWx; [|done]. cbn. f_equal.
             symmetry. apply handled_stable. intros p Hp.
             apply flag_of_lookup, fan_outside. intros Hin.
             apply (Hpar Wx p eq_refl Hp). cbn [flat_map]. apply elem_of_app. by left.
          -- intros Wx p HWx Hp Hin. apply (Hpar Wx p HWx Hp).
             cbn [flat_map]. apply elem_of_app. by right. }
  assert (H2 : Inv kids s2).
  { split_and!.
    - eapply same_tree_trans; [|apply (same_tree_update _ r W); [done | apply links_handled]].
      done.
    - intros x Hx. unfold s2. store_simpl. rewrite lookup_insert_ne; [done|].
      intros ->. done.
    - intros x Hx Hnx. apply elem_of_cons in Hx as [-> | Hx]; [|done]. split.
      + unfold s2. store_simpl. rewrite lookup_insert_eq, Hr. cbn. f_equal.
        symmetry. apply handled_stable. intros p Hp.
        unfold flag_of. store_simpl.
        rewrite lookup_insert_ne; [done|]. intros <-.
        apply (Hrp W r eq_refl Hp), list_elem_of_here.
      + intros Wx p HWx Hp Hin. assert (Wx = W) by congruence. subst Wx.
        apply (Hrp W p eq_refl Hp). by apply list_elem_of_further. }
  apply Hfold in H2; [| done | done].
  destruct H2 as (_ & _ & Hfinal).
  intros x Hx.
  assert (Hnil : x ∉ flat_map nodes []) by apply not_elem_of_nil.
  destruct (Hfinal x Hx Hnil) as [Hval _].
  store_simpl. rewrite Hval.
  by destruct (widgets s !! x).
Qed.

(** ** Attaching *)

Lemma same_skeleton_node s s' w W :
  same_skeleton s s' -> widgets s !! w = Some W ->
  exists W', widgets s' !! w = Some W' /\ skeleton W' = skeleton W.
Proof.
  intros [Hs _] Hw. apply (f_equal (fun m => m !! w)) in Hs.
  rewrite !lookup_fmap, Hw in Hs.
  destruct (widgets s' !! w) as [W'|]; cbv [fmap option_fmap option_map] in Hs; [|done].
  exists W'. split; [done | congruence].
Qed.

Lemma appendChild_run parent child W nd s :
  widgets s !! child = Some W -> _node W = Some nd ->
  appendChild parent child s =
    Ret tt (set_trace (fun t => t ++ [Appended parent child])
             (set_widgets
                (insert child (with_node (Some (with_parentNode (Some parent) nd)) W)) s)).
Proof.
  intros Hw Hn. unfold appendChild, updNode, theNode.
  unfold mbind, M_bind. rewrite (getWidget_run _ _ _ Hw), Hn. cbn [nonnull mret M_ret].
  by rewrite (updWidget_run _ _ _ _ Hw).
Qed.

(** C5: [attach] refuses a widget that has a parent and leaves the store
    alone.  For a root that has its node, with its tree held by the
    store, it is three steps, each on the store the one before left.  Delivering before-attach goes through the whole tree, hidden
    widgets included, and clears the cached box of every node, writing
    nothing else.  Then the node is put into the host.  Delivering
    after-attach goes through the whole tree again and, to every node,
    sets the Attached flag and sets the Visible flag exactly when the
    node is not hidden and has no parent or a parent that is visible by
    then; it leaves the cached boxes and the Hidden flags alone.
    Afterwards no node of the tree has a cached box, every one is
    attached, and every one is visible iff it was visible already or it
    is not hidden and has no parent or a parent that is now visible. *)
Theorem attach_only_roots_then_flags fuel this host s W :
  widgets s !! this = Some W ->
  (forall p, _parent W = Some p ->
     attach fuel this host s =
       Throw (Err "cannot attach a non-root widget to the DOM") s) /\
  (forall t nd,
     _parent W = None -> _node W = Some nd -> root t = this ->
     shape s t = true -> NoDup (nodes t) -> (need t <= fuel)%nat ->
     exists sA sB s',
       (* the delivery of before-attach *)
       sendMessage fuel this (Msg "before-attach") s = Ret tt sA /\
       trace sA = trace s ++ fan_events "before-attach" (depth s) t /\
       (forall x, x ∈ nodes t ->
          widgets sA !! x = with_boxSizing None <$> widgets s !! x) /\
       (forall x, x ∉ nodes t -> widgets sA !! x = widgets s !! x) /\
       (* the node goes into the host *)
       appendChild (HostNode host) this sA = Ret tt sB /\
       (* the delivery of after-attach *)
       sendMessage fuel this (Msg "after-attach") sB = Ret tt s' /\
       trace s' = trace sB ++ fan_events "after-attach" (depth s) t /\
       (forall x WB, x ∈ nodes t -> widgets sB !! x = Some WB ->
          exists Wx',
            widgets s' !! x = Some Wx' /\
            _boxSizing Wx' = _boxSizing WB /\ _node Wx' = _node WB /\
            test_flag (_flags Wx') IsAttached = true /\
            test_flag (_flags Wx') IsHidden = test_flag (_flags WB) IsHidden /\
            test_flag (_flags Wx') IsVisible =
              test_flag (_flags WB) IsVisible ||
              (negb (test_flag (_flags WB) IsHidden) &&
               match _parent WB with
               | None => true
               | Some p => flag_of s' p IsVisible
               end)) /\
       (forall x, x ∉ nodes t -> widgets s' !! x = widgets sB !! x) /\
       (* the call as a whole *)
       attach fuel this host s = Ret tt s' /\
       trace s' = trace s ++ fan_events "before-attach" (depth s) t ++
                  [Appended (HostNode host) this] ++
                  fan_events "after-attach" (depth s) t /\
       (forall x Wx, x ∈ nodes t -> widgets s !! x = Some Wx ->
          exists Wx',
            widgets s' !! x = Some Wx' /\
            _boxSizing Wx' = None /\
            test_flag (_flags Wx') IsAttached = true /\
            test_flag (_flags Wx') IsHidden = test_flag (_flags Wx) IsHidden /\
            test_flag (_flags Wx') IsVisible =
              test_flag (_flags Wx) IsVisible ||
              (negb (test_flag (_flags Wx) IsHidden) &&
               match _parent Wx with
               | None => true
               | Some p => flag_of s' p IsVisible
               end)) /\
       (exists W' nd', widgets s' !! this = Some W' /\ _node W' = Some nd' /\
                       parentNode nd' = Some (HostNode host)) /\
       flag_of s' this IsAttached = true /\
       flag_of s' this IsVisible =
         flag_of s this IsVisible || negb (flag_of s this IsHidden)).
Proof.
  intros Hw. split.
  - intros p Hp. unfold attach.
    rewrite (bind_run _ _ _ _ _ (getWidget_run _ _ _ Hw)). by rewrite Hp.
  - intros t nd Hp Hn Hroot Hshape Hnd Hfuel.
    set (sA := fan "before-attach" t s).
    pose proof (fan_same_skeleton "before-attach" t s) as HsA. fold sA in HsA.
    destruct (same_skeleton_node s sA this W HsA Hw) as (WA & HWA & HskA).
    destruct (skeleton_fields _ _ HskA) as (HnA & _ & HpA & HcA).
    set (WB := with_node (Some (with_parentNode (Some (HostNode host)) nd)) WA).
    set (sB := set_trace (fun t => t ++ [Appended (HostNode host) this])
                 (set_widgets (insert this WB) sA)).
    set (sC := fan "after-attach" t sB).
    assert (HtB : same_tree s sB).
    { eapply same_tree_trans; [apply same_skeleton_tree, HsA|].
      apply (same_tree_update sA this WA WB); [done | reflexivity]. }
    assert (Hknown : forall s0, same_tree s s0 -> parent_known s0 (root t) = true).
    { intros s0 H0. rewrite (parent_known_ext s s0) by done.
      unfold parent_known. by rewrite Hroot, Hw, Hp. }
    assert (HrunA : sendMessage fuel this (Msg "before-attach") s = Ret tt sA).
    { rewrite <- Hroot.
      apply sendMessage_fan; [done | done | done | by apply Hknown, same_tree_refl]. }
    assert (HrunB : appendChild (HostNode host) this sA = Ret tt sB).
    { apply (appendChild_run _ _ WA nd); congruence. }
    assert (HrunC : sendMessage fuel this (Msg "after-attach") sB = Ret tt sC).
    { rewrite <- Hroot.
      apply sendMessage_fan; [done | done | by rewrite (shape_ext s sB) | by apply Hknown]. }
    assert (Hrun : attach fuel this host s = Ret tt sC).
    { unfold attach. rewrite (bind_run _ _ _ _ _ (getWidget_run _ _ _ Hw)), Hp.
      rewrite (bind_run _ _ _ _ _ HrunA). rewrite (bind_run _ _ _ _ _ HrunB).
      exact HrunC. }
    assert (HrootP : forall s0 W0 p, widgets s0 !! root t = Some W0 ->
              _parent W0 = None -> _parent W0 = Some p -> p ∉ nodes t) by (intros; congruence).
    assert (HA : forall x, x ∈ nodes t ->
              widgets sA !! x = with_boxSizing None <$> widgets s !! x).
    { intros x Hx. unfold sA. rewrite fan_handled; try done.
      rewrite Hroot. intros W0 p HW0. assert (W0 = W) by congruence. subst. congruence. }
    assert (HB : widgets sB !! this = Some WB) by (unfold sB; store_simpl; apply lookup_insert_eq).
    assert (HC : forall x, x ∈ nodes t ->
              widgets sC !! x = handled "after-attach" sC <$> widgets sB !! x).
    { intros x Hx. unfold sC. rewrite fan_handled; try done.
      - by rewrite (shape_ext s sB).
      - rewrite Hroot, HB. intros W0 p [= <-]. cbn. congruence. }
    assert (HdB : depth sB = depth s).
    { destruct HsA as (_ & _ & _ & _ & _ & Hd). unfold sB. store_simpl. by rewrite Hd. }
    assert (Hafter : forall x WB0, x ∈ nodes t -> widgets sB !! x = Some WB0 ->
      exists Wx',
        widgets sC !! x = Some Wx' /\
        _boxSizing Wx' = _boxSizing WB0 /\ _node Wx' = _node WB0 /\
        test_flag (_flags Wx') IsAttached = true /\
        test_flag (_flags Wx') IsHidden = test_flag (_flags WB0) IsHidden /\
        test_flag (_flags Wx') IsVisible =
          test_flag (_flags WB0) IsVisible ||
          (negb (test_flag (_flags WB0) IsHidden) &&
           match _parent WB0 with
           | None => true
           | Some p => flag_of sC p IsVisible
           end)).
    { intros x WB0 Hx HWB0. rewrite (HC x Hx), HWB0. eexists. split; [reflexivity|].
      cbn. destruct (negb (test_flag (_flags WB0) IsHidden) && _); cbn;
        rewrite !test_set_flag; cbn; split_and!; try done;
        by rewrite ?orb_false_r, ?orb_true_r. }
    assert (Hnodes : forall x Wx, x ∈ nodes t -> widgets s !! x = Some Wx ->
      exists Wx',
        widgets sC !! x = Some Wx' /\ _node Wx' = (if decide (x = this) then _node WB else _node Wx) /\
        _boxSizing Wx' = None /\
        test_flag (_flags Wx') IsAttached = true /\
        test_flag (_flags Wx') IsHidden = test_flag (_flags Wx) IsHidden /\
        test_flag (_flags Wx') IsVisible =
          test_flag (_flags Wx) IsVisible ||
          (negb (test_flag (_flags Wx) IsHidden) &&
           match _parent Wx with
           | None => true
           | Some p => flag_of sC p IsVisible
           end)).
    { intros x Wx Hx HWx. rewrite (HC x Hx).
      assert (HxA : widgets sA !! x = Some (with_boxSizing None Wx))
        by (by rewrite (HA x Hx), HWx).
      destruct (decide (x = this)) as [-> | Hne].
      - assert (Wx = W) by congruence. subst Wx.
        assert (WA = with_boxSizing None W) by congruence. subst WA.
        rewrite HB. eexists. split; [reflexivity|]. cbn.
        rewrite Hp. rewrite !test_set_flag. cbn.
        destruct (negb (test_flag (_flags W) IsHidden)); cbn;
          rewrite ?test_set_flag; cbn; split_and!; try done;
          by rewrite ?orb_false_r, ?orb_true_r.
      - assert (HxB : widgets sB !! x = Some (with_boxSizing None Wx)).
        { unfold sB. store_simpl. by rewrite lookup_insert_ne. }
        rewrite HxB. eexists. split; [reflexivity|]. cbn.
        rewrite !test_set_flag. cbn.
        destruct (negb (test_flag (_flags Wx) IsHidden) && _); cbn;
          rewrite ?test_set_flag; cbn; split_and!; try done;
          by rewrite ?orb_false_r, ?orb_true_r. }
    exists sA, sB, sC.
    split; [exact HrunA|].
    split; [unfold sA; by rewrite fan_trace|].
    split; [exact HA|].
    split; [intros x Hx; unfold sA; by rewrite fan_outside|].
    split; [exact HrunB|].
    split; [exact HrunC|].
    split.
    { unfold sC. rewrite fan_trace; [| done | by rewrite (shape_ext s sB)].
      by rewrite HdB. }
    split; [exact Hafter|].
    split; [intros x Hx; unfold sC; by rewrite fan_outside|].
    split; [exact Hrun|]. split_and!.
    + unfold sC. rewrite fan_trace; [| done | by rewrite (shape_ext s sB)].
      unfold sB at 1. store_simpl. unfold sA at 1.
      rewrite fan_trace by done. rewrite <- !app_assoc. do 3 f_equal.
      destruct HsA as (_ & _ & _ & _ & _ & Hd). unfold sB. store_simpl. by rewrite Hd.
    + intros x Wx Hx HWx. destruct (Hnodes x Wx Hx HWx) as (Wx' & ? & ? & ? & ? & ? & ?).
      exists Wx'. by split_and!.
    + destruct (Hnodes this W) as (W' & HW' & HnW' & _); [rewrite <- Hroot; apply root_in_nodes | done |].
      rewrite decide_True in HnW' by done.
      exists W', (with_parentNode (Some (HostNode host)) nd). by split_and!.
    + destruct (Hnodes this W) as (W' & HW' & _ & _ & Hatt & _); [rewrite <- Hroot; apply root_in_nodes | done |].
      unfold flag_of. by rewrite HW'.
    + destruct (Hnodes this W) as (W' & HW' & _ & _ & _ & _ & Hvis); [rewrite <- Hroot; apply root_in_nodes | done |].
      unfold flag_of. rewrite HW', Hw, Hvis, Hp. by rewrite andb_true_r.
Qed.

Lemma attach_only_roots_then_flags_witness :
  exists sA sB s',
    sendMessage 5 0%nat (Msg "before-attach") hidden_family = Ret tt sA /\
    flag_of sA 0%nat IsAttached = false /\ flag_of sA 1%nat IsAttached = false /\
    appendChild (HostNode 7%nat) 0%nat sA = Ret tt sB /\
    sendMessage 5 0%nat (Msg "after-attach") sB = Ret tt s' /\
    attach 5 0%nat 7%nat hidden_family = Ret tt s' /\
    flag_of s' 0%nat IsAttached = true /\ flag_of s' 0%nat IsVisible = false /\
    flag_of s' 1%nat IsAttached = true.
Proof.
  edestruct (attach_only_roots_then_flags 5 0%nat 7%nat hidden_family) as [_ H].
  - vm_compute. reflexivity.
  - edestruct (H family_tree)
      as (sA & sB & s' & HrunA & _ & HA & _ & HrunB & HrunC & _ & _ & _ & Hrun & _ &
          Hnodes & _ & Hatt & Hvis).
    + reflexivity.
    + reflexivity.
    + reflexivity.
    + vm_compute. reflexivity.
    + apply (bool_decide_unpack _). vm_compute. reflexivity.
    + vm_compute. lia.
    + assert (H0 : 0%nat ∈ nodes family_tree) by (apply list_elem_of_In; simpl; tauto).
      assert (H1 : 1%nat ∈ nodes family_tree) by (apply list_elem_of_In; simpl; tauto).
      exists sA, sB, s'.
      split; [exact HrunA|].
      split; [unfold flag_of; rewrite (HA 0%nat H0); vm_compute; reflexivity|].
      split; [unfold flag_of; rewrite (HA 1%nat H1); vm_compute; reflexivity|].
      split; [exact HrunB|]. split; [exact HrunC|]. split; [exact Hrun|].
      split; [exact Hatt|]. split; [rewrite Hvis; vm_compute; reflexivity|].
      edestruct (Hnodes 1%nat) as (W1 & HW1 & _ & Hatt1 & _).
      * exact H1.
      * vm_compute. reflexivity.
      * unfold flag_of. rewrite HW1. exact Hatt1.
Defined.

(** ** Geometry updates *)

Lemma is_chain_ext s s' w ps :
  links <$> widgets s' = links <$> widgets s -> is_chain s' w ps = is_chain s w ps.
Proof.
  intros Hs. revert w. induction ps as [|p ps IH]; intros w; cbn [is_chain].
  all: pose proof (same_tree_lookup s (set_arrays (fun _ => arrays s) s') w) as H.
  all: store_simpl; specialize (H (conj Hs eq_refl)).
  all: destruct (widgets s !! w), (widgets s' !! w); try done.
  all: apply links_fields in H as [-> _]; by rewrite ?IH.
Qed.

Lemma postMessage_run h m s : postMessage h m s = Ret tt (exec (postMessage h m) s).
Proof. unfold exec, postMessage. by destruct (compressMessage _ _). Qed.

Lemma postMessage_widgets h m s : widgets (exec (postMessage h m) s) = widgets s.
Proof. unfold exec, postMessage. by destruct (compressMessage _ _). Qed.

Lemma updateGeometry_run ps : forall fuel w force s,
  is_chain s w ps = true -> (length ps < fuel)%nat ->
  updateGeometry fuel w force s =
    Ret tt (match ps with
            | [] => s
            | _ :: _ => if flag_of s w IsHidden && negb force then s else bubble ps s
            end).
Proof.
  induction ps as [|p rest IH]; intros fuel w force s Hchain Hfuel.
  - destruct fuel as [|n]; [simpl in Hfuel; lia|]. cbn [updateGeometry is_chain] in *.
    destruct (widgets s !! w) as [W|] eqn:Hw; [|done].
    apply bool_decide_eq_true in Hchain.
    rewrite (bind_run _ _ _ _ _ (getWidget_run _ _ _ Hw)). by rewrite Hchain.
  - destruct fuel as [|n]; [simpl in Hfuel; lia|]. cbn [updateGeometry is_chain] in *.
    destruct (widgets s !! w) as [W|] eqn:Hw; [|done].
    apply andb_true_iff in Hchain as [Hp Hchain]. apply bool_decide_eq_true in Hp.
    rewrite (bind_run _ _ _ _ _ (getWidget_run _ _ _ Hw)), Hp.
    unfold isHidden. rewrite (bind_run _ _ _ _ _ (testFlag_run _ _ IsHidden _ Hw)).
    unfold flag_of at 1. rewrite Hw.
    destruct (test_flag (_flags W) IsHidden && negb force); [done|].
    assert (HP : exists P, widgets s !! p = Some P).
    { destruct rest; cbn [is_chain] in Hchain; destruct (widgets s !! p); eauto; done. }
    destruct HP as [P HP].
    rewrite (bind_run _ _ _ _ _ (getWidget_run _ _ _ HP)).
    cbn [bubble]. unfold layout_of. rewrite HP. cbn.
    destruct (_layout P) as [l|]; [done|].
    rewrite (bind_run _ _ _ _ _ (postMessage_run _ _ _)).
    set (s1 := exec _ s).
    rewrite (IH n p false s1).
    + cbn [negb]. rewrite andb_true_r. destruct rest; [by destruct (flag_of _ _ _)|].
      by destruct (flag_of s1 p IsHidden).
    + rewrite (is_chain_ext s s1); [done|]. unfold s1. by rewrite postMessage_widgets.
    + simpl in Hfuel. lia.
Qed.

Lemma setFlag_run w f W s :
  widgets s !! w = Some W ->
  setFlag w f s = Ret tt (set_widgets (insert w (with_flags (set_flag (_flags W) f) W)) s).
Proof. intros H. unfold setFlag. by rewrite (updWidget_run _ _ _ _ H). Qed.

Lemma updNode_run w f W nd s :
  widgets s !! w = Some W -> _node W = Some nd ->
  updNode w f s = Ret tt (set_widgets (insert w (with_node (Some (f nd)) W)) s).
Proof.
  intros Hw Hn. unfold updNode, theNode. unfold mbind, M_bind.
  rewrite (getWidget_run _ _ _ Hw), Hn. cbn [nonnull mret M_ret].
  by rewrite (updWidget_run _ _ _ _ Hw).
Qed.

Lemma sendMessage_informational_run fuel h m s :
  informational m = true ->
  sendMessage (S fuel) h m s = Ret tt (set_trace (fun t => t ++ [Sent (depth s) h m]) s).
Proof.
  intros Hm.
  pose proof (sendMessage_informational fuel h m
                (fun _ s' => s' = set_trace (fun t => t ++ [Sent (depth s) h m]) s)
                s Hm eq_refl) as H.
  apply wp_returns in H as ([] & s' & -> & ->). reflexivity.
Qed.

(** The setter past its two checks: the old layout lets go, the new one
    takes hold, the message goes out. *)
Lemma set_layout_with_run disp send this W layout s :
  widgets s !! this = Some W -> _layout W <> layout ->
  test_flag (_flags W) DisallowLayoutChange = false ->
  (forall l, layout = Some l -> l_parent (layouts s !!! l) = None) ->
  set_layout_with disp send this layout s =
    (match _layout W with
     | Some old =>
         updWidget this (with_layout None) ;;
         removeMessageFilter this old ;;
         disp old
     | None => mret tt
     end ;;
     match layout with
     | Some l =>
         updWidget this (with_layout (Some l)) ;;
         installMessageFilter this l ;;
         layout_set_parent l this
     | None => mret tt
     end ;;
     send this (Msg "layout-changed")) s.
Proof.
  intros Hw Hne Hd Hfree. unfold set_layout_with.
  rewrite (bind_run _ _ _ _ _ (getWidget_run _ _ _ Hw)). cbv zeta.
  rewrite decide_False by done.
  rewrite (bind_run _ _ _ _ _ (testFlag_run _ _ DisallowLayoutChange _ Hw)), Hd.
  destruct layout as [l|]; [|reflexivity].
  unfold mbind at 1, M_bind at 1, mbind at 1, M_bind at 1, getLayout.
  rewrite (Hfree l eq_refl). rewrite bool_decide_eq_false_2 by (by intros [? ?]).
  reflexivity.
Qed.

(** C7: a layout different from the installed one is refused, the store left
    as it was, when [DisallowLayoutChange] is set or when its parent slot
    is taken.  Otherwise the steps come in this order, each on the store
    the one before left.  First the widget gives up the old layout and
    the old layout leaves the filters; on that store, where it is not
    disposed yet, the old layout's [dispose] runs, whatever it does.  Then
    the new layout is installed: it joins the filters with this widget
    as its parent.  Last, layout-changed is delivered, whatever the
    delivery does, on the store in which the old layout is disposed and
    off the filters and the new one installed.  The call returns that
    store with the delivery recorded. *)
Theorem set_layout_checks_then_installs fuel this W layout s :
  widgets s !! this = Some W -> _layout W <> layout ->
  (test_flag (_flags W) DisallowLayoutChange = true ->
     set_layout fuel this layout s = Throw (Err "cannot change widget layout") s) /\
  (forall l p, layout = Some l -> l_parent (layouts s !!! l) = Some p ->
     set_layout fuel this layout s =
       Throw (Err (if test_flag (_flags W) DisallowLayoutChange
                   then "cannot change widget layout"
                   else "layout already installed on a widget")) s) /\
  (test_flag (_flags W) DisallowLayoutChange = false ->
   (forall l, layout = Some l -> l_parent (layouts s !!! l) = None) ->
   (* removal, then disposal, then installation, then delivery *)
   (forall old, _layout W = Some old ->
      exists s1,
        widgets s1 = <[this := with_layout None W]> (widgets s) /\
        (old ∉ filters s1 !!! this) /\
        layouts s1 = layouts s /\ trace s1 = trace s /\
        forall disp send,
          set_layout_with disp send this layout s =
            (disp old ;;
             match layout with
             | Some l =>
                 updWidget this (with_layout (Some l)) ;;
                 installMessageFilter this l ;;
                 layout_set_parent l this
             | None => mret tt
             end ;;
             send this (Msg "layout-changed")) s1) /\
   exists s_mid s',
     (* the store at the delivery *)
     (forall send,
        set_layout_with layout_dispose send this layout s =
          send this (Msg "layout-changed") s_mid) /\
     widgets s_mid = <[this := with_layout layout W]> (widgets s) /\
     (forall old, _layout W = Some old ->
        layouts s_mid !!! old = mkLayout None true /\ old ∉ filters s_mid !!! this) /\
     (forall l, layout = Some l ->
        layouts s_mid !!! l = mkLayout (Some this) (l_disposed (layouts s !!! l)) /\
        l ∈ filters s_mid !!! this) /\
     trace s_mid = trace s /\
     sendMessage (S fuel) this (Msg "layout-changed") s_mid = Ret tt s' /\
     (* the call as a whole *)
     set_layout (S fuel) this layout s = Ret tt s' /\
     widgets s' = <[this := with_layout layout W]> (widgets s) /\
     (forall old, _layout W = Some old ->
        layouts s' !!! old = mkLayout None true /\ old ∉ filters s' !!! this) /\
     (forall l, layout = Some l ->
        layouts s' !!! l = mkLayout (Some this) (l_disposed (layouts s !!! l)) /\
        l ∈ filters s' !!! this) /\
     trace s' = trace s ++ [Sent (depth s) this (Msg "layout-changed")]).
Proof.
  intros Hw Hne.
  split_and!.
  - intros Hd. unfold set_layout, set_layout_with.
    rewrite (bind_run _ _ _ _ _ (getWidget_run _ _ _ Hw)). cbv zeta.
    rewrite decide_False by done.
    rewrite (bind_run _ _ _ _ _ (testFlag_run _ _ DisallowLayoutChange _ Hw)).
    rewrite Hd. reflexivity.
  - intros l p -> Hp. unfold set_layout, set_layout_with.
    rewrite (bind_run _ _ _ _ _ (getWidget_run _ _ _ Hw)). cbv zeta.
    rewrite decide_False by done.
    rewrite (bind_run _ _ _ _ _ (testFlag_run _ _ DisallowLayoutChange _ Hw)).
    destruct (test_flag _ _); [reflexivity|].
    unfold mbind at 1, M_bind at 1, mbind at 1, M_bind at 1, getLayout.
    rewrite Hp. rewrite bool_decide_eq_true_2 by eauto. reflexivity.
  - intros Hd Hfree. split.
    + intros old Hold.
      exists (exec (updWidget this (with_layout None) ;; removeMessageFilter this old) s).
      unfold exec, mbind, M_bind, updWidget. rewrite Hw.
      cbn [removeMessageFilter modify]. store_simpl. split_and!.
      * reflexivity.
      * rewrite lookup_total_insert_eq. apply not_elem_of_filter_out.
      * reflexivity.
      * reflexivity.
      * intros disp send.
        rewrite (set_layout_with_run disp send this W layout s Hw Hne Hd Hfree), Hold.
        unfold mbind, M_bind, updWidget. rewrite Hw.
        reflexivity.
    + set (s_mid := exec
        (match _layout W with
         | Some old =>
             updWidget this (with_layout None) ;;
             removeMessageFilter this old ;;
             layout_dispose old
         | None => mret tt
         end ;;
         match layout with
         | Some l =>
             updWidget this (with_layout (Some l)) ;;
             installMessageFilter this l ;;
             layout_set_parent l this
         | None => mret tt
         end) s).
      exists s_mid,
        (set_trace (fun t => t ++ [Sent (depth s_mid) this (Msg "layout-changed")]) s_mid).
      assert (Hmid :
        (match _layout W with
         | Some old =>
             updWidget this (with_layout None) ;;
             removeMessageFilter this old ;;
             layout_dispose old
         | None => mret tt
         end ;;
         match layout with
         | Some l =>
             updWidget this (with_layout (Some l)) ;;
             installMessageFilter this l ;;
             layout_set_parent l this
         | None => mret tt
         end) s = Ret tt s_mid /\
        widgets s_mid = <[this := with_layout layout W]> (widgets s) /\
        (forall old, _layout W = Some old ->
           layouts s_mid !!! old = mkLayout None true /\ old ∉ filters s_mid !!! this) /\
        (forall l, layout = Some l ->
           layouts s_mid !!! l = mkLayout (Some this) (l_disposed (layouts s !!! l)) /\
           l ∈ filters s_mid !!! this) /\
        trace s_mid = trace s /\ depth s_mid = depth s).
      { unfold s_mid, exec.
        destruct layout as [l|], (_layout W) as [old|] eqn:Eold;
          [ | | | exfalso; by apply Hne ].
        all: cbv [mbind M_bind mret M_ret updWidget removeMessageFilter
                  installMessageFilter layout_dispose layout_set_parent updLayout modify].
        all: rewrite Hw; cbv beta iota; store_simpl.
        all: rewrite ?lookup_insert_eq; cbv beta iota; store_simpl.
        all: split_and!; [ reflexivity | | intros o [= <-] | intros l0 [= <-]
                           | reflexivity | reflexivity ].
        - rewrite insert_insert_eq. f_equal.
        - rewrite lookup_total_insert_ne by congruence.
          rewrite !lookup_total_insert_eq. split; [reflexivity|].
          apply not_elem_of_cons. split; [congruence | apply not_elem_of_filter_out].
        - rewrite !lookup_total_insert_eq.
          rewrite lookup_total_insert_ne by congruence.
          split; [reflexivity | apply list_elem_of_here].
        - reflexivity.
        - rewrite !lookup_total_insert_eq. split; [reflexivity | apply list_elem_of_here].
        - reflexivity.
        - rewrite !lookup_total_insert_eq. split; [reflexivity | apply not_elem_of_filter_out]. }
      destruct Hmid as (Hrun & Hwid & Hold & Hnew & Htr & Hdp).
      assert (Hsend : forall send,
        set_layout_with layout_dispose send this layout s =
          send this (Msg "layout-changed") s_mid).
      { intros send.
        rewrite (set_layout_with_run _ send this W layout s Hw Hne Hd Hfree).
        assert (Hassoc : forall (A B k : M unit) s0 s2,
                  (A ;; B) s0 = Ret tt s2 -> (A ;; B ;; k) s0 = k s2).
        { intros A B k s0 s2. unfold mbind, M_bind.
          destruct (A s0) as [[] s3| |]; [|done..].
          destruct (B s3) as [[] s4| |]; [|done..]. by intros [= ->]. }
        by apply Hassoc. }
      split_and!.
      * exact Hsend.
      * exact Hwid.
      * exact Hold.
      * exact Hnew.
      * exact Htr.
      * by apply sendMessage_informational_run.
      * unfold set_layout. rewrite Hsend. by apply sendMessage_informational_run.
      * exact Hwid.
      * exact Hold.
      * exact Hnew.
      * store_simpl. by rewrite Htr, Hdp.
Qed.

Lemma set_layout_checks_then_installs_witness :
  set_layout 1 0%nat (Some 7%nat) locked_widget =
    Throw (Err "cannot change widget layout") locked_widget /\
  exists s_mid s',
    (forall send,
       set_layout_with layout_dispose send 0%nat (Some 7%nat) one_widget =
         send 0%nat (Msg "layout-changed") s_mid) /\
    layout_of s_mid 0%nat = Some 7%nat /\ trace s_mid = [] /\
    set_layout 1 0%nat (Some 7%nat) one_widget = Ret tt s' /\
    trace s' = [Sent 0 0%nat (Msg "layout-changed")].
Proof.
  split.
  - apply (set_layout_checks_then_installs 1 0%nat
             (with_flags (set_flag 0 DisallowLayoutChange) (plain_widget 0%nat))
             (Some 7%nat) locked_widget).
    + vm_compute. reflexivity.
    + discriminate.
    + vm_compute. reflexivity.
  - destruct (set_layout_checks_then_installs 0 0%nat (plain_widget 0%nat)
                (Some 7%nat) one_widget) as (_ & _ & Hok).
    + vm_compute. reflexivity.
    + discriminate.
    + destruct Hok as (_ & s_mid & s' & Hsend & Hwid & _ & _ & Htrm & _ & Hrun & _ & _ & _ & Htr).
      * vm_compute. reflexivity.
      * intros l _. vm_compute. reflexivity.
      * exists s_mid, s'.
        split; [exact Hsend|].
        split; [unfold layout_of; rewrite Hwid, lookup_insert_eq; reflexivity|].
        split; [exact Htrm|]. split; [exact Hrun | exact Htr].
Defined.


Lemma layout_of_ext s s' :
  skeleton <$> widgets s' = skeleton <$> widgets s ->
  forall p, layout_of s' p = layout_of s p.
Proof.
  intros Hs p. apply (f_equal (fun m => m !! p)) in Hs. rewrite !lookup_fmap in Hs.
  unfold layout_of.
  destruct (widgets s !! p) as [W|], (widgets s' !! p) as [W'|];
    cbv [fmap option_fmap option_map] in Hs; try done. cbn.
  assert (H : skeleton W' = skeleton W) by congruence.
  by apply skeleton_fields in H as (_ & -> & _).
Qed.

Lemma layout_of_update s w W W' :
  widgets s !! w = Some W -> _layout W' = _layout W ->
  forall p, layout_of (set_widgets (insert w W') s) p = layout_of s p.
Proof.
  intros Hw Hl p. unfold layout_of. store_simpl.
  destruct (decide (w = p)) as [<- | Hne].
  - rewrite lookup_insert_eq, Hw. done.
  - by rewrite lookup_insert_ne.
Qed.

Lemma handled_other_flag type s W fl :
  fl <> IsVisible -> fl <> IsAttached ->
  test_flag (_flags (handled type s W)) fl = test_flag (_flags W) fl.
Proof.
  intros Hv Ha.
  assert (Ev : bool_decide (IsVisible = fl) = false) by (apply bool_decide_eq_false; congruence).
  assert (Ea : bool_decide (IsAttached = fl) = false) by (apply bool_decide_eq_false; congruence).
  unfold handled. repeat (destruct (String.eqb type _)); cbn [_flags with_flags with_boxSizing];
    try reflexivity.
  - by rewrite test_set_flag, Ev, orb_false_r.
  - by rewrite test_clear_flag, Ev, andb_true_r.
  - rewrite test_set_flag, Ea, orb_false_r. destruct (negb _ && _); [|done].
    by rewrite test_set_flag, Ev, orb_false_r.
  - by rewrite !test_clear_flag, Ev, Ea, !andb_true_r.
Qed.

Lemma fan_other_flag type t fl : forall s x,
  fl <> IsVisible -> fl <> IsAttached ->
  flag_of (fan type t s) x fl = flag_of s x fl.
Proof.
  induction t as [r kids IH] using tree_ind. intros s x Hv Ha. cbn [fan].
  destruct (widgets s !! r) as [W|] eqn:Hr; [|done].
  set (s2 := set_widgets _ _).
  assert (H2 : flag_of s2 x fl = flag_of s x fl).
  { unfold flag_of, s2. store_simpl. destruct (decide (r = x)) as [<- | Hne].
    - by rewrite lookup_insert_eq, Hr, handled_other_flag.
    - by rewrite lookup_insert_ne. }
  rewrite flag_of_set_depth. clearbody s2. revert s2 H2.
  induction IH as [|k kids Hk _ IHk]; intros s2 H2; [done|].
  cbn [fold_left]. apply IHk.
  destruct (skips_hidden type && flag_of s2 (root k) IsHidden); [done|].
  by rewrite Hk.
Qed.

Lemma fan_hidden type t s x :
  flag_of (fan type t s) x IsHidden = flag_of s x IsHidden.
Proof. by apply fan_other_flag. Qed.

Lemma bind_assoc_run {A B C} (m : M A) (n : A -> M B) (k : B -> M C) s b s' :
  (m ≫= n) s = Ret b s' -> (m ≫= fun a => n a ≫= k) s = k b s'.
Proof.
  unfold mbind, M_bind. destruct (m s) as [a s0| |]; [|done..]. by intros ->.
Qed.

(** What [hide] leaves before it asks for the geometry update. *)
Lemma hide_marks fuel w W nd t ps s :
  widgets s !! w = Some W -> test_flag (_flags W) IsHidden = false ->
  _node W = Some nd -> root t = w -> shape s t = true ->
  is_chain s w ps = true -> (need t <= fuel)%nat -> (0 < fuel)%nat ->
  exists s1,
    flag_of s1 w IsHidden = true /\ same_tree s s1 /\
    (forall p, layout_of s1 p = layout_of s p) /\ queues s1 = queues s /\
    hide fuel w s = updateGeometry fuel w true s1.
Proof.
  intros Hw Hh Hn Hroot Hshape Hchain Hfuel Hpos.
  assert (Hknown : parent_known s w = true).
  { unfold parent_known. rewrite Hw. destruct ps as [|p ps]; cbn [is_chain] in Hchain;
      rewrite Hw in Hchain.
    - apply bool_decide_eq_true in Hchain. by rewrite Hchain.
    - apply andb_true_iff in Hchain as [Hp Hc]. apply bool_decide_eq_true in Hp.
      rewrite Hp. apply bool_decide_eq_true.
      destruct ps; cbn [is_chain] in Hc; destruct (widgets s !! p); eauto; done. }
  set (eligible := test_flag (_flags W) IsAttached &&
                   match _parent W with Some p => flag_of s p IsVisible | None => true end).
  set (sA := if eligible then fan "before-hide" t s else s).
  assert (HsA : same_skeleton s sA).
  { unfold sA. destruct eligible; [apply fan_same_skeleton | apply same_skeleton_refl]. }
  destruct (same_skeleton_node s sA w W HsA Hw) as (WA & HWA & HskA).
  destruct (skeleton_fields _ _ HskA) as (HnA & HlA & HpA & HcA).
  set (mark := fun nd0 : HTMLElement =>
                 if existsb (String.eqb HIDDEN_CLASS) (classList nd0) then nd0
                 else with_classList (classList nd0 ++ [HIDDEN_CLASS]) nd0).
  set (Wn := with_node (Some (mark nd)) WA).
  set (WB := with_flags (set_flag (_flags Wn) IsHidden) Wn).
  set (sB := set_widgets (insert w WB) sA).
  assert (HWB : widgets sB !! w = Some WB) by (unfold sB; store_simpl; apply lookup_insert_eq).
  assert (HtB : same_tree s sB).
  { eapply same_tree_trans; [apply same_skeleton_tree, HsA|].
    apply (same_tree_update sA w WA WB); [done | reflexivity]. }
  set (sC := if eligible then fan "after-hide" t sB else sB).
  assert (HsC : same_skeleton sB sC).
  { unfold sC. destruct eligible; [apply fan_same_skeleton | apply same_skeleton_refl]. }
  destruct (same_skeleton_node sB sC w WB HsC HWB) as (WC & HWC & HskC).
  set (s1 := match _parent W with
             | Some p => set_trace (fun tr => tr ++ [Sent (depth sC) p (ChildMessage "child-hidden" w)]) sC
             | None => sC
             end).
  assert (Hmark : (addClass w HIDDEN_CLASS ;; setFlag w IsHidden) sA = Ret tt sB).
  { unfold addClass. erewrite bind_run; [| apply (updNode_run _ _ WA nd); congruence].
    fold mark Wn. erewrite setFlag_run by solve_lookup.
    fold WB. by rewrite set_widgets_insert_insert. }
  exists s1. split_and!.
  - assert (Hf : flag_of sC w IsHidden = true).
    { transitivity (flag_of sB w IsHidden).
      - unfold sC. destruct eligible; [apply fan_hidden | done].
      - unfold flag_of. rewrite HWB. cbn. rewrite test_set_flag.
        by rewrite bool_decide_eq_true_2, orb_true_r. }
    unfold s1. by destruct (_parent W).
  - assert (same_tree s sC) by (eapply same_tree_trans; [exact HtB | by apply same_skeleton_tree]).
    unfold s1. by destruct (_parent W).
  - intros p. assert (Hl : layout_of sC p = layout_of s p).
    { rewrite (layout_of_ext sB sC) by apply HsC.
      unfold sB. rewrite (layout_of_update sA w WA WB) by done.
      apply layout_of_ext, HsA. }
    unfold s1. by destruct (_parent W).
  - assert (Hq : queues sC = queues s).
    { destruct HsC as (_ & _ & _ & -> & _). unfold sB. store_simpl. apply HsA. }
    unfold s1. by destruct (_parent W).
  - unfold hide, isHidden.
    rewrite (bind_run _ _ _ _ _ (testFlag_run _ _ IsHidden _ Hw)), Hh. cbv iota.
    rewrite (bind_run _ _ _ _ _ (getWidget_run _ _ _ Hw)). cbv zeta.
    unfold isAttached. rewrite (bind_run _ _ _ _ _ (testFlag_run _ _ IsAttached _ Hw)).
    assert (Hel : forall k : bool -> M unit,
      ((if (test_flag (_flags W) IsAttached : bool)
        then match _parent W with Some p => isVisible p | None => mret true end
        else mret false) ≫= k) s = k eligible s).
    { intros k. unfold eligible. destruct (test_flag (_flags W) IsAttached); [|reflexivity].
      cbn [andb]. unfold parent_known in Hknown. rewrite Hw in Hknown.
      destruct (_parent W) as [p|]; [|reflexivity].
      apply bool_decide_eq_true in Hknown as [Wp HWp].
      unfold isVisible, flag_of. rewrite HWp.
      by rewrite (bind_run _ _ _ _ _ (testFlag_run _ _ IsVisible _ HWp)). }
    rewrite Hel.
    assert (Hbody :
      (if (eligible : bool)
       then sendMessage fuel w (Msg "before-hide") ;;
            addClass w HIDDEN_CLASS ;; setFlag w IsHidden ;;
            sendMessage fuel w (Msg "after-hide")
       else addClass w HIDDEN_CLASS ;; setFlag w IsHidden) s = Ret tt sC).
    { unfold sC, sA in *. destruct eligible.
      - rewrite <- Hroot at 1.
        erewrite bind_run; [| apply sendMessage_fan; [done | done | done | by rewrite Hroot]].
        rewrite (bind_assoc_run _ _ _ _ _ _ Hmark). rewrite <- Hroot.
        apply sendMessage_fan; [done | done | by rewrite (shape_ext s sB) |].
        rewrite (parent_known_ext s sB) by done. by rewrite Hroot.
      - exact Hmark. }
    rewrite (bind_run _ _ _ _ _ Hbody).
    unfold s1. destruct (_parent W) as [p|]; [|by rewrite mret_bind].
    destruct fuel as [|n]; [lia|].
    by rewrite (bind_run _ _ _ _ _
      (sendMessage_informational_run n p (ChildMessage "child-hidden" w) sC eq_refl)).
Qed.

(** C6 (as the code has it): [updateGeometry(force)] does nothing for a
    widget without parent, or one that is hidden unless forced; otherwise
    it invalidates the layout of the parent if there is one, and if not
    posts layout-request to the parent and calls [updateGeometry()] on
    the parent, unforced: the request climbs through ancestors without
    layout until one has a layout, or is hidden, or is the root.  [hide]
    ends with the forced call, made when the widget is hidden already, so
    that it climbs where an unforced call would do nothing. *)
Theorem updateGeometry_climbs_unforced fuel w force ps s :
  is_chain s w ps = true -> (length ps < fuel)%nat ->
  updateGeometry fuel w force s =
    Ret tt (match ps with
            | [] => s
            | _ :: _ => if flag_of s w IsHidden && negb force then s else bubble ps s
            end) /\
  (forall p rest, ps = p :: rest -> flag_of s w IsHidden && negb force = false ->
     (forall l, layout_of s p = Some l ->
        updateGeometry fuel w force s =
          Ret tt (set_trace (fun t => t ++ [Invalidated l]) s)) /\
     (layout_of s p = None ->
        exists s1,
          postMessage p (Msg "layout-request") s = Ret tt s1 /\
          updateGeometry fuel w force s = updateGeometry (Nat.pred fuel) p false s1)) /\
  (forall W nd t,
     widgets s !! w = Some W -> test_flag (_flags W) IsHidden = false ->
     _node W = Some nd -> root t = w -> shape s t = true -> (need t <= fuel)%nat ->
     exists s1,
       flag_of s1 w IsHidden = true /\ is_chain s1 w ps = true /\
       (forall p, layout_of s1 p = layout_of s p) /\ queues s1 = queues s /\
       hide fuel w s = Ret tt (bubble ps s1) /\
       updateGeometry fuel w false s1 = Ret tt s1).
Proof.
  intros Hchain Hfuel. split_and!.
  - by apply updateGeometry_run.
  - intros p rest -> Hgate. rewrite (updateGeometry_run _ _ _ _ _ Hchain Hfuel), Hgate.
    cbn [bubble]. split.
    + by intros l ->.
    + intros Hl. rewrite Hl. eexists. split; [apply postMessage_run|].
      set (s1 := exec _ s).
      assert (Hc1 : is_chain s1 p rest = true).
      { cbn [is_chain] in Hchain. destruct (widgets s !! w); [|done].
        apply andb_true_iff in Hchain as [_ Hc].
        rewrite (is_chain_ext s s1); [done|]. unfold s1. by rewrite postMessage_widgets. }
      rewrite (updateGeometry_run rest (Nat.pred fuel) p false s1 Hc1)
        by (simpl in Hfuel; lia).
      cbn [negb]. rewrite andb_true_r.
      destruct rest; [destruct (flag_of s1 p IsHidden); reflexivity | reflexivity].
  - intros W nd t Hw Hh Hn Hroot Hshape Hneed.
    destruct (hide_marks fuel w W nd t ps s) as (s1 & Hf & Ht & Hl & Hq & Hrun);
      try done; [lia|].
    assert (Hc1 : is_chain s1 w ps = true) by (rewrite (is_chain_ext s s1); [done | apply Ht]).
    exists s1. split_and!; try done.
    + rewrite Hrun, (updateGeometry_run _ _ _ _ _ Hc1 Hfuel).
      cbn [negb]. rewrite andb_false_r. by destruct ps.
    + rewrite (updateGeometry_run _ _ _ _ _ Hc1 Hfuel), Hf. by destruct ps.
Qed.

Lemma updateGeometry_climbs_unforced_witness :
  updateGeometry 3 1%nat false family =
    Ret tt (exec (postMessage 0%nat (Msg "layout-request")) family).
Proof.
  destruct (updateGeometry_climbs_unforced 3 1%nat false [0%nat] family) as [H _].
  - vm_compute. reflexivity.
  - simpl. lia.
  - rewrite H. vm_compute. reflexivity.
Defined.

(** C6 (as stated) fails at a hidden ancestor: below a hidden parent without
    layout the request is posted to that parent and goes no further,
    though the grandparent is the root and has no layout either. *)
Lemma updateGeometry_stops_at_hidden_ancestor :
  is_chain hidden_middle 2%nat [1%nat; 0%nat] = true /\
  flag_of hidden_middle 2%nat IsHidden = false /\
  layout_of hidden_middle 1%nat = None /\ layout_of hidden_middle 0%nat = None /\
  queues hidden_middle !!! 0%nat = [] /\
  exists s',
    updateGeometry 5 2%nat false hidden_middle = Ret tt s' /\
    trace s' = trace hidden_middle ++ [Posted 1%nat (Msg "layout-request")] /\
    queues s' !!! 1%nat = [Msg "layout-request"] /\
    queues s' !!! 0%nat = [].
Proof.
  split_and!; try (vm_compute; reflexivity).
  eexists. split_and!; vm_compute; reflexivity.
Qed.

(** ** Reparenting *)

Lemma removeChild_run parent child W nd s :
  widgets s !! child = Some W -> _node W = Some nd -> parentNode nd = Some parent ->
  removeChild parent child s =
    Ret tt (set_trace (fun t => t ++ [Removed parent child])
             (set_widgets (insert child (with_node (Some (with_parentNode None nd)) W)) s)).
Proof.
  intros Hw Hn Hp. unfold removeChild, theNode.
  unfold mbind at 1, M_bind at 1, mbind at 1, M_bind at 1.
  rewrite (getWidget_run _ _ _ Hw), Hn. cbn [nonnull mret M_ret].
  rewrite decide_True by done.
  by rewrite (bind_run _ _ _ _ _ (updNode_run _ _ _ _ _ Hw Hn)).
Qed.

Lemma theNode_run w W nd s :
  widgets s !! w = Some W -> _node W = Some nd -> theNode w s = Ret nd s.
Proof.
  intros Hw Hn. unfold theNode. rewrite (bind_run _ _ _ _ _ (getWidget_run _ _ _ Hw)).
  by rewrite Hn.
Qed.


Lemma kept_trans s1 s2 s3 : kept s1 s2 -> kept s2 s3 -> kept s1 s3.
Proof.
  intros H1 H2 x W HW. destruct (H1 x W HW) as (W2 & HW2 & Hn2 & Hl2 & Hp2 & Hf2).
  destruct (H2 x W2 HW2) as (W3 & HW3 & Hn3 & Hl3 & Hp3 & Hf3).
  exists W3. split_and!; [done | auto | congruence | congruence | congruence].
Qed.

Lemma kept_fan type t s : kept s (fan type t s).
Proof.
  intros x W HW.
  destruct (same_skeleton_node s _ x W (fan_same_skeleton type t s) HW) as (W' & HW' & Hsk).
  apply skeleton_fields in Hsk as (Hn & Hl & Hp & _).
  exists W'. split_and!; [done | by rewrite Hn | done | done |].
  pose proof (fan_other_flag type t IsDisposed s x) as Hf.
  unfold flag_of in Hf. rewrite HW, HW' in Hf. by apply Hf.
Qed.

Lemma kept_widget w W W' s :
  widgets s !! w = Some W ->
  (is_Some (_node W) -> is_Some (_node W')) -> _layout W' = _layout W ->
  _parent W' = _parent W ->
  test_flag (_flags W') IsDisposed = test_flag (_flags W) IsDisposed ->
  kept s (set_widgets (insert w W') s).
Proof.
  intros Hw Hn Hl Hp Hf x Wx HWx. store_simpl. destruct (decide (w = x)) as [<- | Hne].
  - rewrite lookup_insert_eq. exists W'. assert (Wx = W) by congruence. subst.
    by split_and!.
  - rewrite lookup_insert_ne by done. exists Wx. by split_and!.
Qed.

Lemma kept_widgets s s' : widgets s' = widgets s -> kept s s'.
Proof. intros E x W HW. exists W. rewrite E. by split_and!. Qed.

(** The parent's handling of child-removed and of child-added: the child's
    node is taken out of, or put into, the parent's node, and if the
    parent is attached the child's whole tree is told, before and after. *)
Lemma child_moved_run (added : bool) n p P np a A na t s :
  let type := if added then "child-added" else "child-removed" in
  let before := if added then "before-attach" else "before-detach" in
  let after := if added then "after-attach" else "after-detach" in
  let change := if added then Appended (WidgetNode p) a else Removed (WidgetNode p) a in
  let na' := with_parentNode (if added then Some (WidgetNode p) else None) na in
  widgets s !! p = Some P -> _node P = Some np ->
  widgets s !! a = Some A -> _node A = Some na ->
  (added = false -> parentNode na = Some (WidgetNode p)) ->
  root t = a -> shape s t = true -> parent_known s a = true -> p ∉ nodes t ->
  (need t <= n)%nat ->
  exists s',
    sendMessage (S n) p (ChildMessage type a) s = Ret tt s' /\
    same_tree s s' /\ depth s' = depth s /\ queues s' = queues s /\
    layouts s' = layouts s /\
    (forall x, x ∉ nodes t -> widgets s' !! x = widgets s !! x) /\
    (exists A', widgets s' !! a = Some A' /\ _node A' = Some na' /\
                _parent A' = _parent A /\ _children A' = _children A) /\
    trace s' = trace s ++ [Sent (depth s) p (ChildMessage type a)] ++
      (if test_flag (_flags P) IsAttached
       then fan_events before (S (depth s)) t ++ [change] ++
            fan_events after (S (depth s)) t
       else [change]) /\
    kept s s'.
Proof.
  intros type before after change na' HP HnP HA HnA Hdom Hroot Hshape Hknown Hout Hneed.
  assert (Hpa : p <> a).
  { intros ->. apply Hout. rewrite <- Hroot. apply root_in_nodes. }
  set (s1 := set_depth S (set_trace (fun tr => tr ++ [Sent (depth s) p (ChildMessage type a)]) s)).
  assert (Hts1 : same_tree s s1) by (by split).
  assert (Hproc : forall send fuel σ,
    processMessage send fuel p (ChildMessage type a) σ =
    (if added then onChildAdded send p (ChildMessage type a)
     else onChildRemoved send p (ChildMessage type a)) σ).
  { intros. unfold type. by destruct added. }
  (* the DOM step, from any store that still holds the child as it was *)
  assert (Hdomstep : forall σ Aσ,
    widgets σ !! p = Some P -> widgets σ !! a = Some Aσ -> _node Aσ = Some na ->
    (theNode p ;; if added then appendChild (WidgetNode p) a else removeChild (WidgetNode p) a) σ =
    Ret tt (set_trace (fun tr => tr ++ [change])
              (set_widgets (insert a (with_node (Some na') Aσ)) σ))).
  { intros σ Aσ HPσ HAσ Hnσ.
    rewrite (bind_run _ _ _ _ _ (theNode_run _ _ _ _ HPσ HnP)).
    unfold change, na'. destruct added.
    - by apply appendChild_run.
    - apply removeChild_run; auto. }
  destruct (test_flag (_flags P) IsAttached) eqn:Hatt.
  - set (sA := fan before t s1).
    pose proof (fan_same_skeleton before t s1) as HsA. fold sA in HsA.
    destruct (same_skeleton_node s1 sA a A HsA HA) as (AA & HAA & HskA).
    destruct (skeleton_fields _ _ HskA) as (HnAA & _ & HpAA & HcAA).
    set (sB := set_trace (fun tr => tr ++ [change])
                 (set_widgets (insert a (with_node (Some na') AA)) sA)).
    set (sC := fan after t sB).
    pose proof (fan_same_skeleton after t sB) as HsC. fold sC in HsC.
    assert (HtB : same_tree s sB).
    { eapply same_tree_trans; [exact Hts1|].
      eapply same_tree_trans; [apply (same_skeleton_tree s1 sA HsA)|].
      apply (same_tree_update sA a AA); [done | reflexivity]. }
    assert (HBa : widgets sB !! a = Some (with_node (Some na') AA))
      by (unfold sB; store_simpl; apply lookup_insert_eq).
    destruct (same_skeleton_node sB sC a _ HsC HBa) as (AC & HAC & HskC).
    destruct (skeleton_fields _ _ HskC) as (HnAC & _ & HpAC & HcAC).
    assert (HPA : widgets sA !! p = Some P) by (unfold sA; by rewrite fan_outside).
    assert (Hfo : fans_out before = true /\ fans_out after = true)
      by (unfold before, after; by destruct added).
    assert (Hsk : skips_hidden before = false /\ skips_hidden after = false)
      by (unfold before, after; by destruct added).
    exists (set_depth Nat.pred sC). split_and!.
    + cbn [sendMessage]. unfold mbind at 1, M_bind at 1. unfold log, modify.
      unfold mbind at 1, M_bind at 1, mbind at 1, M_bind at 1. fold s1.
      unfold mbind at 1, M_bind at 1. rewrite Hproc.
      assert (Hbody :
        (if added then onChildAdded (sendMessage n) p (ChildMessage type a)
         else onChildRemoved (sendMessage n) p (ChildMessage type a)) s1 = Ret tt sC).
      { assert (Hgen :
          (attached ← isAttached p;
           if (attached : bool) then
             sendMessage n a (Msg before) ;;
             theNode p ;;
             (if added then appendChild (WidgetNode p) a
              else removeChild (WidgetNode p) a) ;;
             sendMessage n a (Msg after)
           else
             theNode p ;; if added then appendChild (WidgetNode p) a
                          else removeChild (WidgetNode p) a) s1 = Ret tt sC).
        { unfold isAttached.
          rewrite (bind_run _ _ _ _ _ (testFlag_run _ _ IsAttached s1 HP)), Hatt.
          rewrite <- Hroot at 1.
          erewrite bind_run;
            [| apply sendMessage_fan;
               [apply Hfo | exact Hneed | by rewrite (shape_ext s s1) | rewrite Hroot; exact Hknown]].
          fold sA.
          assert (HnAA' : _node AA = Some na) by congruence.
          rewrite (bind_assoc_run _ _ _ _ _ _ (Hdomstep sA AA HPA HAA HnAA')).
          fold sB. rewrite <- Hroot.
          apply sendMessage_fan; [apply Hfo | done | by rewrite (shape_ext s sB) |].
          rewrite (parent_known_ext s sB) by done. by rewrite Hroot. }
        revert Hgen. unfold onChildAdded, onChildRemoved, before, after.
        destruct added; cbn [msg_child nonnull]; rewrite !mret_bind; intros <-; reflexivity. }
      by rewrite Hbody.
    + eapply same_tree_trans; [exact HtB|]. apply (same_skeleton_tree sB sC HsC).
    + store_simpl. destruct HsC as (_ & _ & _ & _ & _ & ->). unfold sB. store_simpl.
      destruct HsA as (_ & _ & _ & _ & _ & ->). done.
    + store_simpl. destruct HsC as (_ & _ & _ & -> & _). unfold sB. store_simpl.
      destruct HsA as (_ & _ & _ & -> & _). done.
    + store_simpl. destruct HsC as (_ & _ & -> & _). unfold sB. store_simpl.
      destruct HsA as (_ & _ & -> & _). done.
    + intros x Hx. store_simpl. unfold sC. rewrite fan_outside by done.
      unfold sB. store_simpl. rewrite lookup_insert_ne.
      * unfold sA. by rewrite fan_outside.
      * intros <-. apply Hx. rewrite <- Hroot. apply root_in_nodes.
    + exists AC. store_simpl. cbn in HnAC, HpAC, HcAC.
      split_and!; [done | by rewrite HnAC | congruence | congruence].
    + store_simpl. unfold sC. rewrite fan_trace; [| apply Hsk | by rewrite (shape_ext s sB)].
      unfold sB at 1. store_simpl. unfold sA at 1.
      rewrite fan_trace; [| apply Hsk | by rewrite (shape_ext s s1)].
      assert (HdB : depth sB = S (depth s)).
      { unfold sB. store_simpl. by destruct HsA as (_ & _ & _ & _ & _ & ->). }
      rewrite HdB. unfold s1. store_simpl. by rewrite <- !app_assoc.
    + eapply kept_trans; [apply (kept_widgets s s1); reflexivity|].
      eapply kept_trans; [apply kept_fan|]. fold sA.
      eapply kept_trans; [| apply (kept_widgets sC); reflexivity].
      eapply kept_trans; [| apply kept_fan].
      eapply kept_trans; [| apply kept_widgets; reflexivity].
      apply (kept_widget a AA (with_node (Some na') AA) sA HAA); [by eauto | done..].
  - set (sB := set_trace (fun tr => tr ++ [change])
                 (set_widgets (insert a (with_node (Some na') A)) s1)).
    exists (set_depth Nat.pred sB). split_and!.
    + cbn [sendMessage]. unfold mbind at 1, M_bind at 1. unfold log, modify.
      unfold mbind at 1, M_bind at 1, mbind at 1, M_bind at 1. fold s1.
      unfold mbind at 1, M_bind at 1. rewrite Hproc.
      assert (Hbody :
        (if added then onChildAdded (sendMessage n) p (ChildMessage type a)
         else onChildRemoved (sendMessage n) p (ChildMessage type a)) s1 = Ret tt sB).
      { assert (Hgen :
          (attached ← isAttached p;
           if (attached : bool) then
             sendMessage n a (Msg before) ;;
             theNode p ;;
             (if added then appendChild (WidgetNode p) a
              else removeChild (WidgetNode p) a) ;;
             sendMessage n a (Msg after)
           else
             theNode p ;; if added then appendChild (WidgetNode p) a
                          else removeChild (WidgetNode p) a) s1 = Ret tt sB).
        { unfold isAttached.
          rewrite (bind_run _ _ _ _ _ (testFlag_run _ _ IsAttached s1 HP)), Hatt.
          by apply (Hdomstep s1 A). }
        revert Hgen. unfold onChildAdded, onChildRemoved, before, after.
        destruct added; cbn [msg_child nonnull]; rewrite !mret_bind; intros <-; reflexivity. }
      by rewrite Hbody.
    + apply (same_tree_update s a A); [done | reflexivity].
    + reflexivity.
    + reflexivity.
    + reflexivity.
    + intros x Hx. unfold sB, s1. store_simpl. rewrite lookup_insert_ne; [done|].
      intros <-. apply Hx. rewrite <- Hroot. apply root_in_nodes.
    + eexists. unfold sB. store_simpl. rewrite lookup_insert_eq. by split_and!.
    + unfold sB, s1. store_simpl. by rewrite <- !app_assoc.
    + eapply kept_trans; [apply (kept_widgets s s1); reflexivity|].
      eapply kept_trans; [| apply (kept_widgets sB); reflexivity].
      eapply kept_trans; [| apply kept_widgets; reflexivity].
      apply (kept_widget a A (with_node (Some na') A) s1 HA); [by eauto | done..].
Qed.

Lemma forallb_ext_in {A} (f g : A -> bool) (l : list A) :
  (forall x, x ∈ l -> f x = g x) -> forallb f l = forallb g l.
Proof.
  induction l as [|x l IH]; [done|]. intros H. cbn.
  rewrite (H x) by apply list_elem_of_here. f_equal.
  apply IH. intros y Hy. apply H. by apply list_elem_of_further.
Qed.

Lemma shape_frame s s' t :
  (forall x, x ∈ nodes t -> widgets s' !! x = widgets s !! x) ->
  (forall x W, x ∈ nodes t -> widgets s !! x = Some W ->
     arrays s' !! _children W = arrays s !! _children W) ->
  shape s' t = shape s t.
Proof.
  induction t as [w kids IH] using tree_ind. intros Hw Ha. cbn [shape].
  rewrite (Hw w) by apply list_elem_of_here.
  destruct (widgets s !! w) as [W|] eqn:HW; [|done].
  rewrite (Ha w W) by (done || apply list_elem_of_here). f_equal.
  assert (Hsub : forall k, k ∈ kids -> forall x, x ∈ nodes k -> x ∈ nodes (Node w kids)).
  { intros k Hk x Hx. cbn [nodes]. apply list_elem_of_further. by eapply nodes_kid. }
  rewrite Forall_forall in IH.
  apply forallb_ext_in. intros k Hk. f_equal.
  - unfold parent_is. rewrite Hw; [done|]. apply (Hsub k Hk), root_in_nodes.
  - apply IH; [done | |].
    + intros x Hx. by apply Hw, (Hsub k).
    + intros x Wx Hx. by apply Ha, (Hsub k).
Qed.

(** The shape of a tree survives a change of the root's parent and of
    arrays that belong to none of its nodes. *)
Lemma shape_reroot s s' t W W' :
  shape s t = true -> NoDup (nodes t) ->
  widgets s !! root t = Some W -> widgets s' !! root t = Some W' ->
  _children W' = _children W ->
  (forall x, x ∈ nodes t -> x <> root t -> widgets s' !! x = widgets s !! x) ->
  (forall x Wx, x ∈ nodes t -> widgets s !! x = Some Wx ->
     arrays s' !! _children Wx = arrays s !! _children Wx) ->
  shape s' t = true.
Proof.
  destruct t as [w kids]. cbn [root]. intros Hshape Hnd HW HW' Hc Hw Ha.
  pose proof Hshape as Hshape0.
  cbn [shape] in *. rewrite HW in Hshape. rewrite HW', Hc.
  rewrite (Ha w W) by (done || apply list_elem_of_here).
  apply andb_true_iff in Hshape as [-> Hkids]. cbn [andb].
  cbn [nodes] in Hnd. apply NoDup_cons in Hnd as [Hout _].
  apply forallb_forall. intros k Hk%list_elem_of_In.
  rewrite forallb_forall in Hkids. specialize (Hkids k (proj1 (list_elem_of_In _ _) Hk)).
  assert (Hin : forall x, x ∈ nodes k -> x ∈ nodes (Node w kids) /\ x <> w).
  { intros x Hx. split.
    - cbn [nodes]. apply list_elem_of_further. by eapply nodes_kid.
    - intros ->. apply Hout. by eapply nodes_kid. }
  rewrite (shape_frame s s' k).
  - unfold parent_is in *. rewrite Hw; [done | | ]; by apply Hin, root_in_nodes.
  - intros x Hx. apply Hw; by apply Hin.
  - intros x Wx Hx. apply Ha. by apply Hin.
Qed.

Lemma updArray_run a f l s :
  arrays s !! a = Some l -> updArray a f s = Ret tt (set_arrays (insert a (f l)) s).
Proof. unfold updArray. by intros ->. Qed.

(** C4: giving a widget [a] with parent [b] another parent [c] delivers, at
    the level of the assignment, child-removed to [b], child-added to [c]
    and parent-changed to [a], in this order and nothing else; what else
    is delivered is delivered inside those, by the handlers of [b] and
    [c], which tell the tree of [a] that it is detached or attached.
    Assigning the parent the widget has delivers nothing. *)
Theorem set_parent_messages fuel a b c A B C na nb nc lb lc t s :
  widgets s !! a = Some A -> widgets s !! b = Some B -> widgets s !! c = Some C ->
  _parent A = Some b -> b <> c ->
  _node A = Some na -> parentNode na = Some (WidgetNode b) ->
  _node B = Some nb -> _node C = Some nc ->
  arrays s !! _children B = Some lb -> arrays s !! _children C = Some lc ->
  own_arrays s ->
  root t = a -> shape s t = true -> NoDup (nodes t) -> b ∉ nodes t -> c ∉ nodes t ->
  (S (need t) <= fuel)%nat ->
  (forall send, set_parent send a (Some b) s = Ret tt s) /\
  exists s' new,
    set_parent (sendMessage fuel) a (Some c) s = Ret tt s' /\
    trace s' = trace s ++ new /\
    new =
      [Sent (depth s) b (ChildMessage "child-removed" a)] ++
      (if test_flag (_flags B) IsAttached
       then fan_events "before-detach" (S (depth s)) t ++ [Removed (WidgetNode b) a] ++
            fan_events "after-detach" (S (depth s)) t
       else [Removed (WidgetNode b) a]) ++
      [Sent (depth s) c (ChildMessage "child-added" a)] ++
      (if test_flag (_flags C) IsAttached
       then fan_events "before-attach" (S (depth s)) t ++ [Appended (WidgetNode c) a] ++
            fan_events "after-attach" (S (depth s)) t
       else [Appended (WidgetNode c) a]) ++
      [Sent (depth s) a (Msg "parent-changed")] /\
    List.filter (at_depth (depth s)) new =
      [Sent (depth s) b (ChildMessage "child-removed" a);
       Sent (depth s) c (ChildMessage "child-added" a);
       Sent (depth s) a (Msg "parent-changed")] /\
    (exists A', widgets s' !! a = Some A' /\ _parent A' = Some c) /\
    arrays s' !! _children B = Some (remove_first (Some a) lb) /\
    arrays s' !! _children C = Some (lc ++ [Some a]).
Proof.
  intros HA HB HC HpA Hbc HnA Hdom HnB HnC HlB HlC Hown Hroot Hshape Hnd Hb Hc Hfuel.
  split.
  { intros send. unfold set_parent.
    rewrite (bind_run _ _ _ _ _ (getWidget_run _ _ _ HA)). cbv zeta.
    by rewrite decide_True. }
  destruct fuel as [|n]; [lia|]. assert (Hneed : (need t <= n)%nat) by lia.
  assert (Hab : a <> b) by (intros <-; apply Hb; rewrite <- Hroot; apply root_in_nodes).
  assert (Hac : a <> c) by (intros <-; apply Hc; rewrite <- Hroot; apply root_in_nodes).
  assert (Hain : a ∈ nodes t) by (rewrite <- Hroot; apply root_in_nodes).
  assert (HcBC : _children B <> _children C) by (intros E; by apply Hbc, (Hown b c B C)).
  assert (Harr : forall x Wx p P, x ∈ nodes t -> widgets s !! x = Some Wx ->
            widgets s !! p = Some P -> p ∉ nodes t -> _children P <> _children Wx).
  { intros x Wx p P Hx HWx HP Hp E. apply Hp. by rewrite (Hown p x P Wx). }
  (* the old parent lets go *)
  set (A1 := with_parent None A).
  set (s1 := set_widgets (insert a A1) s).
  set (s2 := set_arrays (insert (_children B) (remove_first (Some a) lb)) s1).
  assert (Hshape2 : shape s2 t = true).
  { apply (shape_reroot s s2 t A A1); try done.
    - by rewrite Hroot.
    - rewrite Hroot. unfold s2, s1. store_simpl. apply lookup_insert_eq.
    - intros x Hx Hne. unfold s2, s1. store_simpl. rewrite lookup_insert_ne; [done|].
      by rewrite <- Hroot.
    - intros x Wx Hx HWx. unfold s2, s1. store_simpl. rewrite lookup_insert_ne; [done|].
      by eapply Harr. }
  destruct (child_moved_run false n b B nb a A1 na t s2) as
    (s3 & Hrun3 & Ht3 & Hd3 & _ & _ & Hout3 & (A3 & HA3 & HnA3 & HpA3 & HcA3) & Htr3 & _);
    try done.
  { unfold s2, s1. store_simpl. by rewrite lookup_insert_ne. }
  { unfold s2, s1. store_simpl. apply lookup_insert_eq. }
  { unfold parent_known, s2, s1. store_simpl. by rewrite lookup_insert_eq. }
  cbv zeta in Hrun3, HnA3, Htr3. cbv iota in Hrun3, HnA3, Htr3.
  (* the new parent takes hold *)
  set (A4 := with_parent (Some c) A3).
  set (s4 := set_widgets (insert a A4) s3).
  set (s5 := set_arrays (insert (_children C) (lc ++ [Some a])) s4).
  assert (HC3 : widgets s3 !! c = Some C).
  { rewrite Hout3 by done. unfold s2, s1. store_simpl. by rewrite lookup_insert_ne. }
  assert (HB3 : widgets s3 !! b = Some B).
  { rewrite Hout3 by done. unfold s2, s1. store_simpl. by rewrite lookup_insert_ne. }
  assert (Ha3 : arrays s3 = arrays s2) by apply Ht3.
  assert (Hshape3 : shape s3 t = true) by by rewrite (shape_ext s2 s3).
  assert (Hw32 : forall x, x ∈ nodes t -> x <> a ->
            links <$> widgets s3 !! x = links <$> widgets s !! x).
  { intros x Hx Hne. destruct Ht3 as [Hl _].
    apply (f_equal (fun m => m !! x)) in Hl. rewrite !lookup_fmap in Hl. rewrite Hl.
    unfold s2, s1. store_simpl. by rewrite lookup_insert_ne. }
  assert (Hshape5 : shape s5 t = true).
  { apply (shape_reroot s3 s5 t A3 A4); try done.
    - by rewrite Hroot.
    - rewrite Hroot. unfold s5, s4. store_simpl. apply lookup_insert_eq.
    - intros x Hx Hne. unfold s5, s4. store_simpl. rewrite lookup_insert_ne; [done|].
      by rewrite <- Hroot.
    - intros x Wx Hx HWx. unfold s5, s4. store_simpl. rewrite lookup_insert_ne; [done|].
      intros E. destruct (decide (x = a)) as [-> | Hne].
      + assert (Wx = A3) by congruence. subst Wx.
        apply (Harr a A c C Hain HA HC Hc). cbn in HcA3. congruence.
      + specialize (Hw32 x Hx Hne). rewrite HWx in Hw32.
        destruct (widgets s !! x) as [Wx0|] eqn:HWx0; [|done].
        cbn in Hw32. injection Hw32 as _ Hc0.
        apply (Harr x Wx0 c C Hx HWx0 HC Hc). congruence. }
  destruct (child_moved_run true n c C nc a A4 (with_parentNode None na) t s5) as
    (s6 & Hrun6 & Ht6 & Hd6 & _ & _ & Hout6 & (A6 & HA6 & HnA6 & HpA6 & HcA6) & Htr6 & _);
    try done.
  { unfold s5, s4. store_simpl. by rewrite lookup_insert_ne. }
  { unfold s5, s4. store_simpl. apply lookup_insert_eq. }
  { unfold parent_known, s5, s4. store_simpl. rewrite lookup_insert_eq. cbn.
    rewrite lookup_insert_ne by done. rewrite HC3. by apply bool_decide_eq_true. }
  cbv zeta in Hrun6, HnA6, Htr6. cbv iota in Hrun6, HnA6, Htr6.
  set (s7 := set_trace (fun tr => tr ++ [Sent (depth s6) a (Msg "parent-changed")]) s6).
  assert (Hrun : set_parent (sendMessage (S n)) a (Some c) s = Ret tt s7).
  { unfold set_parent.
    rewrite (bind_run _ _ _ _ _ (getWidget_run _ _ _ HA)). cbv zeta.
    rewrite HpA, decide_False by congruence.
    assert (Hold : (updWidget a (with_parent None) ;;
                    O ← getWidget b; algo_remove (_children O) (Some a) ;;
                    sendMessage (S n) b (ChildMessage "child-removed" a)) s = Ret tt s3).
    { rewrite (bind_run _ _ _ _ _ (updWidget_run _ _ _ _ HA)). fold A1 s1.
      erewrite bind_run; [| apply getWidget_run; unfold s1; store_simpl;
                            by rewrite lookup_insert_ne].
      unfold algo_remove. erewrite bind_run; [| by apply updArray_run].
      exact Hrun3. }
    rewrite (bind_run _ _ _ _ _ Hold).
    assert (Hnew : (updWidget a (with_parent (Some c)) ;;
                    P ← getWidget c; array_push (_children P) (Some a) ;;
                    sendMessage (S n) c (ChildMessage "child-added" a)) s3 = Ret tt s6).
    { rewrite (bind_run _ _ _ _ _ (updWidget_run _ _ _ _ HA3)). fold A4 s4.
      erewrite bind_run; [| apply getWidget_run; unfold s4; store_simpl;
                            by rewrite lookup_insert_ne].
      unfold array_push. erewrite bind_run.
      2:{ apply updArray_run. unfold s4. store_simpl. rewrite Ha3. unfold s2, s1.
          store_simpl. by rewrite lookup_insert_ne. }
      exact Hrun6. }
    rewrite (bind_run _ _ _ _ _ Hnew).
    by apply sendMessage_informational_run. }
  assert (Hd : depth s6 = depth s) by (by rewrite Hd6; unfold s5, s4; store_simpl; rewrite Hd3).
  eexists s7, _. split; [exact Hrun|]. split_and!.
  - unfold s7. store_simpl. rewrite Htr6. unfold s5 at 1, s4 at 1. store_simpl.
    rewrite Htr3. unfold s2 at 1, s1 at 1. store_simpl.
    rewrite <- !app_assoc. reflexivity.
  - rewrite Hd. replace (depth s5) with (depth s) by (unfold s5, s4; store_simpl; by rewrite Hd3).
    replace (depth s2) with (depth s) by done.
    replace (_flags A1) with (_flags A) by done. reflexivity.
  - replace (depth s5) with (depth s) by (unfold s5, s4; store_simpl; by rewrite Hd3).
    replace (depth s2) with (depth s) by done. rewrite Hd.
    rewrite !List.filter_app. cbn [List.filter at_depth]. rewrite Nat.eqb_refl.
    assert (Hmid : forall (att : bool) before after change,
      at_depth (depth s) change = false ->
      List.filter (at_depth (depth s))
        (if att then fan_events before (S (depth s)) t ++ [change] ++
                     fan_events after (S (depth s)) t
         else [change]) = []).
    { intros att before after change Hch. destruct att.
      - rewrite !List.filter_app, !fan_events_below by lia. cbn. by rewrite Hch.
      - cbn. by rewrite Hch. }
    rewrite !Hmid by done. reflexivity.
  - exists A6. unfold s7. store_simpl. split; [done|]. by rewrite HpA6.
  - unfold s7. store_simpl. destruct Ht6 as [_ ->]. unfold s5, s4. store_simpl.
    rewrite lookup_insert_ne by congruence. rewrite Ha3. unfold s2. store_simpl.
    apply lookup_insert_eq.
  - unfold s7. store_simpl. destruct Ht6 as [_ ->]. unfold s5. store_simpl.
    apply lookup_insert_eq.
Qed.

Lemma set_parent_messages_witness :
  exists s' new,
    set_parent (sendMessage 4) 1%nat (Some 2%nat) attached_pair = Ret tt s' /\
    trace s' = trace attached_pair ++ new /\
    new = [Sent 0 0%nat (ChildMessage "child-removed" 1%nat);
           Sent 1 1%nat (Msg "before-detach");
           Removed (WidgetNode 0%nat) 1%nat;
           Sent 1 1%nat (Msg "after-detach");
           Sent 0 2%nat (ChildMessage "child-added" 1%nat);
           Appended (WidgetNode 2%nat) 1%nat;
           Sent 0 1%nat (Msg "parent-changed")] /\
    List.filter (at_depth 0) new =
      [Sent 0 0%nat (ChildMessage "child-removed" 1%nat);
       Sent 0 2%nat (ChildMessage "child-added" 1%nat);
       Sent 0 1%nat (Msg "parent-changed")].
Proof.
  edestruct (set_parent_messages 4 1%nat 0%nat 2%nat) with (s := attached_pair)
    (t := Node 1%nat []) as [_ (s' & new & Hrun & Htr & Hnew & Hf & _)].
  - vm_compute. reflexivity.
  - vm_compute. reflexivity.
  - vm_compute. reflexivity.
  - reflexivity.
  - lia.
  - reflexivity.
  - reflexivity.
  - reflexivity.
  - reflexivity.
  - vm_compute. reflexivity.
  - vm_compute. reflexivity.
  - apply own_arrays_reflect. vm_compute. reflexivity.
  - reflexivity.
  - vm_compute. reflexivity.
  - apply (bool_decide_unpack _). vm_compute. reflexivity.
  - intros H. apply list_elem_of_In in H. simpl in H. lia.
  - intros H. apply list_elem_of_In in H. simpl in H. lia.
  - vm_compute. lia.
  - exists s', new. split_and!; [exact Hrun | exact Htr | | exact Hf].
    rewrite Hnew. vm_compute. reflexivity.
Defined.

(** ** Disposal *)


















Lemma modify_bind {B} (f : State -> State) (k : unit -> M B) s :
  (modify f ≫= k) s = k tt (f s).
Proof. reflexivity. Qed.

Lemma bind_assoc {A B C} (m : M A) (n : A -> M B) (k : B -> M C) s :
  ((m ≫= n) ≫= k) s = (m ≫= fun a => n a ≫= k) s.
Proof. unfold mbind, M_bind. by destruct (m s). Qed.
























(** ** The visibility invariant and the parent setter *)

(** C1: the invariant does not survive the parent setter.  With [a]
    attached to a host as a root and [b] a fresh widget, both satisfy the
    invariant; [a.parent = b] returns, and afterwards [a] is still flagged
    attached and visible, its parent is [b], [b] is neither attached nor
    visible, and the node of [a] sits in the node of [b], outside the
    host.  The setter never looks at the flags of the widget it moves;
    [dispose] detaches an attached root before going on. *)
Theorem set_parent_keeps_root_flags :
  attach 3 0%nat 7%nat two_widgets = Ret tt attached_root /\
  visible_ok attached_root 0%nat = true /\
  visible_ok attached_root 1%nat = true /\
  exists s',
    set_parent (sendMessage 3) 0%nat (Some 1%nat) attached_root = Ret tt s' /\
    flag_of s' 0%nat IsVisible = true /\
    flag_of s' 0%nat IsAttached = true /\
    parent_is s' 0%nat (Some 1%nat) = true /\
    flag_of s' 1%nat IsVisible = false /\
    flag_of s' 1%nat IsAttached = false /\
    node_inside s' 0%nat 1%nat = true /\
    visible_ok s' 0%nat = false.
Proof.
  split_and!; [vm_compute; reflexivity..|].
  eexists. split; [vm_compute; reflexivity|].
  split_and!; vm_compute; reflexivity.
Qed.

(** ** The size policy *)

Ltac pows :=
  change (2 ^ 15) with 32768 in *; change (2 ^ 16) with 65536 in *;
  change (2 ^ 31) with 2147483648 in *; change (2 ^ 32) with 4294967296 in *.

Lemma ToInt32_range z : - 2 ^ 31 <= ToInt32 z < 2 ^ 31.
Proof. unfold ToInt32. pose proof (Z.mod_pos_bound (z + 2 ^ 31) (2 ^ 32)). lia. Qed.

Lemma pack_int32 h v :
  - 2 ^ 15 <= h < 2 ^ 15 -> 0 <= v < 2 ^ 16 ->
  js_or (js_shl h 16) v = h * 2 ^ 16 + v.
Proof.
  intros Hh Hv. unfold js_or, js_shl.
  change (Z.land 16 31) with 16.
  rewrite (ToInt32_small h) by (pows; lia).
  rewrite Z.shiftl_mul_pow2 by lia.
  rewrite (ToInt32_small (h * 2 ^ 16)) by (pows; lia).
  assert (Hland : Z.land (h * 2 ^ 16) v = 0).
  { apply Z.bits_inj'. intros n Hn. rewrite Z.land_spec, Z.bits_0.
    destruct (Z.lt_ge_cases n 16) as [Hlt | Hge].
    - rewrite Z.mul_pow2_bits_low by lia. done.
    - destruct (Z.eq_dec v 0) as [-> | Hv0]; [by rewrite Z.bits_0, andb_false_r|].
      rewrite (Z.bits_above_log2 v n); [by rewrite andb_false_r | lia |].
      apply Z.log2_lt_pow2; [lia|].
      apply Z.lt_le_trans with (2 ^ 16); [lia|]. apply Z.pow_le_mono_r; lia. }
  rewrite <- Z.lxor_lor by done. rewrite <- Z.add_nocarry_lxor by done.
  apply ToInt32_small. pows. lia.
Qed.

Lemma unpack_high p : - 2 ^ 15 <= js_sar p 16 < 2 ^ 15.
Proof.
  unfold js_sar. change (Z.land 16 31) with 16. rewrite Z.shiftr_div_pow2 by lia.
  pose proof (ToInt32_range p) as H. pows.
  split.
  - apply Z.div_le_lower_bound; lia.
  - apply Z.div_lt_upper_bound; lia.
Qed.

Lemma unpack_low p : 0 <= js_and p 65535 < 2 ^ 16.
Proof.
  unfold js_and. change 65535 with (Z.ones 16). rewrite Z.land_ones by lia.
  pose proof (Z.mod_pos_bound p (2 ^ 16)).
  rewrite ToInt32_small; pows; lia.
Qed.

Lemma unpack_packed h v :
  - 2 ^ 15 <= h < 2 ^ 15 -> 0 <= v < 2 ^ 16 ->
  js_sar (h * 2 ^ 16 + v) 16 = h /\ js_and (h * 2 ^ 16 + v) 65535 = v.
Proof.
  intros Hh Hv. split.
  - unfold js_sar. change (Z.land 16 31) with 16.
    rewrite ToInt32_small by (pows; lia). rewrite Z.shiftr_div_pow2 by lia.
    rewrite Z.add_comm, Z.div_add by lia. rewrite Z.div_small; lia.
  - unfold js_and. change 65535 with (Z.ones 16). rewrite Z.land_ones by lia.
    rewrite Z.add_comm, Z.mod_add by lia. rewrite Z.mod_small by lia.
    apply ToInt32_small. pows. lia.
Qed.

Lemma bubble_widgets ps : forall s, widgets (bubble ps s) = widgets s.
Proof.
  induction ps as [|p ps IH]; intros s; cbn [bubble]; [done|].
  destruct (layout_of s p); [done|].
  destruct (flag_of _ p IsHidden); [apply postMessage_widgets|].
  rewrite IH. apply postMessage_widgets.
Qed.

Lemma with_sizePolicy_same W : with_sizePolicy (_sizePolicy W) W = W.
Proof. by destruct W. Qed.

Lemma setSizePolicy_store fuel this W ps h v s :
  widgets s !! this = Some W -> is_chain s this ps = true -> (length ps < fuel)%nat ->
  - 2 ^ 15 <= h < 2 ^ 15 -> 0 <= v < 2 ^ 16 ->
  exists s',
    setSizePolicy fuel this h v s = Ret tt s' /\
    widgets s' = <[this := with_sizePolicy (h * 2 ^ 16 + v) W]> (widgets s).
Proof.
  intros HW Hchain Hfuel Hh Hv. unfold setSizePolicy. rewrite (pack_int32 h v Hh Hv).
  rewrite (bind_run _ _ _ _ _ (getWidget_run _ _ _ HW)).
  destruct (decide (h * 2 ^ 16 + v <> _sizePolicy W)) as [Hne | Heq].
  - rewrite (bind_run _ _ _ _ _ (updWidget_run _ _ _ _ HW)).
    set (s1 := set_widgets _ s).
    assert (Hchain1 : is_chain s1 this ps = true).
    { rewrite (is_chain_ext s s1); [done|]. unfold s1. store_simpl.
      rewrite fmap_insert. apply insert_id. by rewrite lookup_fmap, HW. }
    rewrite (updateGeometry_run ps fuel this false s1 Hchain1 Hfuel).
    eexists. split; [reflexivity|].
    destruct ps; [done|]. destruct (_ && _); [done|]. by rewrite bubble_widgets.
  - exists s. split; [done|].
    assert (E : h * 2 ^ 16 + v = _sizePolicy W) by (destruct (decide (h * 2 ^ 16 + v = _sizePolicy W)); tauto).
    rewrite E, with_sizePolicy_same. symmetry. by apply insert_id.
Qed.

(** X1: for a horizontal policy that fits 16 signed bits and a vertical one
    that fits 16 unsigned bits, [setSizePolicy] returns, the two getters
    then give back exactly the two policies, no other widget is written,
    and the same call once more leaves the store as it is. *)
Theorem sizePolicy_round_trip fuel this W ps h v s :
  widgets s !! this = Some W -> is_chain s this ps = true -> (length ps < fuel)%nat ->
  - 2 ^ 15 <= h < 2 ^ 15 -> 0 <= v < 2 ^ 16 ->
  exists s',
    setSizePolicy fuel this h v s = Ret tt s' /\
    horizontalSizePolicy this s' = Ret h s' /\
    verticalSizePolicy this s' = Ret v s' /\
    (forall x, x <> this -> widgets s' !! x = widgets s !! x) /\
    setSizePolicy fuel this h v s' = Ret tt s'.
Proof.
  intros HW Hchain Hfuel Hh Hv.
  destruct (setSizePolicy_store fuel this W ps h v s HW Hchain Hfuel Hh Hv)
    as (s' & Hrun & Hws).
  assert (HW' : widgets s' !! this = Some (with_sizePolicy (h * 2 ^ 16 + v) W))
    by (rewrite Hws; apply lookup_insert_eq).
  destruct (unpack_packed h v Hh Hv) as [Hhi Hlo].
  exists s'. split_and!.
  - exact Hrun.
  - unfold horizontalSizePolicy. rewrite (bind_run _ _ _ _ _ (getWidget_run _ _ _ HW')).
    cbn. by rewrite Hhi.
  - unfold verticalSizePolicy. rewrite (bind_run _ _ _ _ _ (getWidget_run _ _ _ HW')).
    cbn. by rewrite Hlo.
  - intros x Hx. rewrite Hws. by apply lookup_insert_ne.
  - unfold setSizePolicy. rewrite (pack_int32 h v Hh Hv).
    rewrite (bind_run _ _ _ _ _ (getWidget_run _ _ _ HW')). cbn [_sizePolicy with_sizePolicy].
    by rewrite decide_False by (intros H; by apply H).
Qed.

Lemma sizePolicy_round_trip_witness :
  exists s',
    setSizePolicy 1 0%nat 3 5 one_widget = Ret tt s' /\
    horizontalSizePolicy 0%nat s' = Ret 3 s' /\
    verticalSizePolicy 0%nat s' = Ret 5 s'.
Proof.
  edestruct (sizePolicy_round_trip 1 0%nat (plain_widget 0%nat) [] 3 5 one_widget)
    as (s' & Hrun & Hh & Hv & _).
  - vm_compute. reflexivity.
  - vm_compute. reflexivity.
  - simpl. lia.
  - lia.
  - lia.
  - exists s'. by split_and!.
Defined.

(** X2: the setter of one policy keeps the other, whatever word is stored:
    after [horizontalSizePolicy = p], with [p] in 16 signed bits, the
    horizontal getter gives [p] and the vertical one what it gave before;
    after [verticalSizePolicy = p], with [p] in 16 unsigned bits, the
    vertical getter gives [p] and the horizontal one what it gave before. *)
Theorem sizePolicy_setters_keep_other_half fuel this W ps p s :
  widgets s !! this = Some W -> is_chain s this ps = true -> (length ps < fuel)%nat ->
  (- 2 ^ 15 <= p < 2 ^ 15 ->
   exists old s',
     verticalSizePolicy this s = Ret old s /\
     set_horizontalSizePolicy fuel this p s = Ret tt s' /\
     horizontalSizePolicy this s' = Ret p s' /\
     verticalSizePolicy this s' = Ret old s') /\
  (0 <= p < 2 ^ 16 ->
   exists old s',
     horizontalSizePolicy this s = Ret old s /\
     set_verticalSizePolicy fuel this p s = Ret tt s' /\
     verticalSizePolicy this s' = Ret p s' /\
     horizontalSizePolicy this s' = Ret old s').
Proof.
  intros HW Hchain Hfuel. split; intros Hp.
  - pose proof (unpack_low (_sizePolicy W)) as Hold.
    destruct (setSizePolicy_store fuel this W ps p _ s HW Hchain Hfuel Hp Hold)
      as (s' & Hrun & Hws).
    assert (HW' : widgets s' !! this = Some (with_sizePolicy
              (p * 2 ^ 16 + js_and (_sizePolicy W) 65535) W))
      by (rewrite Hws; apply lookup_insert_eq).
    destruct (unpack_packed p _ Hp Hold) as [Hhi Hlo].
    exists (js_and (_sizePolicy W) 65535), s'. split_and!.
    + unfold verticalSizePolicy. by rewrite (bind_run _ _ _ _ _ (getWidget_run _ _ _ HW)).
    + unfold set_horizontalSizePolicy, verticalSizePolicy.
      rewrite bind_assoc, (bind_run _ _ _ _ _ (getWidget_run _ _ _ HW)). exact Hrun.
    + unfold horizontalSizePolicy. rewrite (bind_run _ _ _ _ _ (getWidget_run _ _ _ HW')).
      cbn. by rewrite Hhi.
    + unfold verticalSizePolicy. rewrite (bind_run _ _ _ _ _ (getWidget_run _ _ _ HW')).
      cbn. by rewrite Hlo.
  - pose proof (unpack_high (_sizePolicy W)) as Hold.
    destruct (setSizePolicy_store fuel this W ps _ p s HW Hchain Hfuel Hold Hp)
      as (s' & Hrun & Hws).
    assert (HW' : widgets s' !! this = Some (with_sizePolicy
              (js_sar (_sizePolicy W) 16 * 2 ^ 16 + p) W))
      by (rewrite Hws; apply lookup_insert_eq).
    destruct (unpack_packed _ p Hold Hp) as [Hhi Hlo].
    exists (js_sar (_sizePolicy W) 16), s'. split_and!.
    + unfold horizontalSizePolicy. by rewrite (bind_run _ _ _ _ _ (getWidget_run _ _ _ HW)).
    + unfold set_verticalSizePolicy, horizontalSizePolicy.
      rewrite bind_assoc, (bind_run _ _ _ _ _ (getWidget_run _ _ _ HW)). exact Hrun.
    + unfold verticalSizePolicy. rewrite (bind_run _ _ _ _ _ (getWidget_run _ _ _ HW')).
      cbn. by rewrite Hlo.
    + unfold horizontalSizePolicy. rewrite (bind_run _ _ _ _ _ (getWidget_run _ _ _ HW')).
      cbn. by rewrite Hhi.
Qed.

Lemma sizePolicy_setters_keep_other_half_witness :
  exists old s',
    verticalSizePolicy 0%nat one_widget = Ret old one_widget /\
    set_horizontalSizePolicy 1 0%nat 9 one_widget = Ret tt s' /\
    horizontalSizePolicy 0%nat s' = Ret 9 s' /\
    verticalSizePolicy 0%nat s' = Ret old s'.
Proof.
  edestruct (sizePolicy_setters_keep_other_half 1 0%nat (plain_widget 0%nat) [] 9 one_widget)
    as [H _].
  - vm_compute. reflexivity.
  - vm_compute. reflexivity.
  - simpl. lia.
  - apply H. lia.
Defined.

(** ** The cached box *)

Lemma requests_after_post p h s :
  layout_requests (queues (exec (postMessage p (Msg "layout-request")) s) !!! h) =
  if decide (h = p) then Nat.max 1 (layout_requests (queues s !!! h))
  else layout_requests (queues s !!! h).
Proof.
  unfold exec, postMessage. rewrite compress_request_iff.
  destruct (layout_requests (queues s !!! p) =? 0)%nat eqn:E; cbn [negb]; store_simpl.
  - apply Nat.eqb_eq in E. destruct (decide (h = p)) as [-> | Hne].
    + rewrite lookup_total_insert_eq, layout_requests_app, E. done.
    + by rewrite lookup_total_insert_ne.
  - apply Nat.eqb_neq in E. destruct (decide (h = p)) as [-> | Hne]; [lia | done].
Qed.

Lemma bubble_requests ps h : forall s,
  (layout_requests (queues s !!! h) <= layout_requests (queues (bubble ps s) !!! h) /\
   layout_requests (queues (bubble ps s) !!! h) <=
     Nat.max 1 (layout_requests (queues s !!! h)))%nat.
Proof.
  induction ps as [|p ps IH]; intros s; cbn [bubble]; [lia|].
  destruct (layout_of s p); [cbn; lia|].
  pose proof (requests_after_post p h s) as Hp.
  destruct (flag_of _ p IsHidden).
  - rewrite Hp. destruct (decide (h = p)); lia.
  - specialize (IH (exec (postMessage p (Msg "layout-request")) s)).
    rewrite Hp in IH. destruct (decide (h = p)); lia.
Qed.

Lemma bubble_trace ps : forall s, exists tr, trace (bubble ps s) = trace s ++ tr.
Proof.
  induction ps as [|p ps IH]; intros s; cbn [bubble]; [exists []; by rewrite app_nil_r|].
  destruct (layout_of s p); [by eexists|].
  assert (H1 : exists tr, trace (exec (postMessage p (Msg "layout-request")) s) = trace s ++ tr).
  { unfold exec, postMessage. destruct (compressMessage _ _); [exists []; by rewrite app_nil_r|].
    by eexists. }
  destruct H1 as [tr1 H1]. destruct (flag_of _ p IsHidden); [by exists tr1|].
  destruct (IH (exec (postMessage p (Msg "layout-request")) s)) as [tr2 H2].
  exists (tr1 ++ tr2). by rewrite H2, H1, app_assoc.
Qed.

(** X3: [boxSizing()] reads the box off the node once: with a box cached
    it returns that box and writes nothing; without one it returns what
    [createBoxSizing] reads, stores it in the widget and nowhere else, and
    from then on returns the same box without writing, whatever is done
    to the node in between; without a box and without a node it throws a
    TypeError. *)
Theorem boxSizing_reads_once this W s :
  widgets s !! this = Some W ->
  (forall box, _boxSizing W = Some box -> boxSizing this s = Ret box s) /\
  (forall nd, _boxSizing W = None -> _node W = Some nd ->
     exists s',
       boxSizing this s = Ret (createBoxSizing nd) s' /\
       widgets s' = <[this := with_boxSizing (Some (createBoxSizing nd)) W]> (widgets s) /\
       same_heap s s' /\ trace s' = trace s /\
       boxSizing this s' = Ret (createBoxSizing nd) s' /\
       forall f, exists s'',
         updNode this f s' = Ret tt s'' /\
         boxSizing this s'' = Ret (createBoxSizing nd) s'') /\
  (_boxSizing W = None -> _node W = None -> boxSizing this s = Throw TypeError s).
Proof.
  intros HW. split_and!.
  - intros box Hb. unfold boxSizing.
    rewrite (bind_run _ _ _ _ _ (getWidget_run _ _ _ HW)). by rewrite Hb.
  - intros nd Hb Hn.
    set (W1 := with_boxSizing (Some (createBoxSizing nd)) W).
    set (s1 := set_widgets (insert this W1) s).
    assert (HW1 : widgets s1 !! this = Some W1) by apply lookup_insert_eq.
    assert (Hagain : forall σ Wσ, widgets σ !! this = Some Wσ ->
              _boxSizing Wσ = Some (createBoxSizing nd) ->
              boxSizing this σ = Ret (createBoxSizing nd) σ).
    { intros σ Wσ Hσ Hbσ. unfold boxSizing.
      rewrite (bind_run _ _ _ _ _ (getWidget_run _ _ _ Hσ)). by rewrite Hbσ. }
    exists s1. split_and!; try done.
    + unfold boxSizing. rewrite (bind_run _ _ _ _ _ (getWidget_run _ _ _ HW)), Hb, Hn.
      cbn [nonnull]. rewrite mret_bind.
      rewrite (bind_run _ _ _ _ _ (updWidget_run _ _ _ _ HW)). fold W1 s1.
      by rewrite (bind_run _ _ _ _ _ (getWidget_run _ _ _ HW1)).
    + by apply (Hagain s1 W1).
    + intros f. eexists. split.
      * apply (updNode_run this f W1 nd s1 HW1). done.
      * eapply Hagain; [apply lookup_insert_eq | done].
  - intros Hb Hn. unfold boxSizing.
    rewrite (bind_run _ _ _ _ _ (getWidget_run _ _ _ HW)). by rewrite Hb, Hn.
Qed.

Lemma boxSizing_reads_once_witness :
  exists s',
    boxSizing 0%nat one_widget = Ret plain_sheet s' /\
    boxSizing 0%nat s' = Ret plain_sheet s'.
Proof.
  edestruct (boxSizing_reads_once 0%nat (plain_widget 0%nat) one_widget) as (_ & H & _).
  - vm_compute. reflexivity.
  - edestruct (H plain_node) as (s' & H1 & _ & _ & _ & H2 & _).
    + reflexivity.
    + reflexivity.
    + exists s'. split; [exact H1 | exact H2].
Defined.

(** X4: [invalidateBoxData()] drops the cached box, so that the next
    [boxSizing()] reads the node again; no other field of any widget is
    written.  With a layout installed the layout is invalidated first;
    without one a layout-request is posted to the widget itself unless one
    is pending already, so that afterwards exactly one more than none, or
    as many as before, are pending for it. *)
Theorem invalidateBoxData_drops_cache fuel this W nd ps s :
  widgets s !! this = Some W -> _node W = Some nd ->
  is_chain s this ps = true -> (length ps < fuel)%nat ->
  exists s',
    invalidateBoxData fuel this s = Ret tt s' /\
    widgets s' = <[this := with_boxSizing None W]> (widgets s) /\
    (exists s'', boxSizing this s' = Ret (createBoxSizing nd) s'') /\
    (forall l, _layout W = Some l ->
       exists tr, trace s' = trace s ++ Invalidated l :: tr) /\
    (_layout W = None ->
       layout_requests (queues s' !!! this) =
         Nat.max 1 (layout_requests (queues s !!! this))).
Proof.
  intros HW Hn Hchain Hfuel. unfold invalidateBoxData.
  rewrite (bind_run _ _ _ _ _ (updWidget_run _ _ _ _ HW)).
  set (W1 := with_boxSizing None W). set (s1 := set_widgets (insert this W1) s).
  assert (HW1 : widgets s1 !! this = Some W1) by apply lookup_insert_eq.
  rewrite (bind_run _ _ _ _ _ (getWidget_run _ _ _ HW1)). cbn [_layout W1 with_boxSizing].
  assert (Hl1 : links <$> widgets s1 = links <$> widgets s).
  { unfold s1. store_simpl. rewrite fmap_insert. apply insert_id.
    by rewrite lookup_fmap, HW. }
  assert (Hbox : forall σ, widgets σ = widgets s1 ->
            exists s'', boxSizing this σ = Ret (createBoxSizing nd) s'').
  { intros σ Hσ. unfold boxSizing.
    erewrite bind_run; [| apply getWidget_run; rewrite Hσ; exact HW1].
    cbn [_boxSizing _node W1 with_boxSizing]. rewrite Hn. cbn [nonnull]. rewrite mret_bind.
    erewrite bind_run; [| apply updWidget_run; rewrite Hσ; exact HW1].
    erewrite bind_run; [| apply getWidget_run; store_simpl; apply lookup_insert_eq].
    by eexists. }
  destruct (_layout W) as [l|] eqn:Hlay.
  - unfold layout_invalidate, log. rewrite modify_bind.
    set (s2 := set_trace _ s1).
    rewrite (updateGeometry_run ps fuel this false s2); [| by rewrite (is_chain_ext s s2) | done].
    eexists. split; [reflexivity|].
    assert (Hfinal : forall σ, (σ = s2 \/ σ = bubble ps s2) ->
              widgets σ = widgets s1 /\ exists tr, trace σ = trace s ++ Invalidated l :: tr).
    { intros σ [-> | ->].
      - split; [done|]. by exists [].
      - split; [by rewrite bubble_widgets|]. destruct (bubble_trace ps s2) as [tr Htr].
        exists tr. rewrite Htr. unfold s2, s1. store_simpl. by rewrite <- app_assoc. }
    assert (Hs : forall σ, (σ = s2 \/ σ = bubble ps s2) ->
       widgets σ = <[this := W1]> (widgets s) /\
       (exists s'', boxSizing this σ = Ret (createBoxSizing nd) s'') /\
       (forall l0, Some l = Some l0 -> exists tr, trace σ = trace s ++ Invalidated l0 :: tr) /\
       (Some l = None -> layout_requests (queues σ !!! this) =
                         Nat.max 1 (layout_requests (queues s !!! this)))).
    { intros σ Hσ. destruct (Hfinal σ Hσ) as [Hw Htr]. split_and!.
      - by rewrite Hw.
      - by apply Hbox.
      - by intros l0 [= <-].
      - done. }
    destruct ps; [apply Hs; by left|].
    destruct (_ && _); apply Hs; auto.
  - rewrite (bind_run _ _ _ _ _ (postMessage_run _ _ _)).
    set (s2 := exec _ s1).
    assert (Hw2 : widgets s2 = widgets s1) by apply postMessage_widgets.
    rewrite (updateGeometry_run ps fuel this false s2);
      [| rewrite (is_chain_ext s s2); [done | by rewrite Hw2] | done].
    eexists. split; [reflexivity|].
    pose proof (requests_after_post this this s1) as Hreq. fold s2 in Hreq.
    rewrite decide_True in Hreq by done.
    assert (Hs : forall σ, (σ = s2 \/ σ = bubble ps s2) ->
       widgets σ = <[this := W1]> (widgets s) /\
       (exists s'', boxSizing this σ = Ret (createBoxSizing nd) s'') /\
       (forall l0, @None lid = Some l0 -> exists tr, trace σ = trace s ++ Invalidated l0 :: tr) /\
       (@None lid = None -> layout_requests (queues σ !!! this) =
                       Nat.max 1 (layout_requests (queues s !!! this)))).
    { intros σ Hσ.
      assert (Hw : widgets σ = widgets s1).
      { destruct Hσ as [-> | ->]; [exact Hw2 | by rewrite bubble_widgets]. }
      split_and!.
      - by rewrite Hw.
      - by apply Hbox.
      - done.
      - intros _. destruct Hσ as [-> | ->]; [exact Hreq|].
        pose proof (bubble_requests ps this s2) as Hb. rewrite Hreq in Hb.
        change (queues s1) with (queues s) in Hb. lia. }
    destruct ps; [apply Hs; by left|].
    destruct (_ && _); apply Hs; auto.
Qed.

Lemma invalidateBoxData_drops_cache_witness :
  exists s',
    invalidateBoxData 1 0%nat one_widget = Ret tt s' /\
    layout_requests (queues s' !!! 0%nat) = 1%nat.
Proof.
  edestruct (invalidateBoxData_drops_cache 1 0%nat (plain_widget 0%nat) plain_node []
               one_widget) as (s' & Hrun & _ & _ & _ & Hq).
  - vm_compute. reflexivity.
  - reflexivity.
  - vm_compute. reflexivity.
  - simpl. lia.
  - exists s'. split; [exact Hrun|].
    etrans; [apply Hq; reflexivity | vm_compute; reflexivity].
Defined.

(** ** Moving and resizing *)

Lemma setGeometry_run fuel this W nd x y width height s :
  widgets s !! this = Some W -> _node W = Some nd ->
  exists s',
    setGeometry (S fuel) this x y width height s = Ret tt s' /\
    widgets s' = <[this := geometry_result W nd x y width height]> (widgets s) /\
    same_heap s s' /\
    trace s' = trace s ++ geometry_sends (depth s) this W nd x y width height.
Proof.
  intros HW Hn.
  pose proof (setGeometry_spec fuel this W nd x y width height s HW Hn) as Hs.
  apply wp_returns in Hs as ([] & s' & Hrun & Hws & Hheap & Htr). by exists s'.
Qed.

Lemma strict_ne_same a : isNaN a = false -> strict_ne a a = false.
Proof. intros H. rewrite strict_ne_decide by done. by apply bool_decide_eq_false_2; intros ?. Qed.

Lemma clip_idem lo hi v :
  isNaN lo = false -> isNaN hi = false -> isNaN v = false ->
  clip lo hi (clip lo hi v) = clip lo hi v.
Proof.
  intros Hlo Hhi Hv. destruct lo, hi, v; try done; unfold clip, Math_max, Math_min; cbn;
    repeat (match goal with
            | |- context [(?a <=? ?b)] => destruct (Z.leb_spec a b); cbn
            end); try done; try lia; f_equal; lia.
Qed.

(** X5: [move(x, y)] on a widget whose stored size lies within the limits
    of its box writes the position and nothing else of the geometry, and
    delivers one move message if the position changed and no message
    otherwise; [x = v] and [y = v] likewise change that one coordinate.
    All numbers involved are taken not to be NaN. *)
Theorem move_changes_position_only fuel this W nd s :
  let box := geometry_box W nd in
  widgets s !! this = Some W -> _node W = Some nd ->
  isNaN (_x W) = false -> isNaN (_y W) = false ->
  isNaN (_width W) = false -> isNaN (_height W) = false ->
  clip (minWidth box) (maxWidth box) (_width W) = _width W ->
  clip (minHeight box) (maxHeight box) (_height W) = _height W ->
  (forall x y, isNaN x = false -> isNaN y = false ->
   exists s' W',
     move (S fuel) this x y s = Ret tt s' /\
     widgets s' !! this = Some W' /\
     _x W' = x /\ _y W' = y /\ _width W' = _width W /\ _height W' = _height W /\
     trace s' = trace s ++
       (if bool_decide (_x W <> x \/ _y W <> y)
        then [Sent (depth s) this (MoveMessage (_x W) (_y W) x y)] else [])) /\
  (forall x, isNaN x = false ->
   exists s' W',
     set_x (S fuel) this x s = Ret tt s' /\
     widgets s' !! this = Some W' /\
     _x W' = x /\ _y W' = _y W /\ _width W' = _width W /\ _height W' = _height W /\
     trace s' = trace s ++
       (if bool_decide (_x W <> x)
        then [Sent (depth s) this (MoveMessage (_x W) (_y W) x (_y W))] else [])) /\
  (forall y, isNaN y = false ->
   exists s' W',
     set_y (S fuel) this y s = Ret tt s' /\
     widgets s' !! this = Some W' /\
     _x W' = _x W /\ _y W' = y /\ _width W' = _width W /\ _height W' = _height W /\
     trace s' = trace s ++
       (if bool_decide (_y W <> y)
        then [Sent (depth s) this (MoveMessage (_x W) (_y W) (_x W) y)] else [])).
Proof.
  intros box HW Hn Hx0 Hy0 Hw0 Hh0 Hcw Hch.
  assert (Hmove : forall x y, isNaN x = false -> isNaN y = false ->
    exists s' W',
      move (S fuel) this x y s = Ret tt s' /\
      widgets s' !! this = Some W' /\
      _x W' = x /\ _y W' = y /\ _width W' = _width W /\ _height W' = _height W /\
      trace s' = trace s ++
        (if bool_decide (_x W <> x \/ _y W <> y)
         then [Sent (depth s) this (MoveMessage (_x W) (_y W) x y)] else [])).
  { intros x y Hx Hy.
    destruct (setGeometry_run fuel this W nd x y (_width W) (_height W) s HW Hn)
      as (s' & Hrun & Hws & _ & Htr).
    exists s', (geometry_result W nd x y (_width W) (_height W)). split_and!.
    - unfold move. by rewrite (bind_run _ _ _ _ _ (getWidget_run _ _ _ HW)).
    - rewrite Hws. apply lookup_insert_eq.
    - done.
    - done.
    - cbn. exact Hcw.
    - cbn. exact Hch.
    - rewrite Htr. rewrite geometry_sends_messages; fold box; rewrite ?Hcw, ?Hch; try done.
      unfold geometry_messages. fold box. rewrite Hcw, Hch.
      rewrite (bool_decide_eq_false_2 (_width W <> _width W \/ _height W <> _height W))
        by (intros [|]; done).
      by rewrite app_nil_r. }
  split_and!.
  - exact Hmove.
  - intros x Hx. destruct (Hmove x (_y W) Hx Hy0) as (s' & W' & Hrun & HW' & ? & ? & ? & ? & Htr).
    exists s', W'. split_and!; try done.
    + unfold set_x. by rewrite (bind_run _ _ _ _ _ (getWidget_run _ _ _ HW)).
    + rewrite Htr. f_equal. erewrite bool_decide_ext; [reflexivity|]. tauto.
  - intros y Hy. destruct (Hmove (_x W) y Hx0 Hy) as (s' & W' & Hrun & HW' & ? & ? & ? & ? & Htr).
    exists s', W'. split_and!; try done.
    + unfold set_y. by rewrite (bind_run _ _ _ _ _ (getWidget_run _ _ _ HW)).
    + rewrite Htr. f_equal. erewrite bool_decide_ext; [reflexivity|]. tauto.
Qed.

Lemma move_changes_position_only_witness :
  exists s' W',
    set_x 1 0%nat (Fin 5) one_widget = Ret tt s' /\
    widgets s' !! 0%nat = Some W' /\
    _x W' = Fin 5 /\ _y W' = Fin 0 /\ _width W' = Fin 0 /\ _height W' = Fin 0 /\
    trace s' = [Sent 0 0%nat (MoveMessage (Fin 0) (Fin 0) (Fin 5) (Fin 0))].
Proof.
  edestruct (move_changes_position_only 0 0%nat (plain_widget 0%nat) plain_node one_widget)
    as (_ & H & _).
  - vm_compute. reflexivity.
  - reflexivity.
  - reflexivity.
  - reflexivity.
  - reflexivity.
  - reflexivity.
  - reflexivity.
  - reflexivity.
  - destruct (H (Fin 5) eq_refl) as (s' & W' & ? & ? & ? & ? & ? & ? & Htr).
    exists s', W'. split_and!; try done.
Defined.

(** X6: [resize(width, height)] keeps the position: it stores the clipped
    size and delivers one resize message if the stored size changed and no
    message otherwise, never a move; [width = v] and [height = v] change
    that one extent when the other lies within its limits.  All numbers
    involved are taken not to be NaN. *)
Theorem resize_changes_size_only fuel this W nd s :
  let box := geometry_box W nd in
  widgets s !! this = Some W -> _node W = Some nd ->
  isNaN (_x W) = false -> isNaN (_y W) = false ->
  isNaN (_width W) = false -> isNaN (_height W) = false ->
  isNaN (minWidth box) = false -> isNaN (maxWidth box) = false ->
  isNaN (minHeight box) = false -> isNaN (maxHeight box) = false ->
  (forall width height, isNaN width = false -> isNaN height = false ->
   let w := clip (minWidth box) (maxWidth box) width in
   let h := clip (minHeight box) (maxHeight box) height in
   exists s' W',
     resize (S fuel) this width height s = Ret tt s' /\
     widgets s' !! this = Some W' /\
     _x W' = _x W /\ _y W' = _y W /\ _width W' = w /\ _height W' = h /\
     trace s' = trace s ++
       (if bool_decide (_width W <> w \/ _height W <> h)
        then [Sent (depth s) this (ResizeMessage (_width W) (_height W) w h)] else [])) /\
  (forall width, isNaN width = false ->
   clip (minHeight box) (maxHeight box) (_height W) = _height W ->
   let w := clip (minWidth box) (maxWidth box) width in
   exists s' W',
     set_width (S fuel) this width s = Ret tt s' /\
     widgets s' !! this = Some W' /\
     _x W' = _x W /\ _y W' = _y W /\ _width W' = w /\ _height W' = _height W /\
     trace s' = trace s ++
       (if bool_decide (_width W <> w)
        then [Sent (depth s) this (ResizeMessage (_width W) (_height W) w (_height W))]
        else [])) /\
  (forall height, isNaN height = false ->
   clip (minWidth box) (maxWidth box) (_width W) = _width W ->
   let h := clip (minHeight box) (maxHeight box) height in
   exists s' W',
     set_height (S fuel) this height s = Ret tt s' /\
     widgets s' !! this = Some W' /\
     _x W' = _x W /\ _y W' = _y W /\ _width W' = _width W /\ _height W' = h /\
     trace s' = trace s ++
       (if bool_decide (_height W <> h)
        then [Sent (depth s) this (ResizeMessage (_width W) (_height W) (_width W) h)]
        else [])).
Proof.
  intros box HW Hn Hx0 Hy0 Hw0 Hh0 Hminw Hmaxw Hminh Hmaxh.
  assert (Hresize : forall width height, isNaN width = false -> isNaN height = false ->
    exists s' W',
      resize (S fuel) this width height s = Ret tt s' /\
      widgets s' !! this = Some W' /\
      _x W' = _x W /\ _y W' = _y W /\
      _width W' = clip (minWidth box) (maxWidth box) width /\
      _height W' = clip (minHeight box) (maxHeight box) height /\
      trace s' = trace s ++
        (if bool_decide (_width W <> clip (minWidth box) (maxWidth box) width \/
                         _height W <> clip (minHeight box) (maxHeight box) height)
         then [Sent (depth s) this
                 (ResizeMessage (_width W) (_height W)
                    (clip (minWidth box) (maxWidth box) width)
                    (clip (minHeight box) (maxHeight box) height))] else [])).
  { intros width height Hwd Hht.
    destruct (setGeometry_run fuel this W nd (_x W) (_y W) width height s HW Hn)
      as (s' & Hrun & Hws & _ & Htr).
    exists s', (geometry_result W nd (_x W) (_y W) width height). split_and!; try done.
    - unfold resize. by rewrite (bind_run _ _ _ _ _ (getWidget_run _ _ _ HW)).
    - rewrite Hws. apply lookup_insert_eq.
    - rewrite Htr. rewrite geometry_sends_messages; fold box; try done;
        try by apply clip_not_NaN.
      unfold geometry_messages. fold box.
      by rewrite (bool_decide_eq_false_2 (_x W <> _x W \/ _y W <> _y W))
        by (intros [|]; done). }
  split_and!.
  - exact Hresize.
  - intros width Hwd Hch w.
    destruct (Hresize width (_height W) Hwd Hh0) as (s' & W' & Hrun & HW' & ? & ? & ? & Hh' & Htr).
    rewrite Hch in Hh', Htr.
    exists s', W'. split_and!; try done.
    + unfold set_width. by rewrite (bind_run _ _ _ _ _ (getWidget_run _ _ _ HW)).
    + rewrite Htr. f_equal. erewrite bool_decide_ext; [reflexivity|]. tauto.
  - intros height Hht Hcw h.
    destruct (Hresize (_width W) height Hw0 Hht) as (s' & W' & Hrun & HW' & ? & ? & Hw' & ? & Htr).
    rewrite Hcw in Hw', Htr.
    exists s', W'. split_and!; try done.
    + unfold set_height. by rewrite (bind_run _ _ _ _ _ (getWidget_run _ _ _ HW)).
    + rewrite Htr. f_equal. erewrite bool_decide_ext; [reflexivity|]. tauto.
Qed.

Lemma resize_changes_size_only_witness :
  exists s' W',
    resize 1 0%nat (Fin 3) (Fin 50) narrow_widget = Ret tt s' /\
    widgets s' !! 0%nat = Some W' /\
    _x W' = Fin 0 /\ _y W' = Fin 0 /\ _width W' = Fin 10 /\ _height W' = Fin 50 /\
    trace s' = [Sent 0 0%nat (ResizeMessage (Fin 0) (Fin 0) (Fin 10) (Fin 50))].
Proof.
  edestruct (resize_changes_size_only 0 0%nat
               (mkWidget (Some (mkElement None [WIDGET_CLASS] (mkStyle None None None None)
                                  narrow_sheet))
                         None None 0%nat 0 None (Fin 0) (Fin 0) (Fin 0) (Fin 0) 0)
               (mkElement None [WIDGET_CLASS] (mkStyle None None None None) narrow_sheet)
               narrow_widget) as (H & _).
  - vm_compute. reflexivity.
  - reflexivity.
  - reflexivity.
  - reflexivity.
  - reflexivity.
  - reflexivity.
  - reflexivity.
  - reflexivity.
  - reflexivity.
  - reflexivity.
  - destruct (H (Fin 3) (Fin 50) eq_refl eq_refl) as (s' & W' & ? & ? & ? & ? & ? & ? & Htr).
    exists s', W'. split_and!; try done.
Defined.

(** X7: [move(x, y)] passes the stored size through the clipping again, so
    on a widget whose stored size violates the limits of its box (a new
    widget whose style asks for a minimum size, say) it also stores the
    clipped size and delivers a resize message. *)
Theorem move_resizes_outside_limits fuel this W nd x y s :
  let box := geometry_box W nd in
  let w := clip (minWidth box) (maxWidth box) (_width W) in
  let h := clip (minHeight box) (maxHeight box) (_height W) in
  widgets s !! this = Some W -> _node W = Some nd ->
  isNaN x = false -> isNaN y = false -> isNaN w = false -> isNaN h = false ->
  _width W <> w \/ _height W <> h ->
  exists s' W',
    move (S fuel) this x y s = Ret tt s' /\
    widgets s' !! this = Some W' /\
    _width W' = w /\ _height W' = h /\
    Sent (depth s) this (ResizeMessage (_width W) (_height W) w h) ∈ trace s'.
Proof.
  intros box w h HW Hn Hx Hy Hw Hh Hout.
  destruct (setGeometry_run fuel this W nd x y (_width W) (_height W) s HW Hn)
    as (s' & Hrun & Hws & _ & Htr).
  exists s', (geometry_result W nd x y (_width W) (_height W)). split_and!; try done.
  - unfold move. by rewrite (bind_run _ _ _ _ _ (getWidget_run _ _ _ HW)).
  - rewrite Hws. apply lookup_insert_eq.
  - rewrite Htr, geometry_sends_messages by done.
    unfold geometry_messages. fold box w h.
    rewrite (bool_decide_eq_true_2 (_width W <> w \/ _height W <> h)) by done.
    rewrite !elem_of_app. right. right. apply list_elem_of_here.
Qed.

Lemma move_resizes_outside_limits_witness :
  exists s',
    move 1 0%nat (Fin 0) (Fin 0) narrow_widget = Ret tt s' /\
    Sent 0 0%nat (ResizeMessage (Fin 0) (Fin 0) (Fin 10) (Fin 20)) ∈ trace s'.
Proof.
  edestruct (move_resizes_outside_limits 0 0%nat
               (mkWidget (Some (mkElement None [WIDGET_CLASS] (mkStyle None None None None)
                                  narrow_sheet))
                         None None 0%nat 0 None (Fin 0) (Fin 0) (Fin 0) (Fin 0) 0)
               (mkElement None [WIDGET_CLASS] (mkStyle None None None None) narrow_sheet)
               (Fin 0) (Fin 0) narrow_widget) as (s' & W' & Hrun & _ & _ & _ & Hin).
  - vm_compute. reflexivity.
  - reflexivity.
  - reflexivity.
  - reflexivity.
  - reflexivity.
  - reflexivity.
  - left. vm_compute. discriminate.
  - exists s'. split; [exact Hrun | exact Hin].
Defined.

(** X8: [setGeometry] leaves a stored size that clipping no longer
    changes, so a [move] that follows it keeps that size and delivers a
    move message or nothing.  All numbers involved are taken not to be
    NaN. *)
Theorem move_after_setGeometry_keeps_size fuel this W nd x0 y0 width height x y s :
  let box := geometry_box W nd in
  let w := clip (minWidth box) (maxWidth box) width in
  let h := clip (minHeight box) (maxHeight box) height in
  widgets s !! this = Some W -> _node W = Some nd ->
  isNaN x0 = false -> isNaN y0 = false -> isNaN width = false -> isNaN height = false ->
  isNaN (minWidth box) = false -> isNaN (maxWidth box) = false ->
  isNaN (minHeight box) = false -> isNaN (maxHeight box) = false ->
  isNaN x = false -> isNaN y = false ->
  exists s1 s2 W2,
    setGeometry (S fuel) this x0 y0 width height s = Ret tt s1 /\
    move (S fuel) this x y s1 = Ret tt s2 /\
    widgets s2 !! this = Some W2 /\
    _x W2 = x /\ _y W2 = y /\ _width W2 = w /\ _height W2 = h /\
    trace s2 = trace s1 ++
      (if bool_decide (x0 <> x \/ y0 <> y)
       then [Sent (depth s) this (MoveMessage x0 y0 x y)] else []).
Proof.
  intros box w h HW Hn Hx0 Hy0 Hwd Hht Hminw Hmaxw Hminh Hmaxh Hx Hy.
  assert (Hcw : isNaN w = false) by by apply clip_not_NaN.
  assert (Hch : isNaN h = false) by by apply clip_not_NaN.
  destruct (setGeometry_run fuel this W nd x0 y0 width height s HW Hn)
    as (s1 & Hrun1 & Hws1 & Hheap1 & _).
  set (W1 := geometry_result W nd x0 y0 width height) in *.
  assert (HW1 : widgets s1 !! this = Some W1) by (rewrite Hws1; apply lookup_insert_eq).
  assert (exists nd1, _node W1 = Some nd1) as [nd1 Hn1] by (by eexists).
  destruct (setGeometry_run fuel this W1 nd1 x y (_width W1) (_height W1) s1 HW1 Hn1)
    as (s2 & Hrun2 & Hws2 & _ & Htr2).
  exists s1, s2, (geometry_result W1 nd1 x y (_width W1) (_height W1)). split_and!.
  - exact Hrun1.
  - unfold move. by rewrite (bind_run _ _ _ _ _ (getWidget_run _ _ _ HW1)).
  - rewrite Hws2. apply lookup_insert_eq.
  - done.
  - done.
  - cbn. fold box. by apply clip_idem.
  - cbn. fold box. by apply clip_idem.
  - rewrite Htr2. destruct Hheap1 as (_ & _ & _ & _ & ->).
    assert (Hbox1 : geometry_box W1 nd1 = box) by reflexivity.
    assert (Hcw1 : clip (minWidth box) (maxWidth box) w = w) by by apply clip_idem.
    assert (Hch1 : clip (minHeight box) (maxHeight box) h = h) by by apply clip_idem.
    rewrite geometry_sends_messages; rewrite ?Hbox1;
      change (_width W1) with w; change (_height W1) with h; rewrite ?Hcw1, ?Hch1;
      try done.
    unfold geometry_messages. rewrite Hbox1.
    change (_width W1) with w. change (_height W1) with h.
    change (_x W1) with x0. change (_y W1) with y0. rewrite Hcw1, Hch1.
    rewrite (bool_decide_eq_false_2 (w <> w \/ h <> h)) by (intros [|]; done).
    by rewrite app_nil_r.
Qed.

Lemma move_after_setGeometry_keeps_size_witness :
  exists s1 s2 W2,
    setGeometry 1 0%nat (Fin 1) (Fin 2) (Fin 3) (Fin 4) narrow_widget = Ret tt s1 /\
    move 1 0%nat (Fin 7) (Fin 2) s1 = Ret tt s2 /\
    widgets s2 !! 0%nat = Some W2 /\
    _width W2 = Fin 10 /\ _height W2 = Fin 20 /\
    trace s2 = trace s1 ++ [Sent 0 0%nat (MoveMessage (Fin 1) (Fin 2) (Fin 7) (Fin 2))].
Proof.
  edestruct (move_after_setGeometry_keeps_size 0 0%nat
               (mkWidget (Some (mkElement None [WIDGET_CLASS] (mkStyle None None None None)
                                  narrow_sheet))
                         None None 0%nat 0 None (Fin 0) (Fin 0) (Fin 0) (Fin 0) 0)
               (mkElement None [WIDGET_CLASS] (mkStyle None None None None) narrow_sheet)
               (Fin 1) (Fin 2) (Fin 3) (Fin 4) (Fin 7) (Fin 2) narrow_widget)
    as (s1 & s2 & W2 & H1 & H2 & HW2 & _ & _ & Hw & Hh & Htr).
  - vm_compute. reflexivity.
  - reflexivity.
  - reflexivity.
  - reflexivity.
  - reflexivity.
  - reflexivity.
  - reflexivity.
  - reflexivity.
  - reflexivity.
  - reflexivity.
  - reflexivity.
  - reflexivity.
  - exists s1, s2, W2. split_and!; try done.
Defined.

(** ** Fitting a root to its host *)

(** X9: [fit] throws for a widget that has a parent and writes nothing; it
    throws a TypeError for a root whose node is gone; it does nothing for
    a root whose node is in no host.  For a root in a host it is
    [setGeometry] at the padding offset of the host's box with the host's
    size less the box's border and padding, so that the stored position is
    that offset and the stored size is clipped by the limits of the
    widget's own box; with all three arguments given the page is not
    consulted. *)
Theorem fit_only_hosted_roots offsetWidth offsetHeight hostBoxSizing minus
    fuel this W width height box s :
  widgets s !! this = Some W ->
  (forall p, _parent W = Some p ->
     fit offsetWidth offsetHeight hostBoxSizing minus fuel this width height box s =
       Throw (Err "cannot fit a non-root widget") s) /\
  (_parent W = None -> _node W = None ->
     fit offsetWidth offsetHeight hostBoxSizing minus fuel this width height box s =
       Throw TypeError s) /\
  (forall nd, _parent W = None -> _node W = Some nd -> parentNode nd = None ->
     fit offsetWidth offsetHeight hostBoxSizing minus fuel this width height box s =
       Ret tt s) /\
  (forall nd host, _parent W = None -> _node W = Some nd -> parentNode nd = Some host ->
     let b := default (hostBoxSizing host) box in
     let wd := minus (default (offsetWidth host) width) (horizontalSum b) in
     let ht := minus (default (offsetHeight host) height) (verticalSum b) in
     let own := geometry_box W nd in
     exists s' W',
       fit offsetWidth offsetHeight hostBoxSizing minus (S fuel) this width height box s =
         Ret tt s' /\
       setGeometry (S fuel) this (paddingLeft b) (paddingTop b) wd ht s = Ret tt s' /\
       widgets s' !! this = Some W' /\
       _x W' = paddingLeft b /\ _y W' = paddingTop b /\
       _width W' = clip (minWidth own) (maxWidth own) wd /\
       _height W' = clip (minHeight own) (maxHeight own) ht) /\
  (forall wd ht b offsetWidth' offsetHeight' hostBoxSizing',
     width = Some wd -> height = Some ht -> box = Some b ->
     fit offsetWidth' offsetHeight' hostBoxSizing' minus fuel this width height box s =
     fit offsetWidth offsetHeight hostBoxSizing minus fuel this width height box s).
Proof.
  intros HW. split_and!.
  - intros p Hp. unfold fit. rewrite (bind_run _ _ _ _ _ (getWidget_run _ _ _ HW)).
    by rewrite Hp.
  - intros Hp Hn. unfold fit. rewrite (bind_run _ _ _ _ _ (getWidget_run _ _ _ HW)).
    by rewrite Hp, Hn.
  - intros nd Hp Hn Hhost. unfold fit. rewrite (bind_run _ _ _ _ _ (getWidget_run _ _ _ HW)).
    rewrite Hp, Hn. cbn [nonnull]. by rewrite mret_bind, Hhost.
  - intros nd host Hp Hn Hhost b wd ht own.
    destruct (setGeometry_run fuel this W nd (paddingLeft b) (paddingTop b) wd ht s HW Hn)
      as (s' & Hrun & Hws & _).
    exists s', (geometry_result W nd (paddingLeft b) (paddingTop b) wd ht). split_and!;
      try done.
    + unfold fit. rewrite (bind_run _ _ _ _ _ (getWidget_run _ _ _ HW)).
      rewrite Hp, Hn. cbn [nonnull]. by rewrite mret_bind, Hhost.
    + rewrite Hws. apply lookup_insert_eq.
  - intros wd ht b ow oh hb -> -> ->. unfold fit.
    rewrite !(bind_run _ _ _ _ _ (getWidget_run _ _ _ HW)).
    destruct (_parent W); [done|]. destruct (_node W) as [nd|]; [|done].
    cbn [nonnull]. rewrite !mret_bind. by destruct (parentNode nd).
Qed.

Lemma fit_only_hosted_roots_witness :
  (exists s' W',
     fit (fun _ => Fin 800) (fun _ => Fin 600) (fun _ => plain_sheet)
         (fun a b => match a, b with Fin p, Fin q => Fin (p - q) | _, _ => NaN end)
         1 0%nat None None None attached_root = Ret tt s' /\
     widgets s' !! 0%nat = Some W' /\ _width W' = Fin 800 /\ _height W' = Fin 600) /\
  fit (fun _ => Fin 800) (fun _ => Fin 600) (fun _ => plain_sheet)
      (fun a b => match a, b with Fin p, Fin q => Fin (p - q) | _, _ => NaN end)
      1 0%nat None None None one_widget = Ret tt one_widget.
Proof.
  split.
  - edestruct (fit_only_hosted_roots (fun _ => Fin 800) (fun _ => Fin 600)
                 (fun _ => plain_sheet)
                 (fun a b => match a, b with Fin p, Fin q => Fin (p - q) | _, _ => NaN end)
                 0 0%nat
                 (mkWidget (Some (mkElement (Some (HostNode 7)) [WIDGET_CLASS]
                                    (mkStyle None None None None) plain_sheet))
                           None None 0%nat 0 None (Fin 0) (Fin 0) (Fin 0) (Fin 0) 5)
                 None None None attached_root) as (_ & _ & _ & H & _).
    + vm_compute. reflexivity.
    + edestruct H as (s' & W' & Hrun & _ & HW' & _ & _ & Hw & Hh).
      * reflexivity.
      * reflexivity.
      * reflexivity.
      * exists s', W'. split_and!; [exact Hrun | exact HW' | rewrite Hw | rewrite Hh];
          vm_compute; reflexivity.
  - edestruct (fit_only_hosted_roots (fun _ => Fin 800) (fun _ => Fin 600)
                 (fun _ => plain_sheet)
                 (fun a b => match a, b with Fin p, Fin q => Fin (p - q) | _, _ => NaN end)
                 1 0%nat (plain_widget 0%nat) None None None one_widget) as (_ & _ & H & _).
    + vm_compute. reflexivity.
    + apply (H plain_node); reflexivity.
Defined.

(** ** Showing and hiding *)


Lemma reached_sub s t x : x ∈ reached s t -> x ∈ nodes t.
Proof.
  revert x. induction t as [w kids IH] using tree_ind. intros x. cbn [reached nodes].
  rewrite !elem_of_cons. intros [-> | Hx]; [by left|]. right.
  apply list_elem_of_In, in_flat_map in Hx as (k & Hk%list_elem_of_In & Hx%list_elem_of_In).
  rewrite Forall_forall in IH.
  destruct (flag_of s (root k) IsHidden); [by apply elem_of_nil in Hx|].
  eapply nodes_kid; [done|]. by apply (IH k Hk).
Qed.









Lemma visible_ok_spec s x Wx :
  widgets s !! x = Some Wx ->
  visible_ok s x = true <->
  (test_flag (_flags Wx) IsVisible = true ->
   test_flag (_flags Wx) IsAttached = true /\ test_flag (_flags Wx) IsHidden = false /\
   forall p, _parent Wx = Some p -> flag_of s p IsVisible = true).
Proof.
  intros HW. unfold visible_ok. rewrite HW.
  destruct (test_flag (_flags Wx) IsVisible); cbn [implb]; [|by split].
  rewrite !andb_true_iff, negb_true_iff. split.
  - intros [[Ha Hh] Hp] _. split_and!; [done.. |]. intros p E. by rewrite E in Hp.
  - intros H. destruct (H eq_refl) as (Ha & Hh & Hp). split_and!; [done.. |].
    destruct (_parent Wx); [by apply Hp | done].
Qed.















(** What [detach] leaves of a tree whose root sits in a host. *)
Lemma detach_run n w Ww nd host t s :
  widgets s !! w = Some Ww -> _parent Ww = None -> _node Ww = Some nd ->
  parentNode nd = Some host ->
  root t = w -> shape s t = true -> NoDup (nodes t) -> (need t <= n)%nat ->
  exists s',
    detach n w s = Ret tt s' /\
    trace s' = trace s ++ fan_events "before-detach" (depth s) t ++
               [Removed host w] ++ fan_events "after-detach" (depth s) t /\
    (forall x, x ∈ nodes t ->
       widgets s' !! x =
         (fun Wx =>
            let W1 := if bool_decide (x = w)
                      then with_node (Some (with_parentNode None nd)) Wx else Wx in
            with_flags (clear_flag (clear_flag (_flags W1) IsVisible) IsAttached) W1)
           <$> widgets s !! x) /\
    (forall x, x ∉ nodes t -> widgets s' !! x = widgets s !! x) /\
    arrays s' = arrays s /\ layouts s' = layouts s /\ queues s' = queues s.
Proof.
  intros Hw Hp Hn Hhost Hroot Hshape Hnd Hneed.
  set (sA := fan "before-detach" t s).
  pose proof (fan_same_skeleton "before-detach" t s) as HsA. fold sA in HsA.
  assert (Hrp : forall s0 W0 p, widgets s0 !! root t = Some W0 -> _parent W0 = None ->
            _parent W0 = Some p -> p ∉ nodes t) by (intros; congruence).
  assert (HA : forall x, x ∈ nodes t -> widgets sA !! x = widgets s !! x).
  { intros x Hx. unfold sA. rewrite fan_handled; try done.
    - by destruct (widgets s !! x).
    - rewrite Hroot, Hw. intros W0 p [= <-]. congruence. }
  assert (HWA : widgets sA !! w = Some Ww).
  { rewrite HA, Hw; [done|]. rewrite <- Hroot. apply root_in_nodes. }
  set (WB := with_node (Some (with_parentNode None nd)) Ww).
  set (sB := set_trace (fun tr => tr ++ [Removed host w]) (set_widgets (insert w WB) sA)).
  set (sC := fan "after-detach" t sB).
  pose proof (fan_same_skeleton "after-detach" t sB) as HsC. fold sC in HsC.
  assert (Hwin : w ∈ nodes t) by (rewrite <- Hroot; apply root_in_nodes).
  assert (HtB : same_tree s sB).
  { eapply same_tree_trans; [apply (same_skeleton_tree s sA HsA)|].
    apply (same_tree_update sA w Ww); [done | reflexivity]. }
  assert (HknownB : parent_known sB (root t) = true).
  { rewrite (parent_known_ext s sB) by done. unfold parent_known. by rewrite Hroot, Hw, Hp. }
  assert (HBw : widgets sB !! w = Some WB) by (unfold sB; store_simpl; apply lookup_insert_eq).
  exists sC. split_and!.
  - unfold detach. rewrite (bind_run _ _ _ _ _ (getWidget_run _ _ _ Hw)), Hp, Hn.
    cbn [nonnull]. rewrite mret_bind, Hhost.
    rewrite <- Hroot at 1.
    erewrite bind_run; [| apply sendMessage_fan; [done | done | done |]].
    2:{ unfold parent_known. by rewrite Hroot, Hw, Hp. }
    fold sA. erewrite bind_run; [| by apply (removeChild_run host w Ww nd)].
    fold WB sB. rewrite <- Hroot.
    apply sendMessage_fan; [done | done | by rewrite (shape_ext s sB) | done].
  - unfold sC. rewrite fan_trace; [| done | by rewrite (shape_ext s sB)].
    unfold sB at 1. store_simpl. unfold sA at 1. rewrite fan_trace by done.
    rewrite <- !app_assoc. do 3 f_equal.
    destruct HsA as (_ & _ & _ & _ & _ & Hd). unfold sB. store_simpl. by rewrite Hd.
  - intros x Hx. unfold sC. rewrite fan_handled; try done.
    + destruct (decide (x = w)) as [-> | Hne].
      * rewrite HBw, Hw. cbn. by rewrite bool_decide_eq_true_2.
      * unfold sB. store_simpl. rewrite lookup_insert_ne by done. rewrite (HA x Hx).
        destruct (widgets s !! x); [|done]. cbn. by rewrite bool_decide_eq_false_2.
    + by rewrite (shape_ext s sB).
    + rewrite Hroot, HBw. intros W0 p [= <-]. cbn. congruence.
  - intros x Hx.
    unfold sC. rewrite fan_outside by done.
    unfold sB. store_simpl. rewrite lookup_insert_ne by (by intros <-).
    unfold sA. by rewrite fan_outside.
  - destruct HsC as (_ & [_ ->] & _). unfold sB. store_simpl. by destruct HsA as (_ & [_ ->] & _).
  - destruct HsC as (_ & _ & -> & _). unfold sB. store_simpl. by destruct HsA as (_ & _ & -> & _).
  - destruct HsC as (_ & _ & _ & -> & _). unfold sB. store_simpl.
    by destruct HsA as (_ & _ & _ & -> & _).
Qed.

(** X12: [detach()] throws for a widget that has a parent and writes
    nothing; for a root whose node is in no host it does nothing.  For a
    root in a host it sends before-detach through the whole tree, takes
    the node out of the host and sends after-detach through the whole
    tree: afterwards no node of the tree is attached or visible, the
    Hidden flags, the parents and the children are as before, widgets
    outside the tree are untouched, and the visibility invariant holds
    on the tree. *)
Theorem detach_clears_tree fuel this s W :
  widgets s !! this = Some W ->
  (forall p, _parent W = Some p ->
     detach fuel this s =
       Throw (Err "cannot dettach a non-root widget from the DOM") s) /\
  (forall nd, _parent W = None -> _node W = Some nd -> parentNode nd = None ->
     detach fuel this s = Ret tt s) /\
  (forall t nd host,
     _parent W = None -> _node W = Some nd -> parentNode nd = Some host ->
     root t = this -> shape s t = true -> NoDup (nodes t) -> (need t <= fuel)%nat ->
     exists s',
       detach fuel this s = Ret tt s' /\
       trace s' = trace s ++ fan_events "before-detach" (depth s) t ++
                  [Removed host this] ++ fan_events "after-detach" (depth s) t /\
       (forall x, x ∈ nodes t ->
          flag_of s' x IsAttached = false /\ flag_of s' x IsVisible = false /\
          flag_of s' x IsHidden = flag_of s x IsHidden) /\
       (exists W' nd', widgets s' !! this = Some W' /\ _node W' = Some nd' /\
                       parentNode nd' = None) /\
       (forall x, x ∉ nodes t -> widgets s' !! x = widgets s !! x) /\
       same_tree s s' /\
       visible_ok_tree s' t = true).
Proof.
  intros Hw. split_and!.
  - intros p Hp. unfold detach.
    rewrite (bind_run _ _ _ _ _ (getWidget_run _ _ _ Hw)). by rewrite Hp.
  - intros nd Hp Hn Hhost. unfold detach.
    rewrite (bind_run _ _ _ _ _ (getWidget_run _ _ _ Hw)), Hp, Hn.
    cbn [nonnull]. by rewrite mret_bind, Hhost.
  - intros t nd host Hp Hn Hhost Hroot Hshape Hnd Hfuel.
    destruct (detach_run fuel this W nd host t s Hw Hp Hn Hhost Hroot Hshape Hnd Hfuel)
      as (s' & Hrun & Htr & Hin & Hout & Harr & _ & _).
    assert (Hflags : forall x, x ∈ nodes t ->
              flag_of s' x IsAttached = false /\ flag_of s' x IsVisible = false /\
              flag_of s' x IsHidden = flag_of s x IsHidden).
    { intros x Hx. unfold flag_of. rewrite (Hin x Hx).
      destruct (widgets s !! x) as [Wx|]; [|done]. cbn.
      destruct (bool_decide (x = this)); cbn; rewrite !test_clear_flag;
        rewrite ?(bool_decide_eq_true_2 (IsAttached = IsAttached)),
                ?(bool_decide_eq_true_2 (IsVisible = IsVisible)),
                ?(bool_decide_eq_false_2 (IsAttached = IsVisible)),
                ?(bool_decide_eq_false_2 (IsVisible = IsAttached)),
                ?(bool_decide_eq_false_2 (IsAttached = IsHidden)),
                ?(bool_decide_eq_false_2 (IsVisible = IsHidden)) by done;
        cbn [negb]; by rewrite ?andb_true_r, ?andb_false_r. }
    exists s'. split_and!; [exact Hrun | exact Htr | exact Hflags | | exact Hout | |].
    + eexists _, _. split; [|split].
      * rewrite Hin by (rewrite <- Hroot; apply root_in_nodes). rewrite Hw. reflexivity.
      * cbn. rewrite bool_decide_eq_true_2 by done. reflexivity.
      * reflexivity.
    + split; [|exact Harr]. apply map_eq. intros x. rewrite !lookup_fmap.
      destruct (decide (x ∈ nodes t)) as [Hx | Hx].
      * rewrite (Hin x Hx). destruct (widgets s !! x) as [Wx|]; [|done]. cbn.
        by destruct (bool_decide (x = this)).
      * by rewrite (Hout x Hx).
    + unfold visible_ok_tree. apply forallb_forall. intros x Hx%list_elem_of_In.
      destruct (Hflags x Hx) as (_ & Hv & _). unfold visible_ok.
      unfold flag_of in Hv. destruct (widgets s' !! x) as [Wx'|]; [|done].
      by rewrite Hv.
Qed.

Lemma detach_clears_tree_witness :
  exists s',
    detach 5 0%nat attached_pair = Ret tt s' /\
    flag_of attached_pair 1%nat IsAttached = true /\
    flag_of s' 0%nat IsAttached = false /\ flag_of s' 1%nat IsAttached = false /\
    flag_of s' 1%nat IsVisible = false /\
    visible_ok_tree s' family_tree = true.
Proof.
  destruct (detach_clears_tree 5 0%nat attached_pair
              (mkWidget (Some (mkElement (Some (HostNode 7)) [WIDGET_CLASS]
                                 (mkStyle None None None None) plain_sheet))
                        None None 0%nat 0 None (Fin 0) (Fin 0) (Fin 0) (Fin 0) 5))
    as (_ & _ & H); [vm_compute; reflexivity|].
  destruct (H family_tree
              (mkElement (Some (HostNode 7)) [WIDGET_CLASS]
                 (mkStyle None None None None) plain_sheet) (HostNode 7))
    as (s' & Hrun & _ & Hfl & _ & _ & _ & Hok).
  - reflexivity.
  - reflexivity.
  - reflexivity.
  - reflexivity.
  - vm_compute. reflexivity.
  - apply (bool_decide_unpack _). vm_compute. reflexivity.
  - vm_compute. lia.
  - destruct (Hfl 0%nat) as (Ha0 & _ & _); [apply list_elem_of_In; simpl; tauto|].
    destruct (Hfl 1%nat) as (Ha1 & Hv1 & _); [apply list_elem_of_In; simpl; tauto|].
    exists s'. split_and!; [exact Hrun | vm_compute; reflexivity | exact Ha0 | exact Ha1
                           | exact Hv1 | exact Hok].
Defined.

(** What [attach] leaves of a tree. *)
Lemma attach_run n w Ww nd host t s :
  widgets s !! w = Some Ww -> _parent Ww = None -> _node Ww = Some nd ->
  root t = w -> shape s t = true -> NoDup (nodes t) -> (need t <= n)%nat ->
  exists s',
    attach n w host s = Ret tt s' /\
    (forall x, x ∈ nodes t ->
       widgets s' !! x =
         (fun Wx =>
            handled "after-attach" s'
              (with_boxSizing None
                 (if bool_decide (x = w)
                  then with_node (Some (with_parentNode (Some (HostNode host)) nd)) Wx
                  else Wx)))
           <$> widgets s !! x) /\
    (forall x, x ∉ nodes t -> widgets s' !! x = widgets s !! x) /\
    arrays s' = arrays s /\ layouts s' = layouts s /\ queues s' = queues s.
Proof.
  intros Hw Hp Hn Hroot Hshape Hnd Hneed.
  set (sA := fan "before-attach" t s).
  pose proof (fan_same_skeleton "before-attach" t s) as HsA. fold sA in HsA.
  assert (HA : forall x, x ∈ nodes t ->
            widgets sA !! x = with_boxSizing None <$> widgets s !! x).
  { intros x Hx. unfold sA. rewrite fan_handled; try done.
    rewrite Hroot, Hw. intros W0 p [= <-]. congruence. }
  assert (Hwin : w ∈ nodes t) by (rewrite <- Hroot; apply root_in_nodes).
  assert (HWA : widgets sA !! w = Some (with_boxSizing None Ww)) by (by rewrite HA, Hw).
  set (WB := with_node (Some (with_parentNode (Some (HostNode host)) nd))
               (with_boxSizing None Ww)).
  set (sB := set_trace (fun tr => tr ++ [Appended (HostNode host) w])
               (set_widgets (insert w WB) sA)).
  set (sC := fan "after-attach" t sB).
  pose proof (fan_same_skeleton "after-attach" t sB) as HsC. fold sC in HsC.
  assert (HtB : same_tree s sB).
  { eapply same_tree_trans; [apply (same_skeleton_tree s sA HsA)|].
    apply (same_tree_update sA w (with_boxSizing None Ww)); [done | reflexivity]. }
  assert (HknownB : parent_known sB (root t) = true).
  { rewrite (parent_known_ext s sB) by done. unfold parent_known. by rewrite Hroot, Hw, Hp. }
  assert (HBw : widgets sB !! w = Some WB) by (unfold sB; store_simpl; apply lookup_insert_eq).
  exists sC. split_and!.
  - unfold attach. rewrite (bind_run _ _ _ _ _ (getWidget_run _ _ _ Hw)), Hp.
    rewrite <- Hroot at 1.
    erewrite bind_run; [| apply sendMessage_fan; [done | done | done |]].
    2:{ unfold parent_known. by rewrite Hroot, Hw, Hp. }
    fold sA. erewrite bind_run; [| by apply (appendChild_run _ _ (with_boxSizing None Ww) nd)].
    fold WB sB. rewrite <- Hroot.
    apply sendMessage_fan; [done | done | by rewrite (shape_ext s sB) | done].
  - intros x Hx. unfold sC at 1. rewrite fan_handled; try done.
    + fold sC. destruct (decide (x = w)) as [-> | Hne].
      * rewrite HBw, Hw. cbn [fmap option_fmap option_map].
        by rewrite bool_decide_eq_true_2.
      * unfold sB. store_simpl. rewrite lookup_insert_ne by done. rewrite (HA x Hx).
        destruct (widgets s !! x); [|done]. cbn [fmap option_fmap option_map].
        by rewrite bool_decide_eq_false_2.
    + by rewrite (shape_ext s sB).
    + rewrite Hroot, HBw. intros W0 p [= <-]. cbn. congruence.
  - intros x Hx. unfold sC. rewrite fan_outside by done.
    unfold sB. store_simpl. rewrite lookup_insert_ne by (by intros <-).
    unfold sA. by rewrite fan_outside.
  - destruct HsC as (_ & [_ ->] & _). unfold sB. store_simpl. by destruct HsA as (_ & [_ ->] & _).
  - destruct HsC as (_ & _ & -> & _). unfold sB. store_simpl. by destruct HsA as (_ & _ & -> & _).
  - destruct HsC as (_ & _ & _ & -> & _). unfold sB. store_simpl.
    by destruct HsA as (_ & _ & _ & -> & _).
Qed.

(** A node of a tree without repeated nodes is reached through the one
    child it lies under. *)
Lemma reached_under s w kids k x :
  NoDup (nodes (Node w kids)) -> k ∈ kids -> x ∈ nodes k ->
  x ∈ reached s (Node w kids) <->
  flag_of s (root k) IsHidden = false /\ x ∈ reached s k.
Proof.
  cbn [nodes reached]. intros [Hw Hnd]%NoDup_cons Hk Hx. split.
  - intros [-> | Hr]%elem_of_cons.
    { exfalso. apply Hw. by eapply nodes_kid. }
    apply list_elem_of_In, in_flat_map in Hr as (k' & Hk'%list_elem_of_In & Hr%list_elem_of_In).
    destruct (flag_of s (root k') IsHidden) eqn:Hh; [by apply elem_of_nil in Hr|].
    assert (k' = k) as ->; [|done].
    apply reached_sub in Hr. clear -Hnd Hk Hk' Hx Hr.
    induction kids as [|k0 kids IH]; [by apply elem_of_nil in Hk|].
    cbn [flat_map] in Hnd. apply NoDup_app in Hnd as (_ & Hdis & Hnd).
    apply elem_of_cons in Hk as [-> | Hk]; apply elem_of_cons in Hk' as [-> | Hk'].
    + done.
    + exfalso. apply (Hdis x Hx). by eapply nodes_kid.
    + exfalso. apply (Hdis x Hr). by eapply nodes_kid.
    + by apply IH.
  - intros [Hh Hr]. apply list_elem_of_further, list_elem_of_In, in_flat_map.
    exists k. split; [by apply list_elem_of_In|]. rewrite Hh. by apply list_elem_of_In.
Qed.

(** A flag that every node below the root holds iff it is not hidden and
    its parent holds the flag is held by exactly the reached nodes, if
    the root holds it, and by none otherwise. *)
Lemma reached_closed s (v : wid -> bool) t :
  shape s t = true -> NoDup (nodes t) ->
  (forall x Wx p, x ∈ nodes t -> widgets s !! x = Some Wx -> _parent Wx = Some p ->
     p ∈ nodes t -> v x = negb (flag_of s x IsHidden) && v p) ->
  forall x, x ∈ nodes t -> v x = v (root t) && bool_decide (x ∈ reached s t).
Proof.
  induction t as [w kids IH] using tree_ind. intros Hshape Hnd Hv x Hx.
  pose proof Hnd as Hnd0. cbn [nodes root] in *.
  apply elem_of_cons in Hx as [-> | Hx].
  { rewrite bool_decide_eq_true_2; [by rewrite andb_true_r | apply list_elem_of_here]. }
  apply nodes_of_kids in Hx as (k & Hk & Hx).
  destruct (shape_kid s w kids k Hshape Hk) as [Hpar Hsk].
  apply NoDup_cons in Hnd as [Hw Hnd].
  assert (Hndk : NoDup (nodes k)).
  { clear -Hnd Hk. induction kids as [|k0 kids IHk]; [by apply elem_of_nil in Hk|].
    cbn [flat_map] in Hnd. apply NoDup_app in Hnd as (H0 & _ & Hr).
    apply elem_of_cons in Hk as [-> | Hk]; [done | by apply IHk]. }
  rewrite Forall_forall in IH.
  assert (Hin : forall y, y ∈ nodes k -> y ∈ w :: flat_map nodes kids).
  { intros y Hy. apply list_elem_of_further. by eapply nodes_kid. }
  rewrite (IH k Hk Hsk Hndk); [| | done].
  2:{ intros y Wy p Hy HWy Hp Hpin. apply (Hv y Wy p); auto. }
  unfold parent_is in Hpar. destruct (widgets s !! root k) as [Wk|] eqn:HWk; [|done].
  apply bool_decide_eq_true in Hpar.
  rewrite (Hv (root k) Wk w); [| apply Hin, root_in_nodes | done | done | apply list_elem_of_here].
  pose proof (reached_under s w kids k x Hnd0 Hk Hx) as Hiff.
  destruct (flag_of s (root k) IsHidden) eqn:Hh; cbn [negb andb].
  - rewrite (bool_decide_eq_false_2 (x ∈ reached s (Node w kids))); [by rewrite andb_false_r|].
    intros Hr. apply Hiff in Hr as [? _]. done.
  - f_equal. apply bool_decide_ext. split; [intros Hr; by apply Hiff | by intros [_ ?]%Hiff].
Qed.

(** X13: [attach(host)] on a root keeps the visibility invariant of its
    tree and leaves every node of the tree attached; widgets outside the
    tree, parents and children are untouched.  If no node of the tree was
    visible before, then afterwards the visible nodes are exactly the
    ones that are neither hidden themselves nor below a hidden node of
    the tree. *)
Theorem attach_keeps_visible_ok fuel this host s W nd t :
  widgets s !! this = Some W -> _parent W = None -> _node W = Some nd ->
  root t = this -> shape s t = true -> NoDup (nodes t) -> (need t <= fuel)%nat ->
  exists s',
    attach fuel this host s = Ret tt s' /\
    (forall x, x ∈ nodes t -> flag_of s' x IsAttached = true) /\
    (forall x, flag_of s' x IsHidden = flag_of s x IsHidden) /\
    (forall x, x ∉ nodes t -> widgets s' !! x = widgets s !! x) /\
    same_tree s s' /\
    (visible_ok_tree s t = true -> visible_ok_tree s' t = true) /\
    ((forall x, x ∈ nodes t -> flag_of s x IsVisible = false) ->
     forall x, x ∈ nodes t ->
       flag_of s' x IsVisible =
         negb (flag_of s this IsHidden) && bool_decide (x ∈ reached s t)).
Proof.
  intros Hw Hp Hn Hroot Hshape Hnd Hfuel.
  destruct (attach_run fuel this W nd host t s Hw Hp Hn Hroot Hshape Hnd Hfuel)
    as (s' & Hrun & Hin & Hout & Harr & _ & _).
  assert (Hin_store : forall x, x ∈ nodes t -> is_Some (widgets s !! x)).
  { intros x Hx. destruct (shape_parent_in s t x Hshape Hx) as [-> | (Wx & _ & -> & _)];
      [rewrite Hroot, Hw|]; eauto. }
  assert (Hfields : forall x Wx, x ∈ nodes t -> widgets s !! x = Some Wx ->
    exists Wx',
      widgets s' !! x = Some Wx' /\ _parent Wx' = _parent Wx /\
      _children Wx' = _children Wx /\
      test_flag (_flags Wx') IsAttached = true /\
      test_flag (_flags Wx') IsHidden = test_flag (_flags Wx) IsHidden /\
      test_flag (_flags Wx') IsVisible =
        test_flag (_flags Wx) IsVisible ||
        (negb (test_flag (_flags Wx) IsHidden) &&
         match _parent Wx with
         | None => true
         | Some p => flag_of s' p IsVisible
         end)).
  { intros x Wx Hx HWx. rewrite (Hin x Hx), HWx. eexists. split; [reflexivity|].
    destruct (bool_decide (x = this)); cbn;
      destruct (negb (test_flag (_flags Wx) IsHidden) && _); cbn;
      rewrite !test_set_flag; cbn; split_and!; try done;
      by rewrite ?orb_false_r, ?orb_true_r. }
  assert (Hhid : forall x, flag_of s' x IsHidden = flag_of s x IsHidden).
  { intros x. destruct (decide (x ∈ nodes t)) as [Hx | Hx].
    - destruct (Hin_store x Hx) as [Wx HWx].
      destruct (Hfields x Wx Hx HWx) as (Wx' & HWx' & _ & _ & _ & Hh & _).
      unfold flag_of. by rewrite HWx', HWx.
    - unfold flag_of. by rewrite (Hout x Hx). }
  assert (Hmono : forall x, flag_of s x IsVisible = true -> flag_of s' x IsVisible = true).
  { intros x Hv. destruct (decide (x ∈ nodes t)) as [Hx | Hx].
    - destruct (Hin_store x Hx) as [Wx HWx].
      destruct (Hfields x Wx Hx HWx) as (Wx' & HWx' & _ & _ & _ & _ & Hv').
      unfold flag_of in *. rewrite HWx', Hv'. rewrite HWx in Hv. by rewrite Hv.
    - unfold flag_of in *. by rewrite (Hout x Hx). }
  exists s'. split_and!; [exact Hrun | | exact Hhid | exact Hout | | |].
  - intros x Hx. destruct (Hin_store x Hx) as [Wx HWx].
    destruct (Hfields x Wx Hx HWx) as (Wx' & HWx' & _ & _ & Ha & _).
    unfold flag_of. by rewrite HWx'.
  - split; [|exact Harr]. apply map_eq. intros x. rewrite !lookup_fmap.
    destruct (decide (x ∈ nodes t)) as [Hx | Hx].
    + destruct (Hin_store x Hx) as [Wx HWx].
      destruct (Hfields x Wx Hx HWx) as (Wx' & HWx' & Hpx & Hcx & _).
      rewrite HWx', HWx. cbn. unfold links. by rewrite Hpx, Hcx.
    + by rewrite (Hout x Hx).
  - intros Hok. unfold visible_ok_tree in *. apply forallb_forall.
    intros x Hx%list_elem_of_In. rewrite forallb_forall in Hok.
    destruct (Hin_store x Hx) as [Wx HWx].
    destruct (Hfields x Wx Hx HWx) as (Wx' & HWx' & Hpx & _ & Ha & Hh & Hv).
    apply (visible_ok_spec s' x Wx' HWx'). rewrite Hpx, Ha, Hh, Hv.
    pose proof (proj1 (visible_ok_spec s x Wx HWx)
                  (Hok x (proj1 (list_elem_of_In _ _) Hx))) as Hold.
    destruct (test_flag (_flags Wx) IsVisible) eqn:Hvx; cbn [orb].
    + intros _. destruct (Hold eq_refl) as (_ & Hhx & Hpv).
      split_and!; [done | done |]. intros p E. by apply Hmono, Hpv.
    + intros [Hhx Hpv]%andb_true_iff. apply negb_true_iff in Hhx.
      split_and!; [done | done |]. intros p E. by rewrite E in Hpv.
  - intros Hnone x Hx.
    assert (Hroot_v : flag_of s' this IsVisible = negb (flag_of s this IsHidden)).
    { destruct (Hfields this W) as (W' & HW' & _ & _ & _ & _ & Hv);
        [rewrite <- Hroot; apply root_in_nodes | done |].
      pose proof (Hnone this) as H0. unfold flag_of in *. rewrite HW', Hv, Hp, Hw.
      rewrite Hw in H0. rewrite H0 by (rewrite <- Hroot; apply root_in_nodes).
      by rewrite andb_true_r. }
    rewrite <- Hroot_v, <- Hroot.
    apply (reached_closed s (fun y => flag_of s' y IsVisible) t Hshape Hnd); [|done].
    intros y Wy p Hy HWy Hpy Hpin.
    destruct (Hfields y Wy Hy HWy) as (Wy' & HWy' & _ & _ & _ & _ & Hv).
    cbv beta. rewrite Hpy in Hv.
    assert (E1 : flag_of s' y IsVisible = test_flag (_flags Wy') IsVisible)
      by (unfold flag_of; by rewrite HWy').
    assert (E2 : flag_of s y IsHidden = test_flag (_flags Wy) IsHidden)
      by (unfold flag_of; by rewrite HWy).
    assert (E3 : test_flag (_flags Wy) IsVisible = false).
    { pose proof (Hnone y Hy) as H0. unfold flag_of in H0. by rewrite HWy in H0. }
    by rewrite E1, E2, Hv, E3.
Qed.

Lemma attach_keeps_visible_ok_witness :
  visible_ok_tree family family_tree = true /\
  exists s',
    attach 5 0%nat 7%nat family = Ret tt s' /\
    flag_of s' 1%nat IsAttached = true /\ flag_of s' 1%nat IsVisible = true /\
    visible_ok_tree s' family_tree = true.
Proof.
  split; [vm_compute; reflexivity|].
  edestruct (attach_keeps_visible_ok 5 0%nat 7%nat family) with (t := family_tree)
    as (s' & Hrun & Ha & _ & _ & _ & Hok & Hv).
  - vm_compute. reflexivity.
  - reflexivity.
  - reflexivity.
  - reflexivity.
  - vm_compute. reflexivity.
  - apply (bool_decide_unpack _). vm_compute. reflexivity.
  - vm_compute. lia.
  - exists s'. split_and!; [exact Hrun | | | ].
    + apply Ha, list_elem_of_In. simpl. tauto.
    + rewrite Hv; [vm_compute; reflexivity | | apply list_elem_of_In; simpl; tauto].
      intros x [<- | [<- | []]]%list_elem_of_In; vm_compute; reflexivity.
    + apply Hok. vm_compute. reflexivity.
Defined.

(** The parent's handling of child-removed and of child-added, node by
    node of the child's tree. *)
Lemma child_moved_nodes (added : bool) n p P np a A na t s :
  let type := if added then "child-added" else "child-removed" in
  let after := if added then "after-attach" else "after-detach" in
  let na' := with_parentNode (if added then Some (WidgetNode p) else None) na in
  widgets s !! p = Some P -> _node P = Some np ->
  widgets s !! a = Some A -> _node A = Some na ->
  (added = false -> parentNode na = Some (WidgetNode p)) ->
  root t = a -> shape s t = true -> NoDup (nodes t) -> parent_known s a = true ->
  (forall q, _parent A = Some q -> q ∉ nodes t) ->
  p ∉ nodes t -> (need t <= n)%nat ->
  exists s',
    sendMessage (S n) p (ChildMessage type a) s = Ret tt s' /\
    (forall x, x ∈ nodes t ->
       widgets s' !! x =
         (fun Wx =>
            let W1 := if bool_decide (x = a) then with_node (Some na') Wx else Wx in
            if test_flag (_flags P) IsAttached
            then handled after s' (if added then with_boxSizing None W1 else W1)
            else W1) <$> widgets s !! x) /\
    (forall x, x ∉ nodes t -> widgets s' !! x = widgets s !! x) /\
    arrays s' = arrays s /\ depth s' = depth s.
Proof.
  intros type after na' HP HnP HA HnA Hdom Hroot Hshape Hnd Hknown Hq Hout Hneed.
  set (before := if added then "before-attach" else "before-detach").
  set (change := if added then Appended (WidgetNode p) a else Removed (WidgetNode p) a).
  assert (Hpa : p <> a).
  { intros ->. apply Hout. rewrite <- Hroot. apply root_in_nodes. }
  assert (Hain : a ∈ nodes t) by (rewrite <- Hroot; apply root_in_nodes).
  set (s1 := set_depth S (set_trace (fun tr => tr ++ [Sent (depth s) p (ChildMessage type a)]) s)).
  assert (Hts1 : same_tree s s1) by (by split).
  assert (Hproc : forall send fuel σ,
    processMessage send fuel p (ChildMessage type a) σ =
    (if added then onChildAdded send p (ChildMessage type a)
     else onChildRemoved send p (ChildMessage type a)) σ).
  { intros. unfold type. by destruct added. }
  assert (Hdomstep : forall σ Aσ,
    widgets σ !! p = Some P -> widgets σ !! a = Some Aσ -> _node Aσ = Some na ->
    (theNode p ;; if added then appendChild (WidgetNode p) a else removeChild (WidgetNode p) a) σ =
    Ret tt (set_trace (fun tr => tr ++ [change])
              (set_widgets (insert a (with_node (Some na') Aσ)) σ))).
  { intros σ Aσ HPσ HAσ Hnσ.
    rewrite (bind_run _ _ _ _ _ (theNode_run _ _ _ _ HPσ HnP)).
    unfold change, na'. destruct added.
    - by apply appendChild_run.
    - apply removeChild_run; auto. }
  assert (Hhead : forall sZ,
    (attached ← isAttached p;
     if (attached : bool) then
       sendMessage n a (Msg before) ;;
       theNode p ;;
       (if added then appendChild (WidgetNode p) a
        else removeChild (WidgetNode p) a) ;;
       sendMessage n a (Msg after)
     else
       theNode p ;; if added then appendChild (WidgetNode p) a
                    else removeChild (WidgetNode p) a) s1 = Ret tt sZ ->
    sendMessage (S n) p (ChildMessage type a) s = Ret tt (set_depth Nat.pred sZ)).
  { intros sZ Hgen. cbn [sendMessage]. unfold mbind at 1, M_bind at 1. unfold log, modify.
    unfold mbind at 1, M_bind at 1, mbind at 1, M_bind at 1. fold s1.
    unfold mbind at 1, M_bind at 1. rewrite Hproc.
    assert (Hbody :
      (if added then onChildAdded (sendMessage n) p (ChildMessage type a)
       else onChildRemoved (sendMessage n) p (ChildMessage type a)) s1 = Ret tt sZ).
    { revert Hgen. unfold onChildAdded, onChildRemoved, before, after.
      destruct added; cbn [msg_child nonnull]; rewrite !mret_bind; intros <-; reflexivity. }
    by rewrite Hbody. }
  destruct (test_flag (_flags P) IsAttached) eqn:Hatt.
  - set (sA := fan before t s1).
    pose proof (fan_same_skeleton before t s1) as HsA. fold sA in HsA.
    assert (Hfo : fans_out before = true /\ fans_out after = true)
      by (unfold before, after; by destruct added).
    assert (Hsk : skips_hidden before = false /\ skips_hidden after = false)
      by (unfold before, after; by destruct added).
    assert (HA1 : forall x, x ∈ nodes t ->
              widgets sA !! x =
              (fun Wx => if added then with_boxSizing None Wx else Wx) <$> widgets s !! x).
    { intros x Hx. unfold sA. rewrite fan_handled; [| apply Hsk | by rewrite (shape_ext s s1) | done | |done].
      - change (widgets s1) with (widgets s). unfold before.
        destruct added; by destruct (widgets s !! x).
      - change (widgets s1) with (widgets s). rewrite Hroot, HA.
        intros W0 q [= <-]. apply Hq. }
    set (AA := if added then with_boxSizing None A else A).
    assert (HAA : widgets sA !! a = Some AA) by (by rewrite (HA1 a Hain), HA).
    assert (HnAA : _node AA = Some na) by (unfold AA; by destruct added).
    set (sB := set_trace (fun tr => tr ++ [change])
                 (set_widgets (insert a (with_node (Some na') AA)) sA)).
    set (sC := fan after t sB).
    pose proof (fan_same_skeleton after t sB) as HsC. fold sC in HsC.
    assert (HtB : same_tree s sB).
    { eapply same_tree_trans; [exact Hts1|].
      eapply same_tree_trans; [apply (same_skeleton_tree s1 sA HsA)|].
      apply (same_tree_update sA a AA); [done | reflexivity]. }
    assert (HBa : widgets sB !! a = Some (with_node (Some na') AA))
      by (unfold sB; store_simpl; apply lookup_insert_eq).
    assert (HPA : widgets sA !! p = Some P) by (unfold sA; by rewrite fan_outside).
    exists (set_depth Nat.pred sC). split_and!.
    + apply Hhead. unfold isAttached.
      rewrite (bind_run _ _ _ _ _ (testFlag_run _ _ IsAttached s1 HP)), Hatt.
      rewrite <- Hroot at 1.
      erewrite bind_run;
        [| apply sendMessage_fan;
           [apply Hfo | exact Hneed | by rewrite (shape_ext s s1) | rewrite Hroot; exact Hknown]].
      fold sA.
      rewrite (bind_assoc_run _ _ _ _ _ _ (Hdomstep sA AA HPA HAA HnAA)).
      fold sB. rewrite <- Hroot.
      apply sendMessage_fan; [apply Hfo | done | by rewrite (shape_ext s sB) |].
      rewrite (parent_known_ext s sB) by done. by rewrite Hroot.
    + intros x Hx.
      change (widgets (set_depth Nat.pred sC) !! x) with (widgets sC !! x).
      change (handled after (set_depth Nat.pred sC)) with (handled after sC).
      unfold sC at 1.
      rewrite fan_handled; [| apply Hsk | by rewrite (shape_ext s sB) | done | | done].
      * fold sC. destruct (decide (x = a)) as [-> | Hne].
        -- rewrite HBa, HA. cbn [fmap option_fmap option_map].
           rewrite bool_decide_eq_true_2 by done. unfold AA. by destruct added.
        -- unfold sB. store_simpl. rewrite lookup_insert_ne by done. rewrite (HA1 x Hx).
           destruct (widgets s !! x); [|done]. cbn [fmap option_fmap option_map].
           by rewrite bool_decide_eq_false_2.
      * rewrite Hroot, HBa. intros W0 q [= <-]. cbn [_parent with_node].
        unfold AA. destruct added; apply Hq.
    + intros x Hx. store_simpl. unfold sC. rewrite fan_outside by done.
      unfold sB. store_simpl. rewrite lookup_insert_ne.
      * unfold sA. by rewrite fan_outside.
      * intros <-. by apply Hx.
    + store_simpl. destruct HsC as (_ & [_ ->] & _). unfold sB. store_simpl.
      by destruct HsA as (_ & [_ ->] & _).
    + store_simpl. destruct HsC as (_ & _ & _ & _ & _ & ->). unfold sB. store_simpl.
      destruct HsA as (_ & _ & _ & _ & _ & ->). done.
  - set (sB := set_trace (fun tr => tr ++ [change])
                 (set_widgets (insert a (with_node (Some na') A)) s1)).
    exists (set_depth Nat.pred sB). split_and!.
    + apply Hhead. unfold isAttached.
      rewrite (bind_run _ _ _ _ _ (testFlag_run _ _ IsAttached s1 HP)), Hatt.
      by apply (Hdomstep s1 A).
    + intros x Hx. unfold sB, s1. store_simpl. destruct (decide (x = a)) as [-> | Hne].
      * rewrite lookup_insert_eq, HA. cbn. by rewrite bool_decide_eq_true_2.
      * rewrite lookup_insert_ne by done. destruct (widgets s !! x); [|done]. cbn.
        by rewrite bool_decide_eq_false_2.
    + intros x Hx. unfold sB, s1. store_simpl. rewrite lookup_insert_ne; [done|].
      intros <-. by apply Hx.
    + reflexivity.
    + reflexivity.
Qed.

(** [child.parent = null] on a widget that has a parent, node by node of
    the child's tree. *)
Lemma unparent_run n a b A B na nb lb t s :
  widgets s !! a = Some A -> widgets s !! b = Some B -> _parent A = Some b ->
  _node A = Some na -> parentNode na = Some (WidgetNode b) -> _node B = Some nb ->
  arrays s !! _children B = Some lb -> own_arrays s ->
  root t = a -> shape s t = true -> NoDup (nodes t) -> b ∉ nodes t ->
  (need t <= n)%nat ->
  exists s',
    set_parent (sendMessage (S n)) a None s = Ret tt s' /\
    (forall x, x ∈ nodes t ->
       widgets s' !! x =
         (fun Wx =>
            let W1 := if bool_decide (x = a)
                      then with_node (Some (with_parentNode None na)) (with_parent None Wx)
                      else Wx in
            if test_flag (_flags B) IsAttached
            then with_flags (clear_flag (clear_flag (_flags W1) IsVisible) IsAttached) W1
            else W1) <$> widgets s !! x) /\
    (forall x, x ∉ nodes t -> widgets s' !! x = widgets s !! x) /\
    arrays s' = <[_children B := remove_first (Some a) lb]> (arrays s) /\
    depth s' = depth s /\ layouts s' = layouts s.
Proof.
  intros HA HB HpA HnA Hhost HnB Hlb Hown Hroot Hshape Hnd Hb Hneed.
  assert (Hab : a <> b) by (intros <-; apply Hb; rewrite <- Hroot; apply root_in_nodes).
  assert (Hain : a ∈ nodes t) by (rewrite <- Hroot; apply root_in_nodes).
  assert (Harr : forall x Wx, x ∈ nodes t -> widgets s !! x = Some Wx ->
            _children B <> _children Wx).
  { intros x Wx Hx HWx E. apply Hb. by rewrite (Hown b x B Wx). }
  set (A1 := with_parent None A).
  set (s1 := set_widgets (insert a A1) s).
  set (s2 := set_arrays (insert (_children B) (remove_first (Some a) lb)) s1).
  assert (Hshape2 : shape s2 t = true).
  { apply (shape_reroot s s2 t A A1); try done.
    - by rewrite Hroot.
    - rewrite Hroot. unfold s2, s1. store_simpl. apply lookup_insert_eq.
    - intros x Hx Hne. unfold s2, s1. store_simpl. rewrite lookup_insert_ne; [done|].
      by rewrite <- Hroot.
    - intros x Wx Hx HWx. unfold s2, s1. store_simpl. rewrite lookup_insert_ne; [done|].
      by eapply Harr. }
  destruct (child_moved_nodes false n b B nb a A1 na t s2) as
    (s3 & Hrun3 & Hin3 & Hout3 & Harr3 & Hd3); try done.
  { unfold s2, s1. store_simpl. by rewrite lookup_insert_ne. }
  { unfold s2, s1. store_simpl. apply lookup_insert_eq. }
  { unfold parent_known, s2, s1. store_simpl. by rewrite lookup_insert_eq. }
  cbv zeta in Hrun3, Hin3. cbv iota in Hrun3, Hin3.
  set (s4 := set_trace (fun tr => tr ++ [Sent (depth s3) a (Msg "parent-changed")]) s3).
  exists s4. split_and!.
  - unfold set_parent.
    rewrite (bind_run _ _ _ _ _ (getWidget_run _ _ _ HA)). cbv zeta.
    rewrite HpA, decide_False by congruence.
    assert (Hold : (updWidget a (with_parent None) ;;
                    O ← getWidget b; algo_remove (_children O) (Some a) ;;
                    sendMessage (S n) b (ChildMessage "child-removed" a)) s = Ret tt s3).
    { rewrite (bind_run _ _ _ _ _ (updWidget_run _ _ _ _ HA)). fold A1 s1.
      erewrite bind_run; [| apply getWidget_run; unfold s1; store_simpl;
                            by rewrite lookup_insert_ne].
      unfold algo_remove. erewrite bind_run; [| by apply updArray_run].
      exact Hrun3. }
    rewrite (bind_run _ _ _ _ _ Hold). rewrite mret_bind.
    by apply sendMessage_informational_run.
  - intros x Hx. unfold s4. store_simpl. rewrite (Hin3 x Hx).
    unfold s2, s1. store_simpl. destruct (decide (x = a)) as [-> | Hne].
    + rewrite lookup_insert_eq, HA. cbn [fmap option_fmap option_map].
      rewrite bool_decide_eq_true_2 by done. by destruct (test_flag (_flags B) IsAttached).
    + rewrite lookup_insert_ne by done. destruct (widgets s !! x); [|done].
      cbn [fmap option_fmap option_map]. rewrite bool_decide_eq_false_2 by done.
      by destruct (test_flag (_flags B) IsAttached).
  - intros x Hx. unfold s4. store_simpl. rewrite (Hout3 x Hx).
    unfold s2, s1. store_simpl. rewrite lookup_insert_ne; [done|]. by intros <-.
  - unfold s4. store_simpl. by rewrite Harr3.
  - unfold s4. store_simpl. by rewrite Hd3.
  - unfold s4. store_simpl.
    destruct (child_moved_run false n b B nb a A1 na t s2) as (s3' & Hrun3' & _ & _ & _ & Hl & _);
      try done.
    { unfold s2, s1. store_simpl. by rewrite lookup_insert_ne. }
    { unfold s2, s1. store_simpl. apply lookup_insert_eq. }
    { unfold parent_known, s2, s1. store_simpl. by rewrite lookup_insert_eq. }
    cbv zeta in Hrun3'. cbv iota in Hrun3'. rewrite Hrun3 in Hrun3'.
    injection Hrun3' as <-. exact Hl.
Qed.

(** [child.parent = null] on a widget that has a parent: what a caller
    can observe afterwards. *)
Lemma unparent_spec n a b A B na nb lb t s :
  widgets s !! a = Some A -> widgets s !! b = Some B -> _parent A = Some b ->
  _node A = Some na -> parentNode na = Some (WidgetNode b) -> _node B = Some nb ->
  arrays s !! _children B = Some lb -> own_arrays s ->
  root t = a -> shape s t = true -> NoDup (nodes t) -> b ∉ nodes t ->
  (need t <= n)%nat ->
  exists s',
    set_parent (sendMessage (S n)) a None s = Ret tt s' /\
    depth s' = depth s /\
    parent_is s' a None = true /\
    arrays s' !! _children B = Some (remove_first (Some a) lb) /\
    (exists A' na', widgets s' !! a = Some A' /\ _node A' = Some na' /\
                    parentNode na' = None) /\
    (forall x, x ∈ nodes t ->
       flag_of s' x IsHidden = flag_of s x IsHidden /\
       flag_of s' x IsAttached =
         (if test_flag (_flags B) IsAttached then false else flag_of s x IsAttached) /\
       flag_of s' x IsVisible =
         (if test_flag (_flags B) IsAttached then false else flag_of s x IsVisible)) /\
    (forall x, x ∉ nodes t -> widgets s' !! x = widgets s !! x) /\
    (forall x p, x <> a -> parent_is s' x p = parent_is s x p) /\
    (visible_ok s b = true -> visible_ok_tree s t = true -> visible_ok_tree s' t = true).
Proof.
  intros HA HB HpA HnA Hhost HnB Hlb Hown Hroot Hshape Hnd Hb Hneed.
  destruct (unparent_run n a b A B na nb lb t s HA HB HpA HnA Hhost HnB Hlb Hown
              Hroot Hshape Hnd Hb Hneed) as (s' & Hrun & Hin & Hout & Harr & Hd & _).
  assert (Hain : a ∈ nodes t) by (rewrite <- Hroot; apply root_in_nodes).
  assert (Hin_store : forall x, x ∈ nodes t -> is_Some (widgets s !! x)).
  { intros x Hx. destruct (shape_parent_in s t x Hshape Hx) as [-> | (Wx & _ & -> & _)];
      [rewrite Hroot, HA|]; eauto. }
  assert (Hfields : forall x Wx, x ∈ nodes t -> widgets s !! x = Some Wx ->
    exists Wx',
      widgets s' !! x = Some Wx' /\
      _parent Wx' = (if bool_decide (x = a) then None else _parent Wx) /\
      test_flag (_flags Wx') IsHidden = test_flag (_flags Wx) IsHidden /\
      test_flag (_flags Wx') IsAttached =
        (if test_flag (_flags B) IsAttached then false
         else test_flag (_flags Wx) IsAttached) /\
      test_flag (_flags Wx') IsVisible =
        (if test_flag (_flags B) IsAttached then false
         else test_flag (_flags Wx) IsVisible)).
  { intros x Wx Hx HWx. rewrite (Hin x Hx), HWx. eexists. split; [reflexivity|].
    destruct (bool_decide (x = a)), (test_flag (_flags B) IsAttached); cbn;
      rewrite ?test_clear_flag;
      rewrite ?(bool_decide_eq_true_2 (IsAttached = IsAttached)),
              ?(bool_decide_eq_true_2 (IsVisible = IsVisible)),
              ?(bool_decide_eq_false_2 (IsAttached = IsVisible)),
              ?(bool_decide_eq_false_2 (IsVisible = IsAttached)),
              ?(bool_decide_eq_false_2 (IsAttached = IsHidden)),
              ?(bool_decide_eq_false_2 (IsVisible = IsHidden)) by done;
      cbn [negb]; by rewrite ?andb_true_r, ?andb_false_r. }
  assert (Hflags : forall x, x ∈ nodes t ->
       flag_of s' x IsHidden = flag_of s x IsHidden /\
       flag_of s' x IsAttached =
         (if test_flag (_flags B) IsAttached then false else flag_of s x IsAttached) /\
       flag_of s' x IsVisible =
         (if test_flag (_flags B) IsAttached then false else flag_of s x IsVisible)).
  { intros x Hx. destruct (Hin_store x Hx) as [Wx HWx].
    destruct (Hfields x Wx Hx HWx) as (Wx' & HWx' & _ & Hh & Ha & Hv).
    unfold flag_of. by rewrite HWx', HWx. }
  exists s'. split_and!; [exact Hrun | exact Hd | | | | exact Hflags | exact Hout | |].
  - destruct (Hfields a A Hain HA) as (A' & HA' & Hp' & _).
    unfold parent_is. rewrite HA', Hp'. by rewrite (bool_decide_eq_true_2 (a = a)).
  - rewrite Harr. apply lookup_insert_eq.
  - eexists _, _. split; [|split].
    + rewrite (Hin a Hain), HA. reflexivity.
    + cbn. rewrite bool_decide_eq_true_2 by done.
      destruct (test_flag (_flags B) IsAttached); reflexivity.
    + reflexivity.
  - intros x p Hne. unfold parent_is. destruct (decide (x ∈ nodes t)) as [Hx | Hx].
    + destruct (Hin_store x Hx) as [Wx HWx].
      destruct (Hfields x Wx Hx HWx) as (Wx' & HWx' & Hp' & _).
      rewrite HWx', HWx, Hp'. by rewrite (bool_decide_eq_false_2 (x = a)).
    + by rewrite (Hout x Hx).
  - intros Hokb Hok. unfold visible_ok_tree in *. apply forallb_forall.
    intros x Hx%list_elem_of_In. rewrite forallb_forall in Hok.
    destruct (Hin_store x Hx) as [Wx HWx].
    destruct (Hfields x Wx Hx HWx) as (Wx' & HWx' & Hp' & Hh & Ha & Hv).
    apply (visible_ok_spec s' x Wx' HWx'). rewrite Hp', Hh, Ha, Hv.
    destruct (test_flag (_flags B) IsAttached) eqn:Hatt; [done|].
    pose proof (proj1 (visible_ok_spec s x Wx HWx)
                  (Hok x (proj1 (list_elem_of_In _ _) Hx))) as Hold.
    intros Hvx. destruct (Hold Hvx) as (Hax & Hhx & Hpx).
    destruct (decide (x = a)) as [-> | Hne].
    + exfalso. assert (Wx = A) by congruence. subst Wx.
      pose proof (Hpx b HpA) as Hvb.
      pose proof (proj1 (visible_ok_spec s b B HB) Hokb) as Hspecb.
      unfold flag_of in Hvb. rewrite HB in Hvb. destruct (Hspecb Hvb) as (? & _). congruence.
    + rewrite bool_decide_eq_false_2 by done. split_and!; [done | done |].
      intros p Hp. pose proof (Hpx p Hp) as Hvp.
      destruct (shape_parent_in s t x Hshape Hx) as [Hr | (Wx0 & p0 & HWx0 & Hp0 & Hpin)];
        [congruence|].
      assert (p0 = p) by congruence. subst p0.
      destruct (Hflags p Hpin) as (_ & _ & ->). done.
Qed.


(** X14: [w.parent = null] on a widget with a parent makes it a root:
    the widget leaves the parent's child array (its first occurrence is
    removed), its node leaves the parent's node, and the other widgets
    stay as they are.  If the parent was attached, the widget and all its
    descendants end up neither attached nor visible; otherwise their
    flags are unchanged.  The Hidden flags never change, and the
    visibility invariant of the widget's tree is kept if the parent
    satisfied it. *)
Theorem unparent_detaches_tree fuel a b A B na nb lb t s :
  widgets s !! a = Some A -> widgets s !! b = Some B -> _parent A = Some b ->
  _node A = Some na -> parentNode na = Some (WidgetNode b) -> _node B = Some nb ->
  arrays s !! _children B = Some lb -> own_arrays s ->
  root t = a -> shape s t = true -> NoDup (nodes t) -> b ∉ nodes t ->
  (S (need t) <= fuel)%nat ->
  exists s',
    set_parent (sendMessage fuel) a None s = Ret tt s' /\
    parent_is s' a None = true /\
    arrays s' !! _children B = Some (remove_first (Some a) lb) /\
    (exists A' na', widgets s' !! a = Some A' /\ _node A' = Some na' /\
                    parentNode na' = None) /\
    (forall x, x ∈ nodes t ->
       flag_of s' x IsHidden = flag_of s x IsHidden /\
       flag_of s' x IsAttached =
         (if test_flag (_flags B) IsAttached then false else flag_of s x IsAttached) /\
       flag_of s' x IsVisible =
         (if test_flag (_flags B) IsAttached then false else flag_of s x IsVisible)) /\
    (forall x, x ∉ nodes t -> widgets s' !! x = widgets s !! x) /\
    (forall x p, x <> a -> parent_is s' x p = parent_is s x p) /\
    (visible_ok s b = true -> visible_ok_tree s t = true -> visible_ok_tree s' t = true).
Proof.
  intros HA HB HpA HnA Hhost HnB Hlb Hown Hroot Hshape Hnd Hb Hfuel.
  destruct fuel as [|n]; [lia|]. assert (Hneed : (need t <= n)%nat) by lia.
  destruct (unparent_spec n a b A B na nb lb t s HA HB HpA HnA Hhost HnB Hlb Hown
              Hroot Hshape Hnd Hb Hneed)
    as (s' & Hrun & _ & Hp & Harr & Hnode & Hfl & Hout & Hpar & Hok).
  exists s'. by split_and!.
Qed.

Lemma unparent_detaches_tree_witness :
  flag_of attached_pair 1%nat IsAttached = true /\
  flag_of attached_pair 1%nat IsVisible = true /\
  exists s',
    set_parent (sendMessage 4) 1%nat None attached_pair = Ret tt s' /\
    parent_is s' 1%nat None = true /\
    flag_of s' 1%nat IsAttached = false /\ flag_of s' 1%nat IsVisible = false /\
    visible_ok_tree s' (Node 1%nat []) = true.
Proof.
  split; [vm_compute; reflexivity|]. split; [vm_compute; reflexivity|].
  edestruct (unparent_detaches_tree 4 1%nat 0%nat) with (s := attached_pair)
    (t := Node 1%nat []) as (s' & Hrun & Hp & _ & _ & Hfl & _ & _ & Hok).
  - vm_compute. reflexivity.
  - vm_compute. reflexivity.
  - reflexivity.
  - reflexivity.
  - reflexivity.
  - reflexivity.
  - vm_compute. reflexivity.
  - apply own_arrays_reflect. vm_compute. reflexivity.
  - reflexivity.
  - vm_compute. reflexivity.
  - apply (bool_decide_unpack _). vm_compute. reflexivity.
  - intros H. apply list_elem_of_In in H. simpl in H. lia.
  - vm_compute. lia.
  - destruct (Hfl 1%nat) as (_ & Ha & Hv); [apply list_elem_of_In; simpl; tauto|].
    exists s'. split_and!; [exact Hrun | exact Hp | exact Ha | exact Hv |].
    apply Hok; vm_compute; reflexivity.
Defined.

(** X15: [close()] on a root changes nothing in the store: the close
    message is delivered and [onClose] finds no parent to leave.  On a
    widget with a parent it has the effect of [parent = null]: the widget
    becomes a root, leaves the parent's child array and the parent's
    node, and, if the parent was attached, the widget and all its
    descendants end up neither attached nor visible; widgets outside
    the widget's tree are untouched. *)
Theorem close_leaves_parent fuel a A s :
  widgets s !! a = Some A ->
  (_parent A = None ->
   close (S fuel) a s =
     Ret tt (set_trace (fun tr => tr ++ [Sent (depth s) a (Msg "close")]) s)) /\
  (forall b B na nb lb t,
     widgets s !! b = Some B -> _parent A = Some b ->
     _node A = Some na -> parentNode na = Some (WidgetNode b) -> _node B = Some nb ->
     arrays s !! _children B = Some lb -> own_arrays s ->
     root t = a -> shape s t = true -> NoDup (nodes t) -> b ∉ nodes t ->
     (S (S (need t)) <= fuel)%nat ->
     exists s',
       close fuel a s = Ret tt s' /\
       depth s' = depth s /\
       parent_is s' a None = true /\
       arrays s' !! _children B = Some (remove_first (Some a) lb) /\
       (exists A' na', widgets s' !! a = Some A' /\ _node A' = Some na' /\
                       parentNode na' = None) /\
       (forall x, x ∈ nodes t ->
          flag_of s' x IsHidden = flag_of s x IsHidden /\
          flag_of s' x IsAttached =
            (if test_flag (_flags B) IsAttached then false else flag_of s x IsAttached) /\
          flag_of s' x IsVisible =
            (if test_flag (_flags B) IsAttached then false else flag_of s x IsVisible)) /\
       (forall x, x ∉ nodes t -> widgets s' !! x = widgets s !! x)).
Proof.
  intros HA.
  assert (Hopen : forall n s1 s2,
    s1 = set_depth S (set_trace (fun tr => tr ++ [Sent (depth s) a (Msg "close")]) s) ->
    set_parent (sendMessage n) a None s1 = Ret tt s2 ->
    close (S n) a s = Ret tt (set_depth Nat.pred s2)).
  { intros n s1 s2 -> Hrun. unfold close. cbn [sendMessage].
    unfold mbind at 1, M_bind at 1. unfold log, modify.
    unfold mbind at 1, M_bind at 1, mbind at 1, M_bind at 1.
    unfold mbind at 1, M_bind at 1.
    change (processMessage (sendMessage n) n a (Msg "close"))
      with (set_parent (sendMessage n) a None).
    by rewrite Hrun. }
  split.
  - intros Hp. erewrite Hopen; [| reflexivity |].
    2:{ unfold set_parent. erewrite bind_run; [| by apply getWidget_run].
        cbv zeta. rewrite Hp, decide_True by done. reflexivity. }
    by destruct s.
  - intros b B na nb lb t HB HpA HnA Hhost HnB Hlb Hown Hroot Hshape Hnd Hb Hfuel.
    destruct fuel as [|[|n]]; [lia | lia |].
    assert (Hneed : (need t <= n)%nat) by lia.
    set (s1 := set_depth S (set_trace (fun tr => tr ++ [Sent (depth s) a (Msg "close")]) s)).
    assert (Hshape1 : shape s1 t = true) by (by rewrite (shape_ext s s1)).
    destruct (unparent_spec n a b A B na nb lb t s1 HA HB HpA HnA Hhost HnB Hlb Hown
                Hroot Hshape1 Hnd Hb Hneed)
      as (s2 & Hrun & Hd & Hp & Harr & Hnode & Hfl & Hout & _ & _).
    exists (set_depth Nat.pred s2). split_and!.
    + by apply (Hopen (S n) s1 s2).
    + store_simpl. by rewrite Hd.
    + exact Hp.
    + exact Harr.
    + exact Hnode.
    + exact Hfl.
    + exact Hout.
Qed.

Lemma close_leaves_parent_witness :
  close 5 0%nat attached_pair =
    Ret tt (set_trace (fun tr => tr ++ [Sent 0 0%nat (Msg "close")]) attached_pair) /\
  exists s',
    close 5 1%nat attached_pair = Ret tt s' /\
    parent_is s' 1%nat None = true /\
    flag_of s' 1%nat IsAttached = false /\ flag_of s' 1%nat IsVisible = false.
Proof.
  split.
  { edestruct (close_leaves_parent 4 0%nat) with (s := attached_pair) as [H _].
    - vm_compute. reflexivity.
    - apply H. reflexivity. }
  edestruct (close_leaves_parent 5 1%nat) with (s := attached_pair) as [_ H].
  { vm_compute. reflexivity. }
  edestruct (H 0%nat) with (t := Node 1%nat []) as (s' & Hrun & _ & Hp & _ & HA' & Hfl & _).
  - vm_compute. reflexivity.
  - reflexivity.
  - reflexivity.
  - reflexivity.
  - reflexivity.
  - vm_compute. reflexivity.
  - apply own_arrays_reflect. vm_compute. reflexivity.
  - reflexivity.
  - vm_compute. reflexivity.
  - apply (bool_decide_unpack _). vm_compute. reflexivity.
  - intros H0. apply list_elem_of_In in H0. simpl in H0. lia.
  - vm_compute. lia.
  - destruct (Hfl 1%nat) as (_ & Ha & Hv); [apply list_elem_of_In; simpl; tauto|].
    exists s'. split_and!; [exact Hrun | exact Hp | exact Ha | exact Hv].
Defined.

(** [w.parent = c] on a root [w], node by node of the tree of [w]. *)
Lemma adopt_run n a c A C na nc lc t s :
  widgets s !! a = Some A -> widgets s !! c = Some C -> _parent A = None ->
  _node A = Some na -> _node C = Some nc ->
  arrays s !! _children C = Some lc -> own_arrays s ->
  root t = a -> shape s t = true -> NoDup (nodes t) -> c ∉ nodes t ->
  (need t <= n)%nat ->
  exists s',
    set_parent (sendMessage (S n)) a (Some c) s = Ret tt s' /\
    (forall x, x ∈ nodes t ->
       widgets s' !! x =
         (fun Wx =>
            let W1 := if bool_decide (x = a)
                      then with_node (Some (with_parentNode (Some (WidgetNode c)) na))
                             (with_parent (Some c) Wx)
                      else Wx in
            if test_flag (_flags C) IsAttached
            then handled "after-attach" s' (with_boxSizing None W1)
            else W1) <$> widgets s !! x) /\
    (forall x, x ∉ nodes t -> widgets s' !! x = widgets s !! x) /\
    arrays s' = <[_children C := lc ++ [Some a]]> (arrays s) /\
    shape s' t = true /\ depth s' = depth s.
Proof.
  intros HA HC HpA HnA HnC Hlc Hown Hroot Hshape Hnd Hc Hneed.
  assert (Hac : a <> c) by (intros <-; apply Hc; rewrite <- Hroot; apply root_in_nodes).
  assert (Hain : a ∈ nodes t) by (rewrite <- Hroot; apply root_in_nodes).
  assert (Harr : forall x Wx, x ∈ nodes t -> widgets s !! x = Some Wx ->
            _children C <> _children Wx).
  { intros x Wx Hx HWx E. apply Hc. by rewrite (Hown c x C Wx). }
  set (A4 := with_parent (Some c) A).
  set (s4 := set_widgets (insert a A4) s).
  set (s5 := set_arrays (insert (_children C) (lc ++ [Some a])) s4).
  assert (Hshape5 : shape s5 t = true).
  { apply (shape_reroot s s5 t A A4); try done.
    - by rewrite Hroot.
    - rewrite Hroot. unfold s5, s4. store_simpl. apply lookup_insert_eq.
    - intros x Hx Hne. unfold s5, s4. store_simpl. rewrite lookup_insert_ne; [done|].
      by rewrite <- Hroot.
    - intros x Wx Hx HWx. unfold s5, s4. store_simpl. rewrite lookup_insert_ne; [done|].
      by eapply Harr. }
  assert (HC5 : widgets s5 !! c = Some C)
    by (unfold s5, s4; store_simpl; by rewrite lookup_insert_ne).
  assert (HA5 : widgets s5 !! a = Some A4)
    by (unfold s5, s4; store_simpl; apply lookup_insert_eq).
  assert (Hk5 : parent_known s5 a = true).
  { unfold parent_known, s5, s4. store_simpl. rewrite lookup_insert_eq. cbn.
    rewrite lookup_insert_ne by done. rewrite HC. by apply bool_decide_eq_true. }
  assert (Hq5 : forall q, _parent A4 = Some q -> q ∉ nodes t) by (by intros q [= <-]).
  destruct (child_moved_nodes true n c C nc a A4 na t s5 HC5 HnC HA5 HnA) as
    (s6 & Hrun6 & Hin6 & Hout6 & Harr6 & Hd6); try done.
  destruct (child_moved_run true n c C nc a A4 na t s5 HC5 HnC HA5 HnA) as
    (s6' & Hrun6' & Ht6 & _); try done.
  cbv zeta in Hrun6, Hin6, Hrun6'. cbv iota in Hrun6, Hin6, Hrun6'.
  rewrite Hrun6 in Hrun6'. injection Hrun6' as <-.
  set (s7 := set_trace (fun tr => tr ++ [Sent (depth s6) a (Msg "parent-changed")]) s6).
  exists s7. split_and!.
  - unfold set_parent.
    rewrite (bind_run _ _ _ _ _ (getWidget_run _ _ _ HA)). cbv zeta.
    rewrite HpA, decide_False by congruence. rewrite mret_bind.
    assert (Hnew : (updWidget a (with_parent (Some c)) ;;
                    P ← getWidget c; array_push (_children P) (Some a) ;;
                    sendMessage (S n) c (ChildMessage "child-added" a)) s = Ret tt s6).
    { rewrite (bind_run _ _ _ _ _ (updWidget_run _ _ _ _ HA)). fold A4 s4.
      erewrite bind_run; [| apply getWidget_run; unfold s4; store_simpl;
                            by rewrite lookup_insert_ne].
      unfold array_push. erewrite bind_run; [| by apply updArray_run].
      exact Hrun6. }
    rewrite (bind_run _ _ _ _ _ Hnew).
    by apply sendMessage_informational_run.
  - intros x Hx.
    change (widgets s7 !! x) with (widgets s6 !! x).
    change (handled "after-attach" s7) with (handled "after-attach" s6).
    rewrite (Hin6 x Hx). unfold s5, s4. store_simpl.
    destruct (decide (x = a)) as [-> | Hne].
    + rewrite lookup_insert_eq, HA. cbn [fmap option_fmap option_map].
      by rewrite !(bool_decide_eq_true_2 (a = a)).
    + rewrite lookup_insert_ne by done. destruct (widgets s !! x); [|done].
      cbn [fmap option_fmap option_map]. by rewrite !(bool_decide_eq_false_2 (x = a)).
  - intros x Hx. unfold s7. store_simpl. rewrite (Hout6 x Hx).
    unfold s5, s4. store_simpl. rewrite lookup_insert_ne; [done|]. by intros <-.
  - unfold s7. store_simpl. by rewrite Harr6.
  - rewrite (shape_ext s5 s7); [done|]. destruct Ht6 as [Hl Ha]. by split.
  - unfold s7. store_simpl. by rewrite Hd6.
Qed.

(** X16: [w.parent = c] on a root [w] makes [w] the last child of [c]
    and puts its node into the node of [c]; Hidden flags and widgets
    outside the tree of [w] are untouched.  Under a parent that is not
    attached no flag changes.  Under an attached parent every node of the
    tree ends up attached, and if none of them was visible before, the
    visible ones afterwards are, provided [c] is visible and [w] is not
    hidden, exactly those not below a hidden node of the tree, and none
    otherwise.  A tree that was not attached and satisfied the visibility
    invariant satisfies it afterwards. *)
Theorem adopt_attaches_tree fuel a c A C na nc lc t s :
  widgets s !! a = Some A -> widgets s !! c = Some C -> _parent A = None ->
  _node A = Some na -> _node C = Some nc ->
  arrays s !! _children C = Some lc -> own_arrays s ->
  root t = a -> shape s t = true -> NoDup (nodes t) -> c ∉ nodes t ->
  (S (need t) <= fuel)%nat ->
  exists s',
    set_parent (sendMessage fuel) a (Some c) s = Ret tt s' /\
    parent_is s' a (Some c) = true /\
    arrays s' !! _children C = Some (lc ++ [Some a]) /\
    node_inside s' a c = true /\
    (forall x, x ∉ nodes t -> widgets s' !! x = widgets s !! x) /\
    (forall x, x ∈ nodes t ->
       flag_of s' x IsHidden = flag_of s x IsHidden /\
       flag_of s' x IsAttached =
         flag_of s x IsAttached || test_flag (_flags C) IsAttached) /\
    (test_flag (_flags C) IsAttached = false ->
     forall x, flag_of s' x IsVisible = flag_of s x IsVisible) /\
    ((forall x, x ∈ nodes t -> flag_of s x IsVisible = false) ->
     test_flag (_flags C) IsAttached = true ->
     forall x, x ∈ nodes t ->
       flag_of s' x IsVisible =
         negb (flag_of s a IsHidden) && flag_of s c IsVisible &&
         bool_decide (x ∈ reached s t)) /\
    (visible_ok_tree s t = true ->
     (forall x, x ∈ nodes t -> flag_of s x IsAttached = false) ->
     visible_ok_tree s' t = true).
Proof.
  intros HA HC HpA HnA HnC Hlc Hown Hroot Hshape Hnd Hc Hfuel.
  destruct fuel as [|n]; [lia|]. assert (Hneed : (need t <= n)%nat) by lia.
  destruct (adopt_run n a c A C na nc lc t s HA HC HpA HnA HnC Hlc Hown Hroot Hshape
              Hnd Hc Hneed) as (s7 & Hrun & Hin & Hout & Harr7 & _ & _).
  assert (Hain : a ∈ nodes t) by (rewrite <- Hroot; apply root_in_nodes).
  assert (Hin_store : forall x, x ∈ nodes t -> is_Some (widgets s !! x)).
  { intros x Hx. destruct (shape_parent_in s t x Hshape Hx) as [-> | (Wx & _ & -> & _)];
      [rewrite Hroot, HA|]; eauto. }
  assert (Hfields : forall x Wx, x ∈ nodes t -> widgets s !! x = Some Wx ->
    exists Wx',
      widgets s7 !! x = Some Wx' /\
      _parent Wx' = (if bool_decide (x = a) then Some c else _parent Wx) /\
      _node Wx' = (if bool_decide (x = a)
                   then Some (with_parentNode (Some (WidgetNode c)) na) else _node Wx) /\
      test_flag (_flags Wx') IsHidden = test_flag (_flags Wx) IsHidden /\
      test_flag (_flags Wx') IsAttached =
        test_flag (_flags Wx) IsAttached || test_flag (_flags C) IsAttached /\
      test_flag (_flags Wx') IsVisible =
        test_flag (_flags Wx) IsVisible ||
        (test_flag (_flags C) IsAttached &&
         (negb (test_flag (_flags Wx) IsHidden) &&
          match (if bool_decide (x = a) then Some c else _parent Wx) with
          | None => true
          | Some p => flag_of s7 p IsVisible
          end))).
  { intros x Wx Hx HWx. rewrite (Hin x Hx), HWx. eexists. split; [reflexivity|].
    destruct (bool_decide (x = a)); destruct (test_flag (_flags C) IsAttached); cbn.
    - destruct (negb (test_flag (_flags Wx) IsHidden) && _); cbn;
        rewrite !test_set_flag; cbn; split_and!; try done;
        by rewrite ?orb_false_r, ?orb_true_r.
    - split_and!; try done; by rewrite ?orb_false_r.
    - destruct (negb (test_flag (_flags Wx) IsHidden) && _); cbn;
        rewrite !test_set_flag; cbn; split_and!; try done;
        by rewrite ?orb_false_r, ?orb_true_r.
    - split_and!; try done; by rewrite ?orb_false_r. }
  assert (Hcv : flag_of s7 c IsVisible = flag_of s c IsVisible).
  { unfold flag_of. by rewrite (Hout c Hc). }
  exists s7. split; [exact Hrun|]. split_and!.
  - destruct (Hfields a A Hain HA) as (A' & HA' & Hp' & _).
    unfold parent_is. rewrite HA', Hp', (bool_decide_eq_true_2 (a = a)) by done.
    by apply bool_decide_eq_true.
  - rewrite Harr7. apply lookup_insert_eq.
  - destruct (Hfields a A Hain HA) as (A' & HA' & _ & Hn' & _).
    unfold node_inside. rewrite HA', Hn', (bool_decide_eq_true_2 (a = a)) by done.
    by apply bool_decide_eq_true.
  - exact Hout.
  - intros x Hx. destruct (Hin_store x Hx) as [Wx HWx].
    destruct (Hfields x Wx Hx HWx) as (Wx' & HWx' & _ & _ & Hh & Ha & _).
    unfold flag_of. by rewrite HWx', HWx.
  - intros Hatt x. destruct (decide (x ∈ nodes t)) as [Hx | Hx].
    + destruct (Hin_store x Hx) as [Wx HWx].
      destruct (Hfields x Wx Hx HWx) as (Wx' & HWx' & _ & _ & _ & _ & Hv).
      unfold flag_of. rewrite HWx', HWx, Hv, Hatt. by rewrite orb_false_r.
    + unfold flag_of. by rewrite (Hout x Hx).
  - intros Hnone Hatt x Hx.
    assert (Hroot_v : flag_of s7 a IsVisible =
                      negb (flag_of s a IsHidden) && flag_of s c IsVisible).
    { destruct (Hfields a A Hain HA) as (A' & HA' & _ & _ & _ & _ & Hv).
      pose proof (Hnone a Hain) as H0. unfold flag_of in H0. rewrite HA in H0.
      rewrite (bool_decide_eq_true_2 (a = a)) in Hv by done.
      rewrite H0, Hatt, Hcv in Hv. unfold flag_of at 1 2. by rewrite HA', HA, Hv. }
    rewrite <- Hroot_v. rewrite <- Hroot at 1.
    apply (reached_closed s (fun y => flag_of s7 y IsVisible) t Hshape Hnd); [|done].
    intros y Wy p Hy HWy Hpy Hpin.
    destruct (Hfields y Wy Hy HWy) as (Wy' & HWy' & _ & _ & _ & _ & Hv).
    assert (Hya : y <> a).
    { intros ->. assert (Wy = A) by congruence. subst Wy. congruence. }
    rewrite (bool_decide_eq_false_2 (y = a)) in Hv by done.
    cbv beta. rewrite Hpy, Hatt in Hv.
    assert (E1 : flag_of s7 y IsVisible = test_flag (_flags Wy') IsVisible)
      by (unfold flag_of; by rewrite HWy').
    assert (E2 : flag_of s y IsHidden = test_flag (_flags Wy) IsHidden)
      by (unfold flag_of; by rewrite HWy).
    assert (E3 : test_flag (_flags Wy) IsVisible = false).
    { pose proof (Hnone y Hy) as H0. unfold flag_of in H0. by rewrite HWy in H0. }
    by rewrite E1, E2, Hv, E3.
  - intros Hok Hnatt. unfold visible_ok_tree in *. apply forallb_forall.
    intros x Hx%list_elem_of_In. rewrite forallb_forall in Hok.
    destruct (Hin_store x Hx) as [Wx HWx].
    destruct (Hfields x Wx Hx HWx) as (Wx' & HWx' & Hp' & _ & Hh & Ha & Hv).
    assert (Hvx : test_flag (_flags Wx) IsVisible = false).
    { pose proof (proj1 (visible_ok_spec s x Wx HWx)
                    (Hok x (proj1 (list_elem_of_In _ _) Hx))) as Hold.
      pose proof (Hnatt x Hx) as H0. unfold flag_of in H0. rewrite HWx in H0.
      destruct (test_flag (_flags Wx) IsVisible); [|done].
      destruct (Hold eq_refl) as (? & _). congruence. }
    apply (visible_ok_spec s7 x Wx' HWx'). rewrite Hp', Hh, Ha, Hv, Hvx. cbn [orb].
    intros [Hatt [Hhx Hpv]%andb_true_iff]%andb_true_iff. apply negb_true_iff in Hhx.
    split_and!; [by rewrite Hatt, orb_true_r | done |].
    intros p E. by rewrite E in Hpv.
Qed.

Lemma adopt_attaches_tree_witness :
  flag_of attached_root 1%nat IsAttached = false /\
  exists s',
    set_parent (sendMessage 4) 1%nat (Some 0%nat) attached_root = Ret tt s' /\
    parent_is s' 1%nat (Some 0%nat) = true /\
    flag_of s' 1%nat IsAttached = true /\ flag_of s' 1%nat IsVisible = true /\
    visible_ok_tree s' (Node 1%nat []) = true.
Proof.
  split; [vm_compute; reflexivity|].
  edestruct (adopt_attaches_tree 4 1%nat 0%nat) with (s := attached_root)
    (t := Node 1%nat []) as (s' & Hrun & Hp & _ & _ & _ & Hfl & _ & Hv & Hok).
  - vm_compute. reflexivity.
  - vm_compute. reflexivity.
  - reflexivity.
  - reflexivity.
  - reflexivity.
  - vm_compute. reflexivity.
  - apply own_arrays_reflect. vm_compute. reflexivity.
  - reflexivity.
  - vm_compute. reflexivity.
  - apply (bool_decide_unpack _). vm_compute. reflexivity.
  - intros H. apply list_elem_of_In in H. simpl in H. lia.
  - vm_compute. lia.
  - assert (H1 : 1%nat ∈ nodes (Node 1%nat [])) by (apply list_elem_of_In; simpl; tauto).
    destruct (Hfl 1%nat H1) as (_ & Ha).
    exists s'. split_and!; [exact Hrun | exact Hp | | |].
    + rewrite Ha. vm_compute. reflexivity.
    + rewrite Hv; [vm_compute; reflexivity | | reflexivity | exact H1].
      intros x [<- | []]%list_elem_of_In. vm_compute. reflexivity.
    + apply Hok; [vm_compute; reflexivity|].
      intros x [<- | []]%list_elem_of_In. vm_compute. reflexivity.
Defined.

Lemma remove_first_last (v : option wid) (l : list (option wid)) :
  v ∉ l -> remove_first v (l ++ [v]) = l.
Proof.
  induction l as [|x l IH]; intros Hv; cbn [app remove_first].
  - by rewrite decide_True.
  - apply not_elem_of_cons in Hv as [Hne Hv].
    rewrite decide_False by done. by rewrite IH.
Qed.

(** X17: giving a root [w] the parent [c] and taking the parent away
    again restores the trees: every widget has the parent and the child
    array it had, and every child array holds what it held.  Widgets
    outside the tree of [w] are untouched, no flag other than Attached
    and Visible changes, and if no node of the tree of [w] was attached or visible
    before, then all flags are as they were. *)
Theorem adopt_then_unparent_restores fuel a c A C na nc lc t s :
  widgets s !! a = Some A -> widgets s !! c = Some C -> _parent A = None ->
  _node A = Some na -> _node C = Some nc ->
  arrays s !! _children C = Some lc -> Some a ∉ lc -> own_arrays s ->
  root t = a -> shape s t = true -> NoDup (nodes t) -> c ∉ nodes t ->
  (S (need t) <= fuel)%nat ->
  exists s1 s2,
    set_parent (sendMessage fuel) a (Some c) s = Ret tt s1 /\
    set_parent (sendMessage fuel) a None s1 = Ret tt s2 /\
    same_tree s s2 /\
    (forall x, x ∉ nodes t -> widgets s2 !! x = widgets s !! x) /\
    (forall x fl, fl <> IsAttached -> fl <> IsVisible ->
       flag_of s2 x fl = flag_of s x fl) /\
    ((forall x, x ∈ nodes t ->
        flag_of s x IsAttached = false /\ flag_of s x IsVisible = false) ->
     forall x fl, flag_of s2 x fl = flag_of s x fl).
Proof.
  intros HA HC HpA HnA HnC Hlc Hfresh Hown Hroot Hshape Hnd Hc Hfuel.
  destruct fuel as [|n]; [lia|]. assert (Hneed : (need t <= n)%nat) by lia.
  destruct (adopt_run n a c A C na nc lc t s HA HC HpA HnA HnC Hlc Hown Hroot Hshape
              Hnd Hc Hneed) as (s1 & Hrun1 & Hin1 & Hout1 & Harr1 & Hshape1 & _).
  assert (Hain : a ∈ nodes t) by (rewrite <- Hroot; apply root_in_nodes).
  assert (Hin_store : forall x, x ∈ nodes t -> is_Some (widgets s !! x)).
  { intros x Hx. destruct (shape_parent_in s t x Hshape Hx) as [-> | (Wx & _ & -> & _)];
      [rewrite Hroot, HA|]; eauto. }
  (* what the first step leaves of a node of the tree *)
  assert (Hf1 : forall x Wx, x ∈ nodes t -> widgets s !! x = Some Wx ->
    exists Wx',
      widgets s1 !! x = Some Wx' /\ _children Wx' = _children Wx /\
      _parent Wx' = (if bool_decide (x = a) then Some c else _parent Wx) /\
      _node Wx' = (if bool_decide (x = a)
                   then Some (with_parentNode (Some (WidgetNode c)) na) else _node Wx) /\
      (forall fl, fl <> IsAttached -> fl <> IsVisible ->
         test_flag (_flags Wx') fl = test_flag (_flags Wx) fl) /\
      (test_flag (_flags C) IsAttached = false -> _flags Wx' = _flags Wx)).
  { intros x Wx Hx HWx. rewrite (Hin1 x Hx), HWx. eexists. split; [reflexivity|].
    destruct (bool_decide (x = a)); destruct (test_flag (_flags C) IsAttached); cbn;
      try (by split_and!);
      destruct (negb (test_flag (_flags Wx) IsHidden) && _); cbn;
      (split_and!; try done; intros fl H1 H2; rewrite !test_set_flag;
       rewrite ?(bool_decide_eq_false_2 (IsAttached = fl)),
               ?(bool_decide_eq_false_2 (IsVisible = fl)) by congruence;
       by rewrite ?orb_false_r). }
  destruct (Hf1 a A Hain HA) as (A1 & HA1 & HcA1 & HpA1 & HnA1 & _).
  rewrite (bool_decide_eq_true_2 (a = a)) in HpA1, HnA1 by done.
  assert (HC1 : widgets s1 !! c = Some C) by (by rewrite (Hout1 c Hc)).
  assert (Hchild1 : forall x W1, widgets s1 !! x = Some W1 ->
            exists W, widgets s !! x = Some W /\ _children W1 = _children W).
  { intros x W1 HW1. destruct (decide (x ∈ nodes t)) as [Hx | Hx].
    - destruct (Hin_store x Hx) as [Wx HWx].
      destruct (Hf1 x Wx Hx HWx) as (Wx' & HWx' & Hcx & _).
      exists Wx. split; [done | congruence].
    - exists W1. by rewrite <- (Hout1 x Hx). }
  assert (Hown1 : own_arrays s1).
  { intros w1 w2 V1 V2 H1 H2 E.
    destruct (Hchild1 w1 V1 H1) as (U1 & HU1 & E1).
    destruct (Hchild1 w2 V2 H2) as (U2 & HU2 & E2).
    apply (Hown w1 w2 U1 U2 HU1 HU2). congruence. }
  assert (Hlc1 : arrays s1 !! _children C = Some (lc ++ [Some a]))
    by (rewrite Harr1; apply lookup_insert_eq).
  destruct (unparent_run n a c A1 C (with_parentNode (Some (WidgetNode c)) na) nc
              (lc ++ [Some a]) t s1 HA1 HC1 HpA1 HnA1 eq_refl HnC Hlc1 Hown1 Hroot
              Hshape1 Hnd Hc Hneed) as (s2 & Hrun2 & Hin2 & Hout2 & Harr2 & _ & _).
  (* what both steps leave of a node of the tree *)
  assert (Hf2 : forall x Wx, x ∈ nodes t -> widgets s !! x = Some Wx ->
    exists Wx',
      widgets s2 !! x = Some Wx' /\ links Wx' = links Wx /\
      (forall fl, fl <> IsAttached -> fl <> IsVisible ->
         test_flag (_flags Wx') fl = test_flag (_flags Wx) fl) /\
      test_flag (_flags Wx') IsAttached =
        (if test_flag (_flags C) IsAttached then false
         else test_flag (_flags Wx) IsAttached) /\
      test_flag (_flags Wx') IsVisible =
        (if test_flag (_flags C) IsAttached then false
         else test_flag (_flags Wx) IsVisible)).
  { intros x Wx Hx HWx.
    destruct (Hf1 x Wx Hx HWx) as (Wx1 & HWx1 & Hc1 & Hp1 & _ & Hk1 & Hfl1).
    rewrite (Hin2 x Hx), HWx1. eexists. split; [reflexivity|].
    assert (Hpx : x = a -> _parent Wx = None).
    { intros ->. congruence. }
    assert (Hclear : forall W0 : Widget,
      (forall fl, fl <> IsAttached -> fl <> IsVisible ->
         test_flag (clear_flag (clear_flag (_flags W0) IsVisible) IsAttached) fl =
         test_flag (_flags W0) fl) /\
      test_flag (clear_flag (clear_flag (_flags W0) IsVisible) IsAttached) IsAttached = false /\
      test_flag (clear_flag (clear_flag (_flags W0) IsVisible) IsAttached) IsVisible = false).
    { intros W0. split_and!.
      - intros fl H1 H2. rewrite !test_clear_flag.
        rewrite (bool_decide_eq_false_2 (IsAttached = fl)),
                (bool_decide_eq_false_2 (IsVisible = fl)) by congruence.
        cbn [negb]. by rewrite !andb_true_r.
      - rewrite !test_clear_flag, (bool_decide_eq_true_2 (IsAttached = IsAttached)) by done.
        apply andb_false_r.
      - rewrite !test_clear_flag, (bool_decide_eq_true_2 (IsVisible = IsVisible)) by done.
        cbn [negb]. by rewrite andb_false_r. }
    unfold links.
    destruct (decide (x = a)) as [Hxa | Hxa].
    - rewrite (bool_decide_eq_true_2 (x = a)) by done.
      destruct (test_flag (_flags C) IsAttached) eqn:Hatt; cbn.
      + destruct (Hclear Wx1) as (Hk & -> & ->). rewrite (Hpx Hxa), Hc1.
        split_and!; try done. intros fl H1 H2. by rewrite Hk, Hk1.
      + rewrite (Hpx Hxa), Hc1, (Hfl1 eq_refl). by split_and!.
    - rewrite (bool_decide_eq_false_2 (x = a)) in * by done.
      destruct (test_flag (_flags C) IsAttached) eqn:Hatt; cbn.
      + destruct (Hclear Wx1) as (Hk & -> & ->). rewrite Hp1, Hc1.
        split_and!; try done. intros fl H1 H2. by rewrite Hk, Hk1.
      + rewrite Hp1, Hc1, (Hfl1 eq_refl). by split_and!. }
  assert (Hout : forall x, x ∉ nodes t -> widgets s2 !! x = widgets s !! x).
  { intros x Hx. by rewrite (Hout2 x Hx), (Hout1 x Hx). }
  exists s1, s2. split; [exact Hrun1|]. split; [exact Hrun2|].
  split; [| split; [exact Hout | split]].
  - split.
    + apply map_eq. intros x. rewrite !lookup_fmap.
      destruct (decide (x ∈ nodes t)) as [Hx | Hx]; [| by rewrite (Hout x Hx)].
      destruct (Hin_store x Hx) as [Wx HWx].
      destruct (Hf2 x Wx Hx HWx) as (Wx' & HWx' & Hl & _).
      rewrite HWx', HWx. cbn. by rewrite Hl.
    + rewrite Harr2, Harr1, insert_insert_eq, remove_first_last by done.
      by apply insert_id.
  - intros x fl H1 H2. destruct (decide (x ∈ nodes t)) as [Hx | Hx].
    + destruct (Hin_store x Hx) as [Wx HWx].
      destruct (Hf2 x Wx Hx HWx) as (Wx' & HWx' & _ & Hk & _).
      unfold flag_of. rewrite HWx', HWx. by apply Hk.
    + unfold flag_of. by rewrite (Hout x Hx).
  - intros Hnone x fl. destruct (decide (x ∈ nodes t)) as [Hx | Hx].
    + destruct (Hin_store x Hx) as [Wx HWx].
      destruct (Hf2 x Wx Hx HWx) as (Wx' & HWx' & _ & Hk & Ha & Hv).
      destruct (Hnone x Hx) as [Ha0 Hv0]. unfold flag_of in *.
      rewrite HWx in Ha0, Hv0. rewrite HWx', HWx.
      destruct (decide (fl = IsAttached)) as [-> | H1].
      { rewrite Ha, Ha0. by destruct (test_flag (_flags C) IsAttached). }
      destruct (decide (fl = IsVisible)) as [-> | H2].
      { rewrite Hv, Hv0. by destruct (test_flag (_flags C) IsAttached). }
      by apply Hk.
    + unfold flag_of. by rewrite (Hout x Hx).
Qed.

Lemma adopt_then_unparent_restores_witness :
  exists s1 s2,
    set_parent (sendMessage 4) 1%nat (Some 0%nat) attached_root = Ret tt s1 /\
    flag_of s1 1%nat IsAttached = true /\
    set_parent (sendMessage 4) 1%nat None s1 = Ret tt s2 /\
    same_tree attached_root s2 /\
    flag_of s2 1%nat IsAttached = false.
Proof.
  edestruct (adopt_then_unparent_restores 4 1%nat 0%nat) with (s := attached_root)
    (t := Node 1%nat []) as (s1 & s2 & Hrun1 & Hrun2 & Htree & _ & _ & Hfl).
  - vm_compute. reflexivity.
  - vm_compute. reflexivity.
  - reflexivity.
  - reflexivity.
  - reflexivity.
  - vm_compute. reflexivity.
  - intros H. apply list_elem_of_In in H. simpl in H. tauto.
  - apply own_arrays_reflect. vm_compute. reflexivity.
  - reflexivity.
  - vm_compute. reflexivity.
  - apply (bool_decide_unpack _). vm_compute. reflexivity.
  - intros H. apply list_elem_of_In in H. simpl in H. lia.
  - vm_compute. lia.
  - exists s1, s2. split; [exact Hrun1|]. split; [|split; [exact Hrun2|split; [exact Htree|]]].
    + assert (E : set_parent (sendMessage 4) 1%nat (Some 0%nat) attached_root = Ret tt s1)
        by exact Hrun1.
      vm_compute in E. injection E as <-. vm_compute. reflexivity.
    + rewrite Hfl; [vm_compute; reflexivity|].
      intros x [<- | []]%list_elem_of_In. split; vm_compute; reflexivity.
Defined.

(** X18: [detach()] undoes [attach(host)] on a root: after both, every
    widget has the parent and the child array it had, the node of the
    root is in no host, no node of the tree is attached or visible, no
    other flag has changed, and widgets outside the tree are untouched.
    So a tree that was neither attached nor visible gets all its flags
    back. *)
Theorem attach_then_detach_restores fuel this host s W nd t :
  widgets s !! this = Some W -> _parent W = None -> _node W = Some nd ->
  root t = this -> shape s t = true -> NoDup (nodes t) -> (need t <= fuel)%nat ->
  exists s1 s2,
    attach fuel this host s = Ret tt s1 /\
    detach fuel this s1 = Ret tt s2 /\
    same_tree s s2 /\
    (forall x, x ∉ nodes t -> widgets s2 !! x = widgets s !! x) /\
    (exists W2 nd2, widgets s2 !! this = Some W2 /\ _node W2 = Some nd2 /\
                    parentNode nd2 = None) /\
    (forall x fl, fl <> IsAttached -> fl <> IsVisible ->
       flag_of s2 x fl = flag_of s x fl) /\
    (forall x, x ∈ nodes t ->
       flag_of s2 x IsAttached = false /\ flag_of s2 x IsVisible = false).
Proof.
  intros Hw Hp Hn Hroot Hshape Hnd Hfuel.
  destruct (attach_run fuel this W nd host t s Hw Hp Hn Hroot Hshape Hnd Hfuel)
    as (s1 & Hrun1 & Hin1 & Hout1 & Harr1 & _ & _).
  assert (Hwin : this ∈ nodes t) by (rewrite <- Hroot; apply root_in_nodes).
  assert (Hin_store : forall x, x ∈ nodes t -> is_Some (widgets s !! x)).
  { intros x Hx. destruct (shape_parent_in s t x Hshape Hx) as [-> | (Wx & _ & -> & _)];
      [rewrite Hroot, Hw|]; eauto. }
  assert (Hf1 : forall x Wx, x ∈ nodes t -> widgets s !! x = Some Wx ->
    exists Wx',
      widgets s1 !! x = Some Wx' /\ links Wx' = links Wx /\
      _node Wx' = (if bool_decide (x = this)
                   then Some (with_parentNode (Some (HostNode host)) nd) else _node Wx) /\
      (forall fl, fl <> IsAttached -> fl <> IsVisible ->
         test_flag (_flags Wx') fl = test_flag (_flags Wx) fl)).
  { intros x Wx Hx HWx. rewrite (Hin1 x Hx), HWx. eexists. split; [reflexivity|].
    destruct (bool_decide (x = this)); cbn;
      destruct (negb (test_flag (_flags Wx) IsHidden) && _); cbn;
      (split_and!; try done; intros fl H1 H2; rewrite !test_set_flag;
       rewrite ?(bool_decide_eq_false_2 (IsAttached = fl)),
               ?(bool_decide_eq_false_2 (IsVisible = fl)) by congruence;
       by rewrite ?orb_false_r). }
  assert (Htree1 : same_tree s s1).
  { split; [|exact Harr1]. apply map_eq. intros x. rewrite !lookup_fmap.
    destruct (decide (x ∈ nodes t)) as [Hx | Hx]; [| by rewrite (Hout1 x Hx)].
    destruct (Hin_store x Hx) as [Wx HWx].
    destruct (Hf1 x Wx Hx HWx) as (Wx' & HWx' & Hl & _).
    rewrite HWx', HWx. cbn. by rewrite Hl. }
  destruct (Hf1 this W Hwin Hw) as (W1 & HW1 & Hl1 & Hn1 & _).
  rewrite (bool_decide_eq_true_2 (this = this)) in Hn1 by done.
  assert (Hp1 : _parent W1 = None).
  { unfold links in Hl1. injection Hl1 as -> _. exact Hp. }
  assert (Hshape1 : shape s1 t = true) by (by rewrite (shape_ext s s1)).
  destruct (detach_run fuel this W1 (with_parentNode (Some (HostNode host)) nd)
              (HostNode host) t s1 HW1 Hp1 Hn1 eq_refl Hroot Hshape1 Hnd Hfuel)
    as (s2 & Hrun2 & _ & Hin2 & Hout2 & Harr2 & _ & _).
  assert (Hf2 : forall x Wx, x ∈ nodes t -> widgets s !! x = Some Wx ->
    exists Wx',
      widgets s2 !! x = Some Wx' /\ links Wx' = links Wx /\
      (x = this -> exists nd2, _node Wx' = Some nd2 /\ parentNode nd2 = None) /\
      (forall fl, fl <> IsAttached -> fl <> IsVisible ->
         test_flag (_flags Wx') fl = test_flag (_flags Wx) fl) /\
      test_flag (_flags Wx') IsAttached = false /\
      test_flag (_flags Wx') IsVisible = false).
  { intros x Wx Hx HWx.
    destruct (Hf1 x Wx Hx HWx) as (Wx1 & HWx1 & Hlx & _ & Hk1).
    rewrite (Hin2 x Hx), HWx1. eexists. split; [reflexivity|].
    assert (Hclear : forall W0 : Widget,
      (forall fl, fl <> IsAttached -> fl <> IsVisible ->
         test_flag (clear_flag (clear_flag (_flags W0) IsVisible) IsAttached) fl =
         test_flag (_flags W0) fl) /\
      test_flag (clear_flag (clear_flag (_flags W0) IsVisible) IsAttached) IsAttached = false /\
      test_flag (clear_flag (clear_flag (_flags W0) IsVisible) IsAttached) IsVisible = false).
    { intros W0. split_and!.
      - intros fl H1 H2. rewrite !test_clear_flag.
        rewrite (bool_decide_eq_false_2 (IsAttached = fl)),
                (bool_decide_eq_false_2 (IsVisible = fl)) by congruence.
        cbn [negb]. by rewrite !andb_true_r.
      - rewrite !test_clear_flag, (bool_decide_eq_true_2 (IsAttached = IsAttached)) by done.
        apply andb_false_r.
      - rewrite !test_clear_flag, (bool_decide_eq_true_2 (IsVisible = IsVisible)) by done.
        cbn [negb]. by rewrite andb_false_r. }
    destruct (Hclear Wx1) as (Hk & Ha & Hv).
    destruct (decide (x = this)) as [Hx0 | Hx0].
    - rewrite (bool_decide_eq_true_2 (x = this)) by done. cbn.
      rewrite Ha, Hv. split_and!; try done.
      + by eexists.
      + intros fl H1 H2. by rewrite Hk, Hk1.
    - rewrite (bool_decide_eq_false_2 (x = this)) by done. cbn.
      rewrite Ha, Hv. split_and!; try done.
      intros fl H1 H2. by rewrite Hk, Hk1. }
  assert (Hout : forall x, x ∉ nodes t -> widgets s2 !! x = widgets s !! x).
  { intros x Hx. by rewrite (Hout2 x Hx), (Hout1 x Hx). }
  exists s1, s2. split; [exact Hrun1|]. split; [exact Hrun2|].
  split; [| split; [exact Hout | split; [| split]]].
  - split; [| by rewrite Harr2].
    apply map_eq. intros x. rewrite !lookup_fmap.
    destruct (decide (x ∈ nodes t)) as [Hx | Hx]; [| by rewrite (Hout x Hx)].
    destruct (Hin_store x Hx) as [Wx HWx].
    destruct (Hf2 x Wx Hx HWx) as (Wx' & HWx' & Hl & _).
    rewrite HWx', HWx. cbn. by rewrite Hl.
  - destruct (Hf2 this W Hwin Hw) as (W2 & HW2 & _ & Hnode & _).
    destruct (Hnode eq_refl) as (nd2 & Hn2 & Hh2). by exists W2, nd2.
  - intros x fl H1 H2. destruct (decide (x ∈ nodes t)) as [Hx | Hx].
    + destruct (Hin_store x Hx) as [Wx HWx].
      destruct (Hf2 x Wx Hx HWx) as (Wx' & HWx' & _ & _ & Hk & _).
      unfold flag_of. rewrite HWx', HWx. by apply Hk.
    + unfold flag_of. by rewrite (Hout x Hx).
  - intros x Hx. destruct (Hin_store x Hx) as [Wx HWx].
    destruct (Hf2 x Wx Hx HWx) as (Wx' & HWx' & _ & _ & _ & Ha & Hv).
    unfold flag_of. by rewrite HWx'.
Qed.

Lemma attach_then_detach_restores_witness :
  exists s1 s2,
    attach 5 0%nat 7%nat family = Ret tt s1 /\
    flag_of s1 1%nat IsVisible = true /\
    detach 5 0%nat s1 = Ret tt s2 /\
    same_tree family s2 /\
    flag_of s2 1%nat IsAttached = false /\ flag_of s2 1%nat IsVisible = false.
Proof.
  edestruct (attach_then_detach_restores 5 0%nat 7%nat family) with (t := family_tree)
    as (s1 & s2 & Hrun1 & Hrun2 & Htree & _ & _ & _ & Hfl).
  - vm_compute. reflexivity.
  - reflexivity.
  - reflexivity.
  - reflexivity.
  - vm_compute. reflexivity.
  - apply (bool_decide_unpack _). vm_compute. reflexivity.
  - vm_compute. lia.
  - destruct (Hfl 1%nat) as [Ha Hv]; [apply list_elem_of_In; simpl; tauto|].
    exists s1, s2. split; [exact Hrun1|].
    split; [| split; [exact Hrun2 | split; [exact Htree | split; [exact Ha | exact Hv]]]].
    assert (E : attach 5 0%nat 7%nat family = Ret tt s1) by exact Hrun1.
    vm_compute in E. injection E as <-. vm_compute. reflexivity.
Defined.

Lemma theNode_null w W s :
  widgets s !! w = Some W -> _node W = None -> theNode w s = Throw TypeError s.
Proof.
  intros Hw Hn. unfold theNode.
  by rewrite (bind_run _ _ _ _ _ (getWidget_run _ _ _ Hw)), Hn.
Qed.

Lemma bind_throw {A B} (m : M A) (k : A -> M B) e s s' :
  m s = Throw e s' -> (m ≫= k) s = Throw e s'.
Proof. unfold mbind, M_bind. by intros ->. Qed.

(** X19: a widget whose node is null, as [dispose()] leaves it, raises a
    TypeError and writes nothing when its class list or its geometry is
    used: [hasClass], [addClass], [removeClass], [setGeometry], [move]
    and [resize] throw, [detach] throws on a root, [hide] throws unless
    the widget is hidden already, and [show] throws if it is hidden
    (the widget being no longer attached). *)
Theorem null_node_throws fuel w W s :
  widgets s !! w = Some W -> _node W = None ->
  (forall name,
     hasClass w name s = Throw TypeError s /\
     addClass w name s = Throw TypeError s /\
     removeClass w name s = Throw TypeError s) /\
  (forall x y width height,
     setGeometry fuel w x y width height s = Throw TypeError s /\
     move fuel w x y s = Throw TypeError s /\
     resize fuel w width height s = Throw TypeError s) /\
  (_parent W = None -> detach fuel w s = Throw TypeError s) /\
  (test_flag (_flags W) IsAttached = false ->
   hide fuel w s =
     (if test_flag (_flags W) IsHidden then Ret tt s else Throw TypeError s) /\
   show fuel w s =
     (if test_flag (_flags W) IsHidden then Throw TypeError s else Ret tt s)).
Proof.
  intros Hw Hn.
  pose proof (theNode_null w W s Hw Hn) as Hnode.
  assert (Hupd : forall f, updNode w f s = Throw TypeError s).
  { intros f. unfold updNode. by rewrite (bind_throw _ _ _ _ _ Hnode). }
  assert (Hgeo : forall x y width height,
            setGeometry fuel w x y width height s = Throw TypeError s).
  { intros x y width height. unfold setGeometry.
    rewrite (bind_run _ _ _ _ _ (getWidget_run _ _ _ Hw)). cbv zeta.
    destruct (_boxSizing W) as [box|] eqn:Hbox.
    - assert (Hb : boxSizing w s = Ret box s).
      { unfold boxSizing. by rewrite (bind_run _ _ _ _ _ (getWidget_run _ _ _ Hw)), Hbox. }
      rewrite (bind_run _ _ _ _ _ Hb). by rewrite (bind_throw _ _ _ _ _ Hnode).
    - assert (Hb : boxSizing w s = Throw TypeError s).
      { unfold boxSizing. by rewrite (bind_run _ _ _ _ _ (getWidget_run _ _ _ Hw)), Hbox, Hn. }
      by rewrite (bind_throw _ _ _ _ _ Hb). }
  split_and!.
  - intros name. split_and!.
    + unfold hasClass. by rewrite (bind_throw _ _ _ _ _ Hnode).
    + apply Hupd.
    + apply Hupd.
  - intros x y width height. split_and!; [apply Hgeo | |].
    + unfold move. by rewrite (bind_run _ _ _ _ _ (getWidget_run _ _ _ Hw)).
    + unfold resize. by rewrite (bind_run _ _ _ _ _ (getWidget_run _ _ _ Hw)).
  - intros Hp. unfold detach.
    by rewrite (bind_run _ _ _ _ _ (getWidget_run _ _ _ Hw)), Hp, Hn.
  - intros Ha. split.
    + unfold hide, isHidden.
      rewrite (bind_run _ _ _ _ _ (testFlag_run _ _ IsHidden _ Hw)).
      destruct (test_flag (_flags W) IsHidden); [done|].
      rewrite (bind_run _ _ _ _ _ (getWidget_run _ _ _ Hw)). cbv zeta.
      unfold isAttached.
      rewrite (bind_run _ _ _ _ _ (testFlag_run _ _ IsAttached _ Hw)), Ha.
      rewrite mret_bind. unfold addClass.
      by rewrite (bind_throw _ _ _ _ _ (bind_throw _ _ _ _ _ (Hupd _))).
    + unfold show, isHidden.
      rewrite (bind_run _ _ _ _ _ (testFlag_run _ _ IsHidden _ Hw)).
      destruct (test_flag (_flags W) IsHidden); [|done]. cbn [negb].
      rewrite (bind_run _ _ _ _ _ (getWidget_run _ _ _ Hw)). cbv zeta.
      unfold isAttached.
      rewrite (bind_run _ _ _ _ _ (testFlag_run _ _ IsAttached _ Hw)), Ha.
      rewrite mret_bind. unfold removeClass.
      by rewrite (bind_throw _ _ _ _ _ (bind_throw _ _ _ _ _ (Hupd _))).
Qed.

Lemma null_node_throws_witness :
  dispose 3 0%nat one_widget = Ret tt disposed_widget /\
  hasClass 0%nat WIDGET_CLASS disposed_widget = Throw TypeError disposed_widget /\
  move 3 0%nat (Fin 1) (Fin 1) disposed_widget = Throw TypeError disposed_widget /\
  detach 3 0%nat disposed_widget = Throw TypeError disposed_widget /\
  hide 3 0%nat disposed_widget = Throw TypeError disposed_widget.
Proof.
  split; [vm_compute; reflexivity|].
  edestruct (null_node_throws 3 0%nat) with (s := disposed_widget)
    as (Hc & Hg & Hd & Hh).
  - vm_compute. reflexivity.
  - reflexivity.
  - destruct (Hc WIDGET_CLASS) as (H1 & _). destruct (Hg (Fin 1) (Fin 1) (Fin 0) (Fin 0)) as (_ & H2 & _).
    destruct Hh as [H3 _]; [vm_compute; reflexivity|].
    split_and!; [exact H1 | exact H2 | by apply Hd | exact H3].
Defined.

(** X20: the constructor makes a widget that the store did not hold
    and touches no other widget and no array that exists.  The new
    widget is a root without children, layout or flags, its node carries
    the widget class, and with the default policy word built from one
    policy (as widget.ts builds it from [SizePolicy.Preferred]) both
    policy getters return that policy.  Every widget keeps a child array
    of its own. *)
Theorem newWidget_fresh_leaf p sheet s :
  own_arrays s ->
  (forall x W, widgets s !! x = Some W -> is_Some (arrays s !! _children W)) ->
  0 <= p < 2 ^ 15 ->
  exists w s',
    newWidget (js_or (js_shl p 16) p) sheet s = Ret w s' /\
    widgets s !! w = None /\
    (forall x, x <> w -> widgets s' !! x = widgets s !! x) /\
    (forall a, is_Some (arrays s !! a) -> arrays s' !! a = arrays s !! a) /\
    own_arrays s' /\
    (forall x W, widgets s' !! x = Some W -> is_Some (arrays s' !! _children W)) /\
    shape s' (Node w []) = true /\
    parent_is s' w None = true /\
    layout_of s' w = None /\
    (forall fl, flag_of s' w fl = false) /\
    hasClass w WIDGET_CLASS s' = Ret true s' /\
    horizontalSizePolicy w s' = Ret p s' /\
    verticalSizePolicy w s' = Ret p s'.
Proof.
  intros Hown Halloc Hp.
  set (w := fresh (dom (widgets s))).
  set (arr := fresh (dom (arrays s))).
  set (policy := js_or (js_shl p 16) p).
  set (nd := mkElement None [WIDGET_CLASS] (mkStyle None None None None) sheet).
  set (W := mkWidget (Some nd) None None arr policy None
                     (Fin 0) (Fin 0) (Fin 0) (Fin 0) 0).
  set (s' := set_widgets (insert w W)
               (set_arrays (insert arr [])
                  (set_widgets (insert w (with_node
                     (Some (mkElement None [] (mkStyle None None None None) sheet)) W)) s))).
  assert (Hw : widgets s !! w = None).
  { apply not_elem_of_dom. apply is_fresh. }
  assert (Harr : arrays s !! arr = None).
  { apply not_elem_of_dom. apply is_fresh. }
  assert (Hrun : newWidget policy sheet s = Ret w s').
  { unfold newWidget. fold w arr.
    unfold addClass. erewrite bind_run.
    2:{ eapply updNode_run; [store_simpl; apply lookup_insert_eq | reflexivity]. }
    reflexivity. }
  assert (HW : widgets s' !! w = Some W).
  { unfold s'. store_simpl. apply lookup_insert_eq. }
  assert (Hother : forall x, x <> w -> widgets s' !! x = widgets s !! x).
  { intros x Hx. unfold s'. store_simpl. by rewrite !lookup_insert_ne. }
  assert (Harrs : arrays s' = <[arr := []]> (arrays s)) by (unfold s'; by store_simpl).
  assert (Hne : forall x Wx, widgets s !! x = Some Wx -> _children Wx <> arr).
  { intros x Wx HWx E. destruct (Halloc x Wx HWx) as [l Hl]. rewrite E in Hl. congruence. }
  assert (Hpol : policy = p * 2 ^ 16 + p) by (apply pack_int32; pows; lia).
  destruct (unpack_packed p p) as [Hhi Hlo]; [pows; lia | pows; lia |].
  exists w, s'. split_and!.
  - exact Hrun.
  - exact Hw.
  - exact Hother.
  - intros a [l Hl]. rewrite Harrs. rewrite lookup_insert_ne; [done|]. congruence.
  - intros w1 w2 W1 W2 H1 H2 E.
    destruct (decide (w1 = w)) as [-> | N1], (decide (w2 = w)) as [-> | N2]; [done | | |].
    + rewrite HW in H1. injection H1 as <-. rewrite (Hother w2 N2) in H2.
      exfalso. apply (Hne w2 W2 H2). by rewrite <- E.
    + rewrite HW in H2. injection H2 as <-. rewrite (Hother w1 N1) in H1.
      exfalso. by apply (Hne w1 W1 H1).
    + rewrite (Hother w1 N1) in H1. rewrite (Hother w2 N2) in H2. by eapply Hown.
  - intros x Wx HWx. rewrite Harrs. destruct (decide (x = w)) as [-> | N].
    + rewrite HW in HWx. injection HWx as <-. cbn. rewrite lookup_insert_eq. by eexists.
    + rewrite (Hother x N) in HWx.
      rewrite lookup_insert_ne; [by eapply Halloc | intros E; by apply (Hne x Wx HWx)].
  - cbn [shape]. rewrite HW. cbn [forallb map]. rewrite andb_true_r.
    apply bool_decide_eq_true. rewrite Harrs. apply lookup_insert_eq.
  - unfold parent_is. by rewrite HW.
  - unfold layout_of. by rewrite HW.
  - intros fl. unfold flag_of. rewrite HW. by destruct fl.
  - unfold hasClass. by rewrite (bind_run _ _ _ _ _ (theNode_run _ _ _ _ HW eq_refl)).
  - unfold horizontalSizePolicy.
    rewrite (bind_run _ _ _ _ _ (getWidget_run _ _ _ HW)). cbn [_sizePolicy W].
    unfold mret, M_ret. f_equal. change (_sizePolicy W) with policy. by rewrite Hpol.
  - unfold verticalSizePolicy.
    rewrite (bind_run _ _ _ _ _ (getWidget_run _ _ _ HW)).
    unfold mret, M_ret. f_equal. change (_sizePolicy W) with policy. by rewrite Hpol.
Qed.

Lemma newWidget_fresh_leaf_witness :
  exists s',
    newWidget (js_or (js_shl 1 16) 1) plain_sheet attached_pair = Ret 3%nat s' /\
    widgets s' !! 0%nat = widgets attached_pair !! 0%nat /\
    own_arrays s' /\
    shape s' (Node 3%nat []) = true /\
    horizontalSizePolicy 3%nat s' = Ret 1 s'.
Proof.
  destruct (newWidget_fresh_leaf 1 plain_sheet attached_pair)
    as (w & s' & Hrun & _ & Hother & _ & Hown & _ & Hshape & _ & _ & _ & _ & Hh & _).
  - apply own_arrays_reflect. vm_compute. reflexivity.
  - assert (H : map_Forall (fun _ W => is_Some (arrays attached_pair !! _children W))
                  (widgets attached_pair)).
    { apply (bool_decide_unpack _). vm_compute. reflexivity. }
    exact H.
  - change (2 ^ 15) with 32768. lia.
  - assert (E : newWidget (js_or (js_shl 1 16) 1) plain_sheet attached_pair = Ret w s')
      by exact Hrun.
    assert (Hw3 : w = 3%nat).
    { vm_compute in E. by injection E as <- _. }
    subst w. exists s'. split_and!; [exact Hrun | | exact Hown | exact Hshape | exact Hh].
    by apply Hother.
Defined.
